(** * PlaygroundQueryExecutor: submission, polling and result classification

    A shallow embedding of [libs/python/playground_query_executor.py] and of
    the argument defaults of [etl_athena_load_api.py], with the properties
    of the query submission / polling / result-retrieval state machine.

    Conventions of the embedding.
    - A Python [str] is a [string]; a character whose code is 128 or more
      stands for a non-ASCII code point.  [bytes] are [list ascii].
    - A Python [int] is a [Z].
    - A [dict] with string keys is a [gmap string _].
    - A method of the executor is a computation in the monad [M]: it reads
      the number of API calls made so far, may raise, and emits the events
      (API requests, sleeps, log lines, prints, downloads) it performs, in
      order. *)

From Stdlib Require Import ZArith NArith String Ascii List Lia Bool.
From Stdlib Require Import DecimalString.
From stdpp Require Import gmap strings list fin_maps.
Import ListNotations.

Open Scope string_scope.
Open Scope Z_scope.
Open Scope list_scope.

(* ===================================================================== *)
(** * Python values, exceptions and results                               *)
(* ===================================================================== *)

(** The scalar values a parsed JSON object holds ([None], [bool], [int],
    [str]). *)
Inductive pyval :=
| PNone
| PBool (b : bool)
| PInt (z : Z)
| PStr (s : string).

(** [str(v)], as used by f-strings. *)
Definition py_str (v : pyval) : string :=
  match v with
  | PNone => "None"
  | PBool true => "True"
  | PBool false => "False"
  | PInt z => NilZero.string_of_int (Z.to_int z)
  | PStr s => s
  end.

(** [v == s] for a string literal [s]. *)
Definition py_eq (v : pyval) (s : string) : bool :=
  match v with
  | PStr t => String.eqb t s
  | _ => false
  end.

(** The exception classes the module can raise.  The module itself only
    ever writes [raise Exception(...)]; the other classes come from
    subscripting, attribute lookup, codecs and [time.sleep]. *)
Inductive exc_class :=
| Exception_
| KeyError
| TypeError
| AttributeError
| ValueError
| UnicodeEncodeError
| UnicodeDecodeError
| JSONDecodeError
| RequestException
| ParserError.

Record exn := mk_exn { exc_type : exc_class; exc_arg : pyval }.

(** The outcome of a call: a value, a raised exception, or [OutOfFuel]
    when the bounded model of the [while] loop is given too little fuel
    (shown below never to happen for [poll_query_status]). *)
Inductive result (A : Type) :=
| Ok (a : A)
| Raise (e : exn)
| OutOfFuel.
Arguments Ok {A} a.
Arguments Raise {A} e.
Arguments OutOfFuel {A}.

(** A parsed JSON body: an object, or any other JSON value. *)
Inductive json :=
| JDict (d : gmap string pyval)
| JNotDict.

(** [obj[key]] on the ["data"] entry of a response dict. *)
Definition py_getitem (obj : option json) (key : string) : result pyval :=
  match obj with
  | Some (JDict d) =>
      match d !! key with
      | Some v => Ok v
      | None => Raise (mk_exn KeyError (PStr key))
      end
  | _ => Raise (mk_exn TypeError PNone)
  end.

(** [obj.get(key, dflt)]; [dflt] is [None] when omitted. *)
Definition py_get (obj : option json) (key : string) (dflt : pyval)
  : result pyval :=
  match obj with
  | Some (JDict d) => Ok (default dflt (d !! key))
  | _ => Raise (mk_exn AttributeError PNone)
  end.

(* ===================================================================== *)
(** * ASCII codec and base64 (RFC 4648, as [base64.b64encode/b64decode])  *)
(* ===================================================================== *)

Definition Z_of_byte (c : ascii) : Z := Z.of_N (N_of_ascii c).
Definition byte_of_Z (z : Z) : ascii := ascii_of_N (Z.to_N z).

Definition is_ascii_char (c : ascii) : bool := Z_of_byte c <? 128.

Definition is_ascii (s : string) : bool :=
  forallb is_ascii_char (list_ascii_of_string s).

(** [s.encode("ascii")] *)
Definition str_encode_ascii (s : string) : result (list ascii) :=
  if is_ascii s then Ok (list_ascii_of_string s)
  else Raise (mk_exn UnicodeEncodeError PNone).

(** [b.decode("ascii")] *)
Definition bytes_decode_ascii (b : list ascii) : result string :=
  if forallb is_ascii_char b then Ok (string_of_list_ascii b)
  else Raise (mk_exn UnicodeDecodeError PNone).

Definition b64_table : string :=
  "ABCDEFGHIJKLMNOPQRSTUVWXYZabcdefghijklmnopqrstuvwxyz0123456789+/".

Definition b64_pad : ascii := "="%char.

(** The character of a 6-bit value. *)
Definition b64_char (i : Z) : ascii :=
  match String.get (Z.to_nat i) b64_table with
  | Some c => c
  | None => b64_pad
  end.

(** The 6-bit value of a character of the alphabet. *)
Definition b64_value (c : ascii) : option Z :=
  let n := Z_of_byte c in
  if (65 <=? n) && (n <=? 90) then Some (n - 65)
  else if (97 <=? n) && (n <=? 122) then Some (n - 71)
  else if (48 <=? n) && (n <=? 57) then Some (n + 4)
  else if n =? 43 then Some 62
  else if n =? 47 then Some 63
  else None.

Fixpoint b64encode (bs : list ascii) : list ascii :=
  match bs with
  | [] => []
  | [a] =>
      let x := Z_of_byte a in
      [b64_char (x / 4); b64_char ((x mod 4) * 16); b64_pad; b64_pad]
  | [a; b] =>
      let x := Z_of_byte a in
      let y := Z_of_byte b in
      [b64_char (x / 4); b64_char ((x mod 4) * 16 + y / 16);
       b64_char ((y mod 16) * 4); b64_pad]
  | a :: b :: c :: rest =>
      let x := Z_of_byte a in
      let y := Z_of_byte b in
      let z := Z_of_byte c in
      b64_char (x / 4) :: b64_char ((x mod 4) * 16 + y / 16)
      :: b64_char ((y mod 16) * 4 + z / 64) :: b64_char (z mod 64)
      :: b64encode rest
  end.

(** One group of four characters; [last] tells whether it ends the input,
    where padding is allowed. *)
Definition b64decode_group (c0 c1 c2 c3 : ascii) (last : bool)
  : option (list ascii) :=
  if last && Ascii.eqb c3 b64_pad then
    if Ascii.eqb c2 b64_pad then
      match b64_value c0, b64_value c1 with
      | Some v0, Some v1 => Some [byte_of_Z (v0 * 4 + v1 / 16)]
      | _, _ => None
      end
    else
      match b64_value c0, b64_value c1, b64_value c2 with
      | Some v0, Some v1, Some v2 =>
          Some [byte_of_Z (v0 * 4 + v1 / 16);
                byte_of_Z ((v1 mod 16) * 16 + v2 / 4)]
      | _, _, _ => None
      end
  else
    match b64_value c0, b64_value c1, b64_value c2, b64_value c3 with
    | Some v0, Some v1, Some v2, Some v3 =>
        Some [byte_of_Z (v0 * 4 + v1 / 16);
              byte_of_Z ((v1 mod 16) * 16 + v2 / 4);
              byte_of_Z ((v2 mod 4) * 64 + v3)]
    | _, _, _, _ => None
    end.

Fixpoint b64decode_bytes (cs : list ascii) : option (list ascii) :=
  match cs with
  | [] => Some []
  | c0 :: c1 :: c2 :: c3 :: rest =>
      match b64decode_group c0 c1 c2 c3
              (match rest with [] => true | _ => false end) with
      | Some g =>
          match b64decode_bytes rest with
          | Some bs => Some (g ++ bs)
          | None => None
          end
      | None => None
      end
  | _ => None
  end.

(** [base64.b64decode(s)] on a [str]; [None] stands for [binascii.Error]. *)
Definition b64decode (s : string) : option (list ascii) :=
  b64decode_bytes (list_ascii_of_string s).

(* ===================================================================== *)
(** * The API client, requests and responses                              *)
(* ===================================================================== *)

(** [json.dumps(d)]: the JSON text of a flat dict of strings, kept up to
    JSON equivalence; [json_loads] reads the members back. *)
Inductive json_text :=
| json_dumps (d : gmap string string).

Definition json_loads (t : json_text) : gmap string string :=
  match t with json_dumps d => d end.

(** The keyword arguments of [api.make_request]. *)
Record request := {
  method : string;
  custom_url : string;
  req_data : option json_text;
  headers : gmap string string
}.

(** What [api.make_request] hands back: an object with a [status_code]
    (a [requests] response, whose [json()] either parses the body or
    raises), or an object without that attribute. *)
Inductive api_response :=
| Response (status_code : Z) (reason : string) (body : exn + json)
| NoStatusCode (obj : json).

(** The externally supplied client: its base URL and its answer to the
    [n]-th request made through it. *)
Record Api := {
  _url : string;
  make_request : nat -> request -> api_response
}.

(** The dict built by [_custom_json_response]. *)
Record json_resp := {
  exitcode : Z;
  message : option string;
  data : option json;
  response : option api_response
}.

(* ===================================================================== *)
(** * Effects: events and the monad of executor methods                   *)
(* ===================================================================== *)

Inductive log_level := DEBUG | INFO | WARNING | ERROR.

Inductive event :=
| EvRequest (r : request)           (* a call of api.make_request *)
| EvSleep (seconds : Z)             (* time.sleep(seconds) *)
| EvLog (lvl : log_level) (fmt : string)  (* logger call, its format string *)
| EvPrint (fmt : string)            (* print(...), its message template *)
| EvDownload (link : pyval).        (* requests.get(link) *)

(** The outcome of running a method from a state where [n] API calls were
    made: its result, the number of API calls made afterwards, and the
    events it performed. *)
Record outcome (A : Type) := mk_outcome {
  res : result A;
  calls : nat;
  events : list event
}.
Arguments mk_outcome {A} res calls events.
Arguments res {A} o.
Arguments calls {A} o.
Arguments events {A} o.

Definition M (A : Type) : Type := nat -> outcome A.

Definition ret {A} (a : A) : M A := fun n => mk_outcome (Ok a) n [].

(** [prepend evs o]: the outcome [o] reached after the events [evs]. *)
Definition prepend {A} (evs : list event) (o : outcome A) : outcome A :=
  mk_outcome (res o) (calls o) (evs ++ events o).

Definition bind {A B} (m : M A) (f : A -> M B) : M B := fun n =>
  match m n with
  | mk_outcome (Ok a) n' evs => prepend evs (f a n')
  | mk_outcome (Raise e) n' evs => mk_outcome (Raise e) n' evs
  | mk_outcome OutOfFuel n' evs => mk_outcome OutOfFuel n' evs
  end.

Definition lift {A} (r : result A) : M A := fun n => mk_outcome r n [].

Definition raise {A} (e : exn) : M A := lift (Raise e).

Definition emit (e : event) : M unit := fun n => mk_outcome (Ok tt) n [e].

Notation "'let*' x ':=' m 'in' k" := (bind m (fun x => k))
  (at level 10, x name, m at level 100, k at level 200).
Notation "m '>>' k" := (bind m (fun _ => k))
  (at level 90, right associativity).

Definition log (lvl : log_level) (fmt : string) : M unit :=
  emit (EvLog lvl fmt).

Definition print (fmt : string) : M unit := emit (EvPrint fmt).

(** [time.sleep(t)]: a negative length raises [ValueError]. *)
Definition time_sleep (t : Z) : M unit :=
  if t <? 0 then raise (mk_exn ValueError (PStr "sleep length must be non-negative"))
  else emit (EvSleep t).

(* ===================================================================== *)
(** * class PlaygroundQueryExecutor                                        *)
(* ===================================================================== *)

(** The fields set by [__init__].  The logger is not a field: the log
    lines of a method are among its events. *)
Record PlaygroundQueryExecutor := {
  api : Api;
  query : string;
  work_group : string;
  query_target_location : string;
  assume_role : string;
  retry : Z;
  delay : Z
}.

(** [__init__]: an argument the caller leaves out is [None] here and takes
    the default of the signature. *)
Definition __init__ (api : Api) (query : string)
    (work_group query_target_location assume_role : option string)
    (retry delay : option Z) : PlaygroundQueryExecutor :=
  {| api := api;
     query := query;
     work_group := default "primary" work_group;
     query_target_location := default "athena" query_target_location;
     assume_role := default "no" assume_role;
     retry := default 5 retry;
     delay := default 60 delay |}.

Definition exn_str (e : exn) : string := py_str (exc_arg e).

Definition _custom_json_response (response : api_response)
    (exitcode : Z) (message : option string) : json_resp :=
  let parse_failure (ex : exn) :=
    {| exitcode := 1;
       message := Some ("Failed to parse response: " +:+ exn_str ex);
       data := None;
       response := None |} in
  match response with
  | Response status_code reason body =>
      if status_code =? 200 then
        match body with
        | inr j =>
            {| exitcode := 0;
               message := Some "Success";
               data := Some j;
               response := Some response |}
        | inl ex => parse_failure ex
        end
      else
        match body with
        | inr j =>
            {| exitcode := status_code;
               message := Some ("Failed with error " +:+ reason);
               data := Some j;
               response := Some response |}
        | inl ex => parse_failure ex
        end
  | NoStatusCode obj =>
      {| exitcode := exitcode;
         message := message;
         data := Some obj;
         response := None |}
  end.

(** A call of [self.api.make_request] with keyword arguments [req]: the
    [n]-th call made through the client. *)
Definition api_make_request (self : PlaygroundQueryExecutor) (req : request)
  : M api_response :=
  fun n => mk_outcome (Ok (make_request (api self) n req)) (S n) [EvRequest req].

Definition _safe_api_call (self : PlaygroundQueryExecutor) (req : request)
  : M json_resp :=
  let* response := api_make_request self req in
  let json_resp := _custom_json_response response 0 None in
  if negb (exitcode json_resp =? 0) then
    raise (mk_exn Exception_
             (PStr ("API call failed: "
                    +:+ match message json_resp with
                       | Some m => m
                       | None => "None"
                       end)))
  else ret json_resp.

Definition build_query_payload (self : PlaygroundQueryExecutor) : M json_text :=
  log INFO "In PlaygroundQueryExecutor.build_query_payload" >>
  log DEBUG "Query: %s, WorkGroup: %s, Target: %s, AssumeRole: %s" >>
  let* query_bytes := lift (str_encode_ascii (query self)) in
  let query_base64_bytes := b64encode query_bytes in
  let* query_base64_string := lift (bytes_decode_ascii query_base64_bytes) in
  let payload :=
    if String.eqb (query_target_location self) "athena" then
      json_dumps {[ "QueryString" := query_base64_string;
                    "Encoding" := "base64";
                    "WorkGroup" := work_group self;
                    "AssumeRole" := assume_role self ]}
    else
      json_dumps {[ "QueryString" := query_base64_string;
                    "Encoding" := "base64";
                    "QueryTargetLocation" := query_target_location self ]} in
  log INFO "In build_query_payload,Encoded Query" >>
  ret payload.

Definition json_headers : gmap string string :=
  {[ "Content-Type" := "application/json" ]}.

Definition submit_request (self : PlaygroundQueryExecutor) (payload : json_text)
  : request :=
  {| method := "POST";
     custom_url := _url (api self) +:+ "/queries";
     req_data := Some payload;
     headers := json_headers |}.

Definition submit_query (self : PlaygroundQueryExecutor) (payload : json_text)
  : M json_resp :=
  log INFO "In PlaygroundQueryExecutor.submit_query, Submitting query" >>
  log DEBUG "In PlaygroundQueryExecutor.submit_query,Method: 'POST', Endpoint: %s\n Payload : %s" >>
  let* response := _safe_api_call self (submit_request self payload) in
  ret response.

Definition status_request (self : PlaygroundQueryExecutor) (query_id : pyval)
  : request :=
  {| method := "GET";
     custom_url := _url (api self) +:+ "/queries/" +:+ py_str query_id;
     req_data := None;
     headers := json_headers |}.

(** The [while] loop of [poll_query_status] together with the two
    statements after it.  [fuel] bounds the number of iterations. *)
Fixpoint poll_loop (fuel : nat) (self : PlaygroundQueryExecutor)
    (req : request) (response : json_resp) (query_status : pyval)
    (retry_ : Z) : M json_resp :=
  if py_eq query_status "RUNNING" && (retry_ <=? retry self) then
    match fuel with
    | O => lift OutOfFuel
    | S fuel' =>
        let* response := _safe_api_call self req in
        let* query_status := lift (py_get (data response) "QueryStatus" PNone) in
        if negb (py_eq query_status "RUNNING") then ret response
        else
          log INFO "Retry: %s, Status: %s" >>
          let retry_ := retry_ + 1 in
          time_sleep (delay self) >>
          poll_loop fuel' self req response query_status retry_
    end
  else
    log WARNING "Max retries reached" >>
    ret response.

(** [poll_query_status(query_id, retry=1)]: [retry_] is the parameter, the
    loop counter; [retry self] is the configured maximum. *)
Definition poll_query_status (self : PlaygroundQueryExecutor)
    (query_id : pyval) (retry_ : Z) : M json_resp :=
  log INFO "In PlaygroundQueryExecutor.poll_query_status, Polling query status: %s" >>
  let req := status_request self query_id in
  let* response := _safe_api_call self req in
  let* query_status := lift (py_get (data response) "QueryStatus" PNone) in
  time_sleep 20 >>
  poll_loop (Z.to_nat (retry self - retry_ + 1)) self req response
    query_status retry_.

Definition run (self : PlaygroundQueryExecutor) : M json_resp :=
  log INFO "In PlaygroundQueryExecutor.run, Running query" >>
  let* query_payload := build_query_payload self in
  let* response := submit_query self query_payload in
  let* query_id := lift (py_getitem (data response) "QueryId") in
  let* query_status_response := poll_query_status self query_id 1 in
  let* status := lift (py_getitem (data query_status_response) "QueryStatus") in
  if py_eq status "SUCCEEDED" then ret query_status_response
  else
    let* status := lift (py_getitem (data query_status_response) "QueryStatus") in
    if py_eq status "RUNNING" then
      print "Retries exhausted for query {query_id}. Query is still running." >>
      ret query_status_response
    else
      log ERROR "Query failed: %s" >>
      let* msg := lift (py_get (data query_status_response) "Message" PNone) in
      raise (mk_exn Exception_ msg).

Section FetchResults.

(** The result download and the CSV parser are outside the module:
    [requests.get(link).text] and [pd.read_csv(io.StringIO(text), sep=",")]. *)
Variable DataFrame : Type.
Variable requests_get_text : pyval -> result string.
Variable pd_read_csv : string -> result DataFrame.

(** [fetch_query_results]: [Ok None] is Python's implicit [return None]. *)
Definition fetch_query_results (self : PlaygroundQueryExecutor)
  : M (option DataFrame) :=
  log INFO "In PlaygroundQueryExecutor.fetch_query_results, Fetching results for query on endpoint: %s, target: %s" >>
  let* query_response := run self in
  let* query_status := lift (py_getitem (data query_response) "QueryStatus") in
  if py_eq query_status "SUCCEEDED" then
    let* download_link :=
      lift (py_getitem (data query_response) "ResultsDownloadLink") in
    emit (EvDownload download_link) >>
    let* text := lift (requests_get_text download_link) in
    let* pd_df := lift (pd_read_csv text) in
    ret (Some pd_df)
  else if py_eq query_status "RUNNING" then
    log ERROR "Query is still running. Increase delay or retry settings and try again." >>
    raise (mk_exn Exception_ (PStr "Query still running after retries."))
  else if py_eq query_status "FAILED" then
    let* error_message :=
      lift (py_get (data query_response) "Message" (PStr "Unknown error")) in
    raise (mk_exn Exception_ error_message)
  else
    let* status_message :=
      lift (py_get (data query_response) "Message" (PStr "")) in
    print "Query Status: {query_status} | Message: {status_message}" >>
    ret None.

End FetchResults.

(* ===================================================================== *)
(** * etl_athena_load_api.py: how the job configures the executor         *)
(* ===================================================================== *)

Definition result_bind {A B} (r : result A) (f : A -> result B) : result B :=
  match r with
  | Ok a => f a
  | Raise e => Raise e
  | OutOfFuel => OutOfFuel
  end.

Section Job.

(** [getResolvedOptions(sys.argv, [k])[k]] of [awsglue.utils], and the
    built-in [int] on a [str]. *)
Variable getResolvedOptions : list string -> string -> string.
Variable int_of_str : string -> result Z.

(** [int(v)] *)
Definition py_int (v : pyval) : result Z :=
  match v with
  | PInt z => Ok z
  | PBool b => Ok (if b then 1 else 0)
  | PStr s => int_of_str s
  | PNone => Raise (mk_exn TypeError PNone)
  end.

(** The dict [optional_args] of [main]. *)
Definition optional_args : list (string * pyval) :=
  [ ("work_group", PStr "primary");
    ("query_target_location", PStr "athena");
    ("assume_role", PStr "no");
    ("query_status_retry", PInt 20);
    ("query_status_retry_delay", PInt 15) ].

Definition in_argv (s : string) (sys_argv : list string) : bool :=
  existsb (String.eqb s) sys_argv.

(** The loop [for k, v in optional_args.items(): args[k] = ...]. *)
Definition resolve_optional_args (sys_argv : list string)
  : gmap string pyval :=
  list_to_map
    (map (fun kv : string * pyval =>
            let (k, v) := kv in
            (k, if in_argv ("--" +:+ k) sys_argv || in_argv k sys_argv
                then PStr (getResolvedOptions sys_argv k)
                else v))
         optional_args).

Definition optional_arg (k : string) : pyval :=
  default PNone (list_to_map (M := gmap string pyval) optional_args !! k).

(** The executor [execute_db_query] constructs; its own defaults repeat
    those of [__init__]. *)
Definition execute_db_query (api : Api) (athena_query : string)
    (work_group query_target_location assume_role : option string)
    (retry delay : option Z) : PlaygroundQueryExecutor :=
  __init__ api athena_query
    (Some (default "primary" work_group))
    (Some (default "athena" query_target_location))
    (Some (default "no" assume_role))
    (Some (default 5 retry))
    (Some (default 60 delay)).

(** The executor [main] runs for the SQL text [query]: the string
    settings come from [optional_args] itself, the two retry settings
    from the resolved arguments. *)
Definition main_executor (api : Api) (sys_argv : list string)
    (query : string) : result PlaygroundQueryExecutor :=
  let args := resolve_optional_args sys_argv in
  result_bind (py_int (default PNone (args !! "query_status_retry")))
    (fun retry =>
  result_bind (py_int (default PNone (args !! "query_status_retry_delay")))
    (fun delay =>
  Ok (execute_db_query api query
        (Some (py_str (optional_arg "work_group")))
        (Some (py_str (optional_arg "query_target_location")))
        (Some (py_str (optional_arg "assume_role")))
        (Some retry) (Some delay)))).

End Job.

(* ===================================================================== *)
(** * Reading traces and responses                                        *)
(* ===================================================================== *)

Definition is_status_get (e : event) : bool :=
  match e with
  | EvRequest r => String.eqb (method r) "GET"
  | _ => false
  end.

(** The number of status GET calls in a trace. *)
Definition count_gets (evs : list event) : nat :=
  length (List.filter is_status_get evs).

Definition is_sleep (e : event) : bool :=
  match e with
  | EvSleep _ => true
  | _ => false
  end.

(** The sleeps of a trace, in order. *)
Definition sleeps (evs : list event) : list Z :=
  omap (fun e => match e with EvSleep t => Some t | _ => None end) evs.

(** The status snapshot an API answer carries, when [_safe_api_call]
    accepts the answer and its data is a JSON object. *)
Definition snapshot_of (r : api_response) : option (gmap string pyval) :=
  let jr := _custom_json_response r 0 None in
  if exitcode jr =? 0 then
    match data jr with
    | Some (JDict d) => Some d
    | _ => None
    end
  else None.

(** The ["QueryStatus"] of a snapshot, [None] (Python's) when absent. *)
Definition status_of (d : gmap string pyval) : pyval :=
  default PNone (d !! "QueryStatus").

Definition is_running (d : gmap string pyval) : bool :=
  py_eq (status_of d) "RUNNING".

(** The [i]-th answer of the client to the status GET of a handle. *)
Definition status_answer (self : PlaygroundQueryExecutor) (query_id : pyval)
    (i : nat) : api_response :=
  make_request (api self) i (status_request self query_id).

(** The dict [_safe_api_call] builds from an answer. *)
Definition answer_resp (r : api_response) : json_resp :=
  _custom_json_response r 0 None.

(** An answer is a RUNNING snapshot. *)
Definition running_answer (r : api_response) : Prop :=
  exists d, snapshot_of r = Some d /\ is_running d = true.

(** The API requests of a trace, in order. *)
Definition requests (evs : list event) : list request :=
  omap (fun e => match e with EvRequest r => Some r | _ => None end) evs.

(** [_safe_api_call] rejects the answer [r]. *)
Definition rejected (r : api_response) : Prop :=
  exitcode (answer_resp r) <> 0.

(** The exception [_safe_api_call] raises for a rejected answer. *)
Definition api_call_failed (r : api_response) : exn :=
  mk_exn Exception_
    (PStr ("API call failed: "
           +:+ match message (answer_resp r) with
               | Some m => m
               | None => "None"
               end)).

(** An HTTP status code is a three-digit integer. *)
Definition http_status_code (c : Z) : Prop := 100 <= c <= 999.

(** ** The payload builder *)

(** The log lines of [build_query_payload]. *)
Definition payload_logs : list event :=
  [ EvLog INFO "In PlaygroundQueryExecutor.build_query_payload";
    EvLog DEBUG "Query: %s, WorkGroup: %s, Target: %s, AssumeRole: %s";
    EvLog INFO "In build_query_payload,Encoded Query" ].

(** The base64 text of an SQL string. *)
Definition encoded (sql : string) : string :=
  string_of_list_ascii (b64encode (list_ascii_of_string sql)).

(** ** The traces of [poll_query_status] *)

(** First poll and warm-up. *)
Definition poll_prefix (self : PlaygroundQueryExecutor) (query_id : pyval)
  : list event :=
  [ EvLog INFO "In PlaygroundQueryExecutor.poll_query_status, Polling query status: %s";
    EvRequest (status_request self query_id);
    EvSleep 20 ].

(** One iteration of the loop that observes RUNNING. *)
Definition loop_iteration (self : PlaygroundQueryExecutor) (req : request)
  : list event :=
  [ EvRequest req; EvLog INFO "Retry: %s, Status: %s"; EvSleep (delay self) ].

Fixpoint loop_trace (self : PlaygroundQueryExecutor) (req : request) (j : nat)
  : list event :=
  match j with
  | O => []
  | S j' => loop_iteration self req ++ loop_trace self req j'
  end.

(** The response the loop holds after [j] iterations that started at API
    call [n]: the one it was entered with, or the last answer. *)
Definition response_after (self : PlaygroundQueryExecutor) (req : request)
    (response : json_resp) (n j : nat) : json_resp :=
  match j with
  | O => response
  | S j' => answer_resp (make_request (api self) (n + j') req)
  end.

(** ** The parts of [run] and [fetch_query_results] *)

(** The submission made as the [n]-th API call is accepted and its data
    holds the handle [query_id]. *)
Definition submitted (self : PlaygroundQueryExecutor) (n : nat)
    (query_id : pyval) : Prop :=
  exists payload d,
    res (build_query_payload self n) = Ok payload /\
    snapshot_of (make_request (api self) n (submit_request self payload)) = Some d /\
    d !! "QueryId" = Some query_id.

(** The statements of [run] that follow [poll_query_status]. *)
Definition run_classify (query_status_response : json_resp) : M json_resp :=
  let* status := lift (py_getitem (data query_status_response) "QueryStatus") in
  if py_eq status "SUCCEEDED" then ret query_status_response
  else
    let* status := lift (py_getitem (data query_status_response) "QueryStatus") in
    if py_eq status "RUNNING" then
      print "Retries exhausted for query {query_id}. Query is still running." >>
      ret query_status_response
    else
      log ERROR "Query failed: %s" >>
      let* msg := lift (py_get (data query_status_response) "Message" PNone) in
      raise (mk_exn Exception_ msg).

(** The events of [run] up to and including the submission. *)
Definition run_prefix (self : PlaygroundQueryExecutor) (payload : json_text)
  : list event :=
  [ EvLog INFO "In PlaygroundQueryExecutor.run, Running query" ]
  ++ payload_logs
  ++ [ EvLog INFO "In PlaygroundQueryExecutor.submit_query, Submitting query";
       EvLog DEBUG "In PlaygroundQueryExecutor.submit_query,Method: 'POST', Endpoint: %s\n Payload : %s";
       EvRequest (submit_request self payload) ].

(** A computation is strict about its API calls when the first rejected
    answer ends it with the exception of [_safe_api_call]: no later call is
    made and nothing catches the exception. *)
Definition api_strict {A} (self : PlaygroundQueryExecutor) (m : M A) : Prop :=
  forall n,
    calls (m n) = (n + length (requests (events (m n))))%nat /\
    forall j req,
      requests (events (m n)) !! j = Some req ->
      rejected (make_request (api self) (n + j) req) ->
      res (m n) = Raise (api_call_failed (make_request (api self) (n + j) req)) /\
      length (requests (events (m n))) = S j.

(** ** Concrete clients and executors used in examples *)

(** A client that answers every request with the given responses. *)
Definition scripted_api (post_answer : api_response)
    (get_answer : nat -> api_response) : Api :=
  {| _url := "https://api.example";
     make_request := fun n req =>
       if String.eqb (method req) "POST" then post_answer else get_answer n |}.

Definition ok_json (d : gmap string pyval) : api_response :=
  Response 200 "OK" (inr (JDict d)).

Definition handle_answer : api_response :=
  ok_json {[ "QueryId" := PStr "q-1" ]}.

Definition status_json (status : string) : api_response :=
  ok_json {[ "QueryStatus" := PStr status ]}.

Definition status_message_json (status msg : string) : api_response :=
  ok_json {[ "QueryStatus" := PStr status; "Message" := PStr msg ]}.

(** Always RUNNING. *)
Definition running_api : Api :=
  scripted_api handle_answer (fun _ => status_json "RUNNING").

(** RUNNING for the calls before the [k]-th, then SUCCEEDED. *)
Definition succeeds_at_api (k : nat) : Api :=
  scripted_api handle_answer
    (fun n => if (n <? k)%nat then status_json "RUNNING"
              else status_json "SUCCEEDED").

Definition failed_api (msg : string) : Api :=
  scripted_api handle_answer (fun _ => status_message_json "FAILED" msg).

Definition failed_no_message_api : Api :=
  scripted_api handle_answer (fun _ => status_json "FAILED").

Definition cancelled_api : Api :=
  scripted_api handle_answer
    (fun _ => status_message_json "CANCELLED" "cancelled by user").

(** The submission is answered [201 Created]. *)
Definition created_api : Api :=
  scripted_api (Response 201 "Created" (inr (JDict {[ "QueryId" := PStr "q-1" ]})))
    (fun _ => status_json "SUCCEEDED").

(** An executor with the constructor's defaults, except for the retry
    settings given. *)
Definition executor (api : Api) (sql : string) (retry delay : Z)
  : PlaygroundQueryExecutor :=
  __init__ api sql None None None (Some retry) (Some delay).

Definition sample_sql : string := "SELECT 1".

(** A one-character SQL text outside ASCII (code point 233). *)
Definition non_ascii_sql : string := String (ascii_of_nat 233) "".

(** A download and a parser for the examples: the text of the link is the
    link itself, a table is its text. *)
Definition echo_get_text (link : pyval) : result string := Ok (py_str link).
Definition text_read_csv (text : string) : result string := Ok text.


(* ===================================================================== *)
(** * Further readings of traces and outcomes                             *)
(* ===================================================================== *)

Definition is_post (r : request) : bool := String.eqb (method r) "POST".

(** The number of submissions (POST requests) in a trace. *)
Definition count_posts (evs : list event) : nat :=
  length (List.filter is_post (requests evs)).

(** The links downloaded in a trace, in order. *)
Definition downloads (evs : list event) : list pyval :=
  omap (fun e => match e with EvDownload l => Some l | _ => None end) evs.

(** A computation that always returns or raises. *)
Definition terminates {A} (m : M A) : Prop :=
  forall n, res (m n) <> OutOfFuel.

(** A computation that makes no API call, sleeps no time and downloads
    nothing. *)
Definition quiet {A} (m : M A) : Prop :=
  forall n,
    calls (m n) = n /\ requests (events (m n)) = [] /\
    sleeps (events (m n)) = [] /\ downloads (events (m n)) = [].

(* ===================================================================== *)
(** * etl_athena_load_api.py: read_sql_file                                *)
(* ===================================================================== *)

(** [s.split(sep)] for a one-character separator: the pieces between the
    occurrences of [sep], never an empty list. *)
Fixpoint str_split (sep : ascii) (s : string) : list string :=
  match s with
  | EmptyString => [EmptyString]
  | String c rest =>
      match str_split sep rest with
      | [] => [String c EmptyString]
      | w :: ws =>
          if Ascii.eqb c sep then EmptyString :: w :: ws
          else String c w :: ws
      end
  end.

(** [sep.join(parts)] *)
Fixpoint str_join (sep : string) (parts : list string) : string :=
  match parts with
  | [] => EmptyString
  | [w] => w
  | w :: ws => w +:+ sep +:+ str_join sep ws
  end.

(** ["_".join(key.split("/")[-1].split("_")[3:])]: the file name inside an
    object key of the pattern <USERID>_<DATASET_ID>_<UPLOAD_EPOCH>_<FILENAME>. *)
Definition filename_of_key (key : string) : string :=
  str_join "_"
    (skipn 3 (str_split "_"%char (List.last (str_split "/"%char key) EmptyString))).

Section ReadSqlFile.

(** The object store helpers of [amorphicutils.awshelper]:
    [list_bucket_objects(bucket_name, prefix, region)], as the keys of the
    objects it lists, and [get_object(bucket_name, object_name)] followed
    by [read().decode("utf-8")]. *)
Variable list_bucket_objects : string -> string -> option string -> result (list string).
Variable get_object_text : string -> string -> result string.

(** The [for] loop of [read_sql_file] with the two statements after it. *)
Fixpoint read_sql_file_loop (bucket_name sql_file_name : string)
    (keys : list string) : M (option string) :=
  match keys with
  | [] =>
      log INFO "File : %s not found. Check the file name." >>
      ret None
  | key :: keys' =>
      let filename := filename_of_key key in
      if String.eqb filename sql_file_name then
        log INFO "Reading the SQL file : %s" >>
        let* query := lift (get_object_text bucket_name key) in
        ret (Some query)
      else read_sql_file_loop bucket_name sql_file_name keys'
  end.

(** [read_sql_file(bucket_name, prefix, sql_file_name, region_name=None)];
    [Ok None] is the [return None] of a file that was not found. *)
Definition read_sql_file (bucket_name prefix sql_file_name : string)
    (region_name : option string) : M (option string) :=
  log INFO "In read_sql_file, Bucket: %s, Prefix: %s, Filename %s" >>
  let* response_contents :=
    lift (list_bucket_objects bucket_name prefix region_name) in
  read_sql_file_loop bucket_name sql_file_name response_contents.

End ReadSqlFile.

(** A string without the character [c]. *)
Fixpoint lacks (c : ascii) (s : string) : bool :=
  match s with
  | EmptyString => true
  | String x rest => negb (Ascii.eqb x c) && lacks c rest
  end.

(** The keys whose file name is the one asked for. *)
Definition names_file (sql_file_name : string) (key : string) : bool :=
  String.eqb (filename_of_key key) sql_file_name.

(** Object stores for the examples: a listing and the text of each key. *)
Definition sample_keys : list string :=
  [ "sales/orders/u1_ds1_1700000000_other.sql";
    "sales/orders/u1_ds1_1700000001_daily_load.sql";
    "sales/orders/u2_ds1_1700000002_daily_load.sql" ].

Definition sample_listing (bucket_name prefix : string) (region : option string)
  : result (list string) := Ok sample_keys.

Definition sample_object_text (bucket_name key : string) : result string :=
  Ok ("-- " +:+ key).

(* ===================================================================== *)
(** * Base64: decoding inverts encoding                                   *)
(* ===================================================================== *)

Module Base64.

Lemma byte_range (a : ascii) : 0 <= Z_of_byte a < 256.
Proof.
  unfold Z_of_byte. pose proof (N_ascii_bounded a). lia.
Qed.

Lemma byte_of_Z_of_byte (a : ascii) : byte_of_Z (Z_of_byte a) = a.
Proof.
  unfold byte_of_Z, Z_of_byte. rewrite N2Z.id. apply ascii_N_embedding.
Qed.

Lemma byte_of_Z_eq z (a : ascii) : z = Z_of_byte a -> byte_of_Z z = a.
Proof. intros ->. apply byte_of_Z_of_byte. Qed.

(** Any property of the 64 table entries is checked entry by entry. *)
Lemma sextet_cases (P : Z -> Prop) :
  (forall n : nat, (n < 64)%nat -> P (Z.of_nat n)) ->
  forall i, 0 <= i < 64 -> P i.
Proof.
  intros H i Hi. rewrite <- (Z2Nat.id i) by lia. apply H. lia.
Qed.

Lemma b64_value_char i : 0 <= i < 64 -> b64_value (b64_char i) = Some i.
Proof.
  revert i. apply sextet_cases. intros n Hn.
  do 64 (destruct n as [|n]; [vm_compute; reflexivity|]). lia.
Qed.

Lemma b64_char_not_pad i : 0 <= i < 64 -> Ascii.eqb (b64_char i) b64_pad = false.
Proof.
  revert i. apply sextet_cases. intros n Hn.
  do 64 (destruct n as [|n]; [vm_compute; reflexivity|]). lia.
Qed.

Lemma b64_char_is_ascii i : 0 <= i < 64 -> is_ascii_char (b64_char i) = true.
Proof.
  revert i. apply sextet_cases. intros n Hn.
  do 64 (destruct n as [|n]; [vm_compute; reflexivity|]). lia.
Qed.

Lemma pad_is_ascii : is_ascii_char b64_pad = true.
Proof. reflexivity. Qed.

(** The four 6-bit values cut from three bytes are in range. *)
Ltac sextet_range :=
  repeat match goal with
         | a : ascii |- _ =>
             lazymatch goal with
             | _ : 0 <= Z_of_byte a < 256 |- _ => fail
             | _ => pose proof (byte_range a)
             end
         end;
  Z.div_mod_to_equations; lia.

Lemma decode_group3 a b c last :
  let x := Z_of_byte a in
  let y := Z_of_byte b in
  let z := Z_of_byte c in
  b64decode_group (b64_char (x / 4)) (b64_char ((x mod 4) * 16 + y / 16))
    (b64_char ((y mod 16) * 4 + z / 64)) (b64_char (z mod 64)) last
  = Some [a; b; c].
Proof.
  intros x y z. subst x y z. unfold b64decode_group.
  rewrite (b64_char_not_pad (Z_of_byte c mod 64)) by sextet_range.
  rewrite andb_false_r.
  rewrite !b64_value_char by sextet_range.
  repeat f_equal; apply byte_of_Z_eq; sextet_range.
Qed.

Lemma decode_group2 a b :
  let x := Z_of_byte a in
  let y := Z_of_byte b in
  b64decode_group (b64_char (x / 4)) (b64_char ((x mod 4) * 16 + y / 16))
    (b64_char ((y mod 16) * 4)) b64_pad true
  = Some [a; b].
Proof.
  intros x y. subst x y. unfold b64decode_group.
  rewrite Ascii.eqb_refl. cbn [andb].
  rewrite (b64_char_not_pad (Z_of_byte b mod 16 * 4)) by sextet_range.
  rewrite !b64_value_char by sextet_range.
  repeat f_equal; apply byte_of_Z_eq; sextet_range.
Qed.

Lemma decode_group1 a :
  let x := Z_of_byte a in
  b64decode_group (b64_char (x / 4)) (b64_char ((x mod 4) * 16))
    b64_pad b64_pad true
  = Some [a].
Proof.
  intros x. subst x. unfold b64decode_group.
  rewrite Ascii.eqb_refl. cbn [andb].
  rewrite !b64_value_char by sextet_range.
  repeat f_equal; apply byte_of_Z_eq; sextet_range.
Qed.

(** Induction on a list of bytes, three at a time. *)
Lemma bytes_ind3 (P : list ascii -> Prop) :
  P [] ->
  (forall a, P [a]) ->
  (forall a b, P [a; b]) ->
  (forall a b c rest, P rest -> P (a :: b :: c :: rest)) ->
  forall bs, P bs.
Proof.
  intros H0 H1 H2 H3 bs.
  enough (H : P bs /\ (forall a, P (a :: bs)) /\ (forall a b, P (a :: b :: bs)))
    by apply H.
  induction bs as [|c rest (IH0 & IH1 & IH2)].
  - auto.
  - repeat split; auto.
Qed.

Theorem b64decode_b64encode bs :
  b64decode_bytes (b64encode bs) = Some bs.
Proof.
  induction bs as [|a|a b|a b c rest IH] using bytes_ind3.
  - reflexivity.
  - cbn [b64encode b64decode_bytes]. rewrite decode_group1. reflexivity.
  - cbn [b64encode b64decode_bytes]. rewrite decode_group2. reflexivity.
  - cbn [b64encode]. cbn [b64decode_bytes].
    rewrite decode_group3. fold b64decode_bytes. rewrite IH. reflexivity.
Qed.

Lemma b64encode_is_ascii bs : forallb is_ascii_char (b64encode bs) = true.
Proof.
  induction bs as [|a|a b|a b c rest IH] using bytes_ind3;
    cbn [b64encode forallb];
    rewrite ?IH, ?pad_is_ascii, ?b64_char_is_ascii by sextet_range;
    reflexivity.
Qed.

End Base64.

(* ===================================================================== *)
(** * The payload builder                                                 *)
(* ===================================================================== *)

Module Payload.

Lemma build_ascii self n :
  is_ascii (query self) = true ->
  build_query_payload self n =
    mk_outcome
      (Ok (if String.eqb (query_target_location self) "athena" then
             json_dumps {[ "QueryString" := encoded (query self);
                           "Encoding" := "base64";
                           "WorkGroup" := work_group self;
                           "AssumeRole" := assume_role self ]}
           else
             json_dumps {[ "QueryString" := encoded (query self);
                           "Encoding" := "base64";
                           "QueryTargetLocation" := query_target_location self ]}))
      n payload_logs.
Proof.
  intros Hq.
  unfold build_query_payload, bind, log, emit, lift, ret, str_encode_ascii,
    bytes_decode_ascii.
  cbn [res calls events]. rewrite Hq. cbn [res calls events].
  rewrite Base64.b64encode_is_ascii. reflexivity.
Qed.

Lemma build_non_ascii self n :
  is_ascii (query self) = false ->
  res (build_query_payload self n) = Raise (mk_exn UnicodeEncodeError PNone).
Proof.
  intros Hq.
  unfold build_query_payload, bind, log, emit, lift, ret, str_encode_ascii.
  cbn [res calls events]. rewrite Hq. reflexivity.
Qed.

(** Building a payload makes no API call. *)
Lemma build_calls self n : calls (build_query_payload self n) = n.
Proof.
  destruct (is_ascii (query self)) eqn:Hq.
  - rewrite build_ascii by assumption. reflexivity.
  - unfold build_query_payload, bind, log, emit, lift, ret, str_encode_ascii.
    cbn [res calls events]. rewrite Hq. reflexivity.
Qed.

Lemma decode_encoded sql :
  is_ascii sql = true ->
  exists bs, b64decode (encoded sql) = Some bs /\
             bytes_decode_ascii bs = Ok sql.
Proof.
  intros Hq. exists (list_ascii_of_string sql). split.
  - unfold b64decode, encoded.
    rewrite list_ascii_of_string_of_list_ascii.
    apply Base64.b64decode_b64encode.
  - unfold bytes_decode_ascii. unfold is_ascii in Hq. rewrite Hq.
    now rewrite string_of_list_ascii_of_string.
Qed.

End Payload.

Example encode_select_1 :
  encoded "SELECT 1" = "U0VMRUNUIDE=".
Proof. reflexivity. Qed.

Example decode_select_1 :
  b64decode "U0VMRUNUIDE=" = Some (list_ascii_of_string "SELECT 1").
Proof. reflexivity. Qed.

Example encode_padding_2 : encoded "ab" = "YWI=".
Proof. reflexivity. Qed.

Example encode_no_padding : encoded "abc" = "YWJj".
Proof. reflexivity. Qed.

(** C4: for every ASCII SQL string, base64-decoding the QueryString field
    of the payload built by [build_query_payload], and reading the bytes
    back as ASCII, gives the original SQL text. *)
Theorem C4_payload_roundtrip (self : PlaygroundQueryExecutor) (n : nat) :
  is_ascii (query self) = true ->
  exists payload encoded_query bs,
    res (build_query_payload self n) = Ok payload /\
    json_loads payload !! "QueryString" = Some encoded_query /\
    b64decode encoded_query = Some bs /\
    bytes_decode_ascii bs = Ok (query self).
Proof.
  intros Hq.
  destruct (Payload.decode_encoded (query self) Hq) as (bs & Hdec & Hstr).
  rewrite Payload.build_ascii by assumption. cbn [res].
  destruct (String.eqb (query_target_location self) "athena");
    eexists _, (encoded (query self)), bs;
    (split; [reflexivity|]); (split; [|split; assumption]);
    cbn [json_loads]; apply lookup_insert_eq.
Qed.

Lemma C4_payload_roundtrip_witness :
  exists payload encoded_query bs,
    res (build_query_payload (executor running_api sample_sql 5 60) 0%nat) = Ok payload /\
    json_loads payload !! "QueryString" = Some encoded_query /\
    b64decode encoded_query = Some bs /\
    bytes_decode_ascii bs = Ok sample_sql.
Proof.
  apply (C4_payload_roundtrip (executor running_api sample_sql 5 60) 0%nat).
  reflexivity.
Defined.

Example athena_payload_fields :
  res (build_query_payload (executor running_api sample_sql 5 60) 0%nat)
  = Ok (json_dumps {[ "QueryString" := "U0VMRUNUIDE=";
                      "Encoding" := "base64";
                      "WorkGroup" := "primary";
                      "AssumeRole" := "no" ]}).
Proof. reflexivity. Qed.

(** C5, as stated, fails: for a request whose SQL text is not ASCII,
    [self.query.encode("ascii")] raises and no payload is produced,
    whatever the target location. *)
Lemma C5_non_ascii_counterexample :
  query_target_location (executor running_api non_ascii_sql 5 60) = "athena" /\
  res (build_query_payload (executor running_api non_ascii_sql 5 60) 0%nat)
  = Raise (mk_exn UnicodeEncodeError PNone) /\
  ~ exists payload,
      res (build_query_payload (executor running_api non_ascii_sql 5 60) 0%nat)
      = Ok payload.
Proof.
  split; [reflexivity|]. split; [reflexivity|].
  intros (payload & H). vm_compute in H. discriminate H.
Qed.

(** C5 (amended): for every request whose SQL text is ASCII,
    [build_query_payload] produces a payload; with target location
    "athena" its fields are exactly QueryString, Encoding, WorkGroup and
    AssumeRole; with any other target location they are exactly
    QueryString, Encoding and QueryTargetLocation.  The fields beyond the
    common pair exclude each other. *)
Theorem C5_payload_fields (self : PlaygroundQueryExecutor) (n : nat) :
  is_ascii (query self) = true ->
  exists payload,
    res (build_query_payload self n) = Ok payload /\
    (query_target_location self = "athena" ->
       dom (json_loads payload)
       = ({[ "QueryString"; "Encoding"; "WorkGroup"; "AssumeRole" ]} : gset string) /\
       "QueryTargetLocation" ∉ dom (json_loads payload)) /\
    (query_target_location self <> "athena" ->
       dom (json_loads payload)
       = ({[ "QueryString"; "Encoding"; "QueryTargetLocation" ]} : gset string) /\
       ("WorkGroup" ∉ dom (json_loads payload)) /\
       "AssumeRole" ∉ dom (json_loads payload)).
Proof.
  intros Hq. rewrite Payload.build_ascii by assumption. cbn [res].
  destruct (String.eqb_spec (query_target_location self) "athena") as [Heq|Hne];
    eexists; (split; [reflexivity|]); cbn [json_loads];
    rewrite !dom_insert_L, dom_singleton_L.
  - split; [intros _|intros Hne; contradiction].
    split; [set_solver|].
    rewrite !elem_of_union, !elem_of_singleton. intros H.
    repeat destruct H as [H|H]; discriminate H.
  - split; [intros Heq; contradiction|intros _].
    split; [set_solver|].
    split; rewrite !elem_of_union, !elem_of_singleton; intros H;
      repeat destruct H as [H|H]; discriminate H.
Qed.

Lemma C5_payload_fields_witness :
  exists payload,
    res (build_query_payload (executor running_api sample_sql 5 60) 0%nat) = Ok payload /\
    (query_target_location (executor running_api sample_sql 5 60) = "athena" ->
       dom (json_loads payload)
       = ({[ "QueryString"; "Encoding"; "WorkGroup"; "AssumeRole" ]} : gset string) /\
       "QueryTargetLocation" ∉ dom (json_loads payload)) /\
    (query_target_location (executor running_api sample_sql 5 60) <> "athena" ->
       dom (json_loads payload)
       = ({[ "QueryString"; "Encoding"; "QueryTargetLocation" ]} : gset string) /\
       ("WorkGroup" ∉ dom (json_loads payload)) /\
       "AssumeRole" ∉ dom (json_loads payload)).
Proof.
  apply (C5_payload_fields (executor running_api sample_sql 5 60) 0%nat).
  reflexivity.
Defined.


(* ===================================================================== *)
(** * Running computations step by step                                   *)
(* ===================================================================== *)

Module Steps.

Lemma prepend_nil {A} (o : outcome A) : prepend [] o = o.
Proof. destruct o; reflexivity. Qed.

Lemma prepend_prepend {A} evs1 evs2 (o : outcome A) :
  prepend evs1 (prepend evs2 o) = prepend (evs1 ++ evs2) o.
Proof. unfold prepend. cbn [res calls events]. now rewrite app_assoc. Qed.

Lemma res_prepend {A} evs (o : outcome A) : res (prepend evs o) = res o.
Proof. reflexivity. Qed.

Lemma calls_prepend {A} evs (o : outcome A) : calls (prepend evs o) = calls o.
Proof. reflexivity. Qed.

Lemma events_prepend {A} evs (o : outcome A) :
  events (prepend evs o) = evs ++ events o.
Proof. reflexivity. Qed.

Lemma bind_ok {A B} (m : M A) (f : A -> M B) n a n' evs :
  m n = mk_outcome (Ok a) n' evs ->
  bind m f n = prepend evs (f a n').
Proof. unfold bind. now intros ->. Qed.

Lemma bind_raise {A B} (m : M A) (f : A -> M B) n e n' evs :
  m n = mk_outcome (Raise e) n' evs ->
  bind m f n = mk_outcome (Raise e) n' evs.
Proof. unfold bind. now intros ->. Qed.

Lemma bind_ret {A B} (a : A) (f : A -> M B) n : bind (ret a) f n = f a n.
Proof. unfold bind, ret. apply prepend_nil. Qed.

Lemma bind_lift_ok {A B} (a : A) (f : A -> M B) n :
  bind (lift (Ok a)) f n = f a n.
Proof. unfold bind, lift. apply prepend_nil. Qed.

Lemma bind_lift_raise {A B} e (f : A -> M B) n :
  bind (lift (Raise e)) f n = mk_outcome (Raise e) n [].
Proof. reflexivity. Qed.

Lemma bind_raise_now {A B} e (f : A -> M B) n :
  bind (raise e) f n = mk_outcome (Raise e) n [].
Proof. reflexivity. Qed.

Lemma bind_emit {B} e (f : unit -> M B) n :
  bind (emit e) f n = prepend [e] (f tt n).
Proof. reflexivity. Qed.

Lemma bind_log {B} lvl fmt (f : unit -> M B) n :
  bind (log lvl fmt) f n = prepend [EvLog lvl fmt] (f tt n).
Proof. reflexivity. Qed.

Lemma bind_print {B} fmt (f : unit -> M B) n :
  bind (print fmt) f n = prepend [EvPrint fmt] (f tt n).
Proof. reflexivity. Qed.

Lemma bind_sleep {B} t (f : unit -> M B) n :
  0 <= t ->
  bind (time_sleep t) f n = prepend [EvSleep t] (f tt n).
Proof.
  intros Ht. unfold time_sleep.
  replace (t <? 0) with false by (symmetry; apply Z.ltb_ge; lia).
  reflexivity.
Qed.

Lemma bind_sleep_negative {B} t (f : unit -> M B) n :
  t < 0 ->
  bind (time_sleep t) f n =
    mk_outcome (Raise (mk_exn ValueError (PStr "sleep length must be non-negative")))
      n [].
Proof.
  intros Ht. unfold time_sleep.
  replace (t <? 0) with true by (symmetry; apply Z.ltb_lt; lia).
  reflexivity.
Qed.

End Steps.

(* ===================================================================== *)
(** * API calls                                                           *)
(* ===================================================================== *)

Module ApiCall.

Import Steps.

Lemma safe_api_call_eq self req n :
  _safe_api_call self req n =
    mk_outcome
      (if exitcode (answer_resp (make_request (api self) n req)) =? 0
       then Ok (answer_resp (make_request (api self) n req))
       else Raise (api_call_failed (make_request (api self) n req)))
      (S n) [EvRequest req].
Proof.
  unfold _safe_api_call, bind, api_make_request, answer_resp, api_call_failed.
  destruct (exitcode _ =? 0); reflexivity.
Qed.

Lemma snapshot_accepted a d :
  snapshot_of a = Some d ->
  exitcode (answer_resp a) = 0 /\ data (answer_resp a) = Some (JDict d).
Proof.
  unfold snapshot_of, answer_resp.
  destruct (exitcode _ =? 0) eqn:He; [|discriminate].
  apply Z.eqb_eq in He.
  destruct (data _) as [[d'|]|]; try discriminate.
  intros [= ->]. auto.
Qed.

Lemma safe_api_call_snapshot self req n d :
  snapshot_of (make_request (api self) n req) = Some d ->
  _safe_api_call self req n =
    mk_outcome (Ok (answer_resp (make_request (api self) n req))) (S n)
      [EvRequest req].
Proof.
  intros H. apply snapshot_accepted in H as [He _].
  rewrite safe_api_call_eq, He. reflexivity.
Qed.

Lemma safe_api_call_rejected self req n :
  rejected (make_request (api self) n req) ->
  _safe_api_call self req n =
    mk_outcome (Raise (api_call_failed (make_request (api self) n req)))
      (S n) [EvRequest req].
Proof.
  unfold rejected. intros H. rewrite safe_api_call_eq.
  destruct (Z.eqb_spec (exitcode (answer_resp (make_request (api self) n req))) 0);
    [contradiction|reflexivity].
Qed.

Lemma bind_safe_snapshot {B} self req (f : json_resp -> M B) n d :
  snapshot_of (make_request (api self) n req) = Some d ->
  bind (_safe_api_call self req) f n =
    prepend [EvRequest req] (f (answer_resp (make_request (api self) n req)) (S n)).
Proof.
  intros H. apply bind_ok. eapply safe_api_call_snapshot; eassumption.
Qed.

Lemma bind_safe_rejected {B} self req (f : json_resp -> M B) n :
  rejected (make_request (api self) n req) ->
  bind (_safe_api_call self req) f n =
    mk_outcome (Raise (api_call_failed (make_request (api self) n req)))
      (S n) [EvRequest req].
Proof.
  intros H. apply bind_raise. now apply safe_api_call_rejected.
Qed.

(** What [_custom_json_response] makes of a response that has a status
    code: the exit code is 0 exactly when the body parses and the code is
    200 (or 0, which is not an HTTP status code). *)
Lemma exitcode_response c reason body :
  exitcode (answer_resp (Response c reason body)) =
    match body with
    | inl _ => 1
    | inr _ => if c =? 200 then 0 else c
    end.
Proof.
  unfold answer_resp, _custom_json_response.
  destruct (c =? 200), body; reflexivity.
Qed.

Lemma http_rejected c reason body :
  http_status_code c ->
  c <> 200 \/ (exists ex, body = inl ex) ->
  rejected (Response c reason body).
Proof.
  unfold rejected, http_status_code. intros Hc H.
  rewrite exitcode_response. destruct body as [ex|j].
  - lia.
  - destruct H as [H|(ex & H)]; [|discriminate].
    destruct (Z.eqb_spec c 200); lia.
Qed.

Lemma py_eq_true v s : py_eq v s = true -> v = PStr s.
Proof.
  destruct v; cbn; try discriminate.
  intros H. apply String.eqb_eq in H. now subst.
Qed.

Lemma running_status d : is_running d = true -> status_of d = PStr "RUNNING".
Proof. apply py_eq_true. Qed.

Lemma get_status d : py_get (Some (JDict d)) "QueryStatus" PNone = Ok (status_of d).
Proof. reflexivity. Qed.

End ApiCall.

(* ===================================================================== *)
(** * The polling loop                                                    *)
(* ===================================================================== *)

Module Polling.

Import Steps ApiCall.

(** The loop is left when the status is not RUNNING or the counter
    passed the maximum. *)
Lemma poll_loop_exit fuel self req response status r n :
  py_eq status "RUNNING" && (r <=? retry self) = false ->
  poll_loop fuel self req response status r n =
    mk_outcome (Ok response) n [EvLog WARNING "Max retries reached"].
Proof.
  intros H. destruct fuel; cbn [poll_loop]; rewrite H; reflexivity.
Qed.

Lemma poll_loop_enter fuel self req response r n :
  r <= retry self ->
  poll_loop (S fuel) self req response (PStr "RUNNING") r n =
    (let* response := _safe_api_call self req in
     let* query_status := lift (py_get (data response) "QueryStatus" PNone) in
     if negb (py_eq query_status "RUNNING") then ret response
     else
       log INFO "Retry: %s, Status: %s" >>
       time_sleep (delay self) >>
       poll_loop fuel self req response query_status (r + 1)) n.
Proof.
  intros Hr. cbn [poll_loop py_eq].
  replace (r <=? retry self) with true by (symmetry; apply Z.leb_le; lia).
  reflexivity.
Qed.

(** An iteration that observes RUNNING again. *)
Lemma poll_loop_step_running fuel self req response r n :
  r <= retry self ->
  0 <= delay self ->
  running_answer (make_request (api self) n req) ->
  poll_loop (S fuel) self req response (PStr "RUNNING") r n =
    prepend (loop_iteration self req)
      (poll_loop fuel self req (answer_resp (make_request (api self) n req))
         (PStr "RUNNING") (r + 1) (S n)).
Proof.
  intros Hr Hd (d & Hsnap & Hrun).
  rewrite poll_loop_enter by assumption.
  rewrite (bind_safe_snapshot _ _ _ _ _ Hsnap).
  destruct (snapshot_accepted _ _ Hsnap) as [_ Hdata].
  rewrite Hdata, get_status, (running_status _ Hrun), bind_lift_ok.
  cbn [py_eq String.eqb Ascii.eqb Bool.eqb negb].
  rewrite bind_log, bind_sleep by assumption.
  rewrite !prepend_prepend. reflexivity.
Qed.

(** An iteration that observes another status returns at once. *)
Lemma poll_loop_step_stop fuel self req response r n d :
  r <= retry self ->
  snapshot_of (make_request (api self) n req) = Some d ->
  is_running d = false ->
  poll_loop (S fuel) self req response (PStr "RUNNING") r n =
    mk_outcome (Ok (answer_resp (make_request (api self) n req))) (S n)
      [EvRequest req].
Proof.
  intros Hr Hsnap Hrun.
  rewrite poll_loop_enter by assumption.
  rewrite (bind_safe_snapshot _ _ _ _ _ Hsnap).
  destruct (snapshot_accepted _ _ Hsnap) as [_ Hdata].
  rewrite Hdata, get_status, bind_lift_ok.
  unfold is_running in Hrun. rewrite Hrun. reflexivity.
Qed.

End Polling.

Module PollStatus.

Import Steps ApiCall Polling.

Lemma response_after_shift self req response n j :
  response_after self req (answer_resp (make_request (api self) n req)) (S n) j
  = response_after self req response n (S j).
Proof.
  destruct j as [|j]; cbn [response_after].
  - now rewrite Nat.add_0_r.
  - now rewrite Nat.add_succ_r.
Qed.

Lemma response_after_answer self req n j :
  response_after self req (answer_resp (make_request (api self) n req)) (S n) j
  = answer_resp (make_request (api self) (n + j)%nat req).
Proof.
  destruct j as [|j]; cbn [response_after].
  - now rewrite Nat.add_0_r.
  - now rewrite Nat.add_succ_r.
Qed.

(** [j] iterations in a row that observe RUNNING. *)
Lemma poll_loop_running_steps self req j :
  forall fuel response r n,
    r + Z.of_nat j <= retry self + 1 ->
    0 <= delay self ->
    (forall i, (i < j)%nat -> running_answer (make_request (api self) (n + i)%nat req)) ->
    poll_loop (j + fuel) self req response (PStr "RUNNING") r n =
      prepend (loop_trace self req j)
        (poll_loop fuel self req (response_after self req response n j)
           (PStr "RUNNING") (r + Z.of_nat j) (n + j)%nat).
Proof.
  induction j as [|j IH]; intros fuel response r n Hr Hd Hrun.
  - cbn [loop_trace response_after Nat.add]. rewrite prepend_nil.
    now rewrite Z.add_0_r, Nat.add_0_r.
  - cbn [Nat.add].
    rewrite poll_loop_step_running; [|lia|assumption|].
    2:{ specialize (Hrun 0%nat). rewrite Nat.add_0_r in Hrun. apply Hrun. lia. }
    rewrite IH; [|lia|assumption|].
    2:{ intros i Hi. specialize (Hrun (S i)).
        rewrite Nat.add_succ_r in Hrun. apply Hrun. lia. }
    rewrite prepend_prepend, (response_after_shift _ _ response).
    cbn [loop_trace]. rewrite Nat.add_succ_r.
    replace (r + 1 + Z.of_nat j) with (r + Z.of_nat (S j)) by lia.
    reflexivity.
Qed.

(** The first poll and the warm-up, for an accepted answer that carries a
    JSON object. *)
Lemma poll_query_status_snapshot self query_id r n d :
  snapshot_of (status_answer self query_id n) = Some d ->
  poll_query_status self query_id r n =
    prepend (poll_prefix self query_id)
      (poll_loop (Z.to_nat (retry self - r + 1)) self
         (status_request self query_id)
         (answer_resp (status_answer self query_id n)) (status_of d) r (S n)).
Proof.
  intros Hsnap. unfold poll_query_status, status_answer in *.
  rewrite bind_log. cbv zeta.
  rewrite (bind_safe_snapshot _ _ _ _ _ Hsnap).
  destruct (snapshot_accepted _ _ Hsnap) as [_ Hdata].
  rewrite Hdata, get_status, bind_lift_ok, bind_sleep by lia.
  rewrite !prepend_prepend. reflexivity.
Qed.

(** A rejected first answer ends the poll before the warm-up. *)
Lemma poll_query_status_rejected self query_id r n :
  rejected (status_answer self query_id n) ->
  poll_query_status self query_id r n =
    mk_outcome (Raise (api_call_failed (status_answer self query_id n))) (S n)
      [ EvLog INFO "In PlaygroundQueryExecutor.poll_query_status, Polling query status: %s";
        EvRequest (status_request self query_id) ].
Proof.
  intros Hrej. unfold poll_query_status, status_answer in *.
  rewrite bind_log. cbv zeta.
  rewrite (bind_safe_rejected _ _ _ _ Hrej). reflexivity.
Qed.

Lemma count_gets_app evs1 evs2 :
  count_gets (evs1 ++ evs2) = (count_gets evs1 + count_gets evs2)%nat.
Proof. unfold count_gets. now rewrite List.filter_app, length_app. Qed.

Lemma count_gets_loop_trace self query_id j :
  count_gets (loop_trace self (status_request self query_id) j) = j.
Proof.
  induction j as [|j IH]; [reflexivity|].
  cbn [loop_trace]. rewrite count_gets_app, IH. reflexivity.
Qed.

Lemma sleeps_app evs1 evs2 : sleeps (evs1 ++ evs2) = sleeps evs1 ++ sleeps evs2.
Proof. unfold sleeps. apply omap_app. Qed.

Lemma sleeps_loop_trace self req j :
  sleeps (loop_trace self req j) = replicate j (delay self).
Proof.
  induction j as [|j IH]; [reflexivity|].
  cbn [loop_trace]. rewrite sleeps_app, IH. reflexivity.
Qed.

(** Polling stops at the first answer that is not RUNNING: the warm-up
    poll and [k - 1] retries observe RUNNING, the [k]-th retry observes
    another status. *)
Lemma poll_stops_at self query_id n k d :
  0 <= delay self ->
  (1 <= k)%nat ->
  Z.of_nat k <= retry self ->
  (forall i, (i < k)%nat -> running_answer (status_answer self query_id (n + i)%nat)) ->
  snapshot_of (status_answer self query_id (n + k)%nat) = Some d ->
  is_running d = false ->
  poll_query_status self query_id 1 n =
    mk_outcome (Ok (answer_resp (status_answer self query_id (n + k)%nat)))
      (n + k + 1)%nat
      (poll_prefix self query_id
       ++ loop_trace self (status_request self query_id) (k - 1)%nat
       ++ [EvRequest (status_request self query_id)]).
Proof.
  intros Hd Hk Hkr Hrun Hsnap Hstop.
  destruct (Hrun 0%nat ltac:(lia)) as (d0 & Hsnap0 & Hrun0).
  rewrite Nat.add_0_r in Hsnap0.
  rewrite (poll_query_status_snapshot _ _ _ _ _ Hsnap0).
  rewrite (running_status _ Hrun0).
  replace (Z.to_nat (retry self - 1 + 1))
    with ((k - 1)%nat + S (Z.to_nat (retry self) - k))%nat by lia.
  unfold status_answer in *.
  rewrite poll_loop_running_steps; [|lia|assumption|].
  2:{ intros i Hi. specialize (Hrun (S i) ltac:(lia)).
      now rewrite Nat.add_succ_r in Hrun. }
  rewrite (poll_loop_step_stop _ _ _ _ _ _ d); [|lia| |assumption].
  2:{ replace (S n + (k - 1)%nat)%nat with (n + k)%nat by lia. assumption. }
  unfold prepend. cbn [res calls events].
  replace (S n + (k - 1)%nat)%nat with (n + k)%nat by lia.
  f_equal. lia.
Qed.

(** Polling when every answer is RUNNING: the loop runs [retry self]
    times and the last snapshot is returned. *)
Lemma poll_exhausts self query_id n :
  0 <= retry self ->
  0 <= delay self ->
  (forall i, running_answer (status_answer self query_id (n + i)%nat)) ->
  poll_query_status self query_id 1 n =
    mk_outcome
      (Ok (answer_resp (status_answer self query_id (n + Z.to_nat (retry self))%nat)))
      (n + 1 + Z.to_nat (retry self))%nat
      (poll_prefix self query_id
       ++ loop_trace self (status_request self query_id) (Z.to_nat (retry self))
       ++ [EvLog WARNING "Max retries reached"]).
Proof.
  intros Hr Hd Hrun.
  destruct (Hrun 0%nat) as (d0 & Hsnap0 & Hrun0).
  rewrite Nat.add_0_r in Hsnap0.
  rewrite (poll_query_status_snapshot _ _ _ _ _ Hsnap0).
  rewrite (running_status _ Hrun0).
  replace (Z.to_nat (retry self - 1 + 1))
    with (Z.to_nat (retry self) + 0)%nat by lia.
  unfold status_answer in *.
  rewrite poll_loop_running_steps; [|lia|assumption|].
  2:{ intros i _. specialize (Hrun (S i)). now rewrite Nat.add_succ_r in Hrun. }
  rewrite poll_loop_exit.
  2:{ apply andb_false_iff. right. apply Z.leb_gt. lia. }
  rewrite response_after_answer.
  unfold prepend. cbn [res calls events].
  f_equal. lia.
Qed.

End PollStatus.

Module LoopInvariants.

Import Steps ApiCall Polling PollStatus.

(** What one iteration of the loop can do. *)
Lemma poll_loop_step_cases fuel self req response status r n :
  py_eq status "RUNNING" && (r <=? retry self) = true ->
  (rejected (make_request (api self) n req) /\
   poll_loop (S fuel) self req response status r n =
     mk_outcome (Raise (api_call_failed (make_request (api self) n req))) (S n)
       [EvRequest req])
  \/
  (~ rejected (make_request (api self) n req) /\
   ((exists r' evs,
        poll_loop (S fuel) self req response status r n =
          mk_outcome r' (S n) (EvRequest req :: evs) /\
        r' <> OutOfFuel /\ requests evs = [] /\ sleeps evs = [])
    \/
    (exists status',
        0 <= delay self /\
        poll_loop (S fuel) self req response status r n =
          prepend (loop_iteration self req)
            (poll_loop fuel self req
               (answer_resp (make_request (api self) n req)) status'
               (r + 1) (S n))))).
Proof.
  intros Hc. cbn [poll_loop]. rewrite Hc.
  pose proof (safe_api_call_eq self req n) as Hs.
  destruct (Z.eqb_spec (exitcode (answer_resp (make_request (api self) n req))) 0)
    as [He|He].
  2:{ left. split; [exact He|]. now rewrite (bind_raise _ _ _ _ _ _ Hs). }
  right. split; [unfold rejected; lia|].
  rewrite (bind_ok _ _ _ _ _ _ Hs).
  destruct (data (answer_resp (make_request (api self) n req))) as [[d|]|];
    cbn [py_get];
    try (left; eexists _, []; rewrite bind_lift_raise;
         split; [reflexivity|]; split; [discriminate|split; reflexivity]).
  rewrite bind_lift_ok.
  destruct (negb (py_eq (default PNone (d !! "QueryStatus")) "RUNNING")).
  { left. eexists _, []. split; [reflexivity|].
    split; [discriminate|split; reflexivity]. }
  rewrite bind_log.
  destruct (Z_lt_le_dec (delay self) 0) as [Hneg|Hpos].
  - left. rewrite bind_sleep_negative by assumption.
    eexists _, [_]. split; [reflexivity|].
    split; [discriminate|split; reflexivity].
  - right. eexists. split; [assumption|].
    rewrite bind_sleep by assumption. rewrite !prepend_prepend. reflexivity.
Qed.

(** The bounded loop never runs out of fuel: [poll_query_status] always
    returns or raises. *)
Lemma poll_loop_total self req fuel :
  forall response status r n,
    (Z.to_nat (retry self - r + 1) <= fuel)%nat ->
    res (poll_loop fuel self req response status r n) <> OutOfFuel.
Proof.
  induction fuel as [|fuel IH]; intros response status r n Hfuel;
    destruct (py_eq status "RUNNING" && (r <=? retry self)) eqn:Hc;
    try (rewrite poll_loop_exit by assumption; discriminate).
  - apply andb_true_iff in Hc as [_ Hr]. apply Z.leb_le in Hr. lia.
  - apply andb_true_iff in Hc as [Hst Hr]. apply Z.leb_le in Hr.
    destruct (poll_loop_step_cases fuel self req response status r n)
      as [[_ ->]|[_ [(r' & evs & -> & Hr' & _)|(st & _ & ->)]]].
    + apply andb_true_iff. split; [assumption|now apply Z.leb_le].
    + discriminate.
    + exact Hr'.
    + rewrite res_prepend. apply IH. lia.
Qed.

Theorem poll_query_status_total self query_id r n :
  res (poll_query_status self query_id r n) <> OutOfFuel.
Proof.
  unfold poll_query_status. rewrite bind_log, res_prepend. cbv zeta.
  pose proof (safe_api_call_eq self (status_request self query_id) n) as Hs.
  destruct (exitcode _ =? 0).
  2:{ rewrite (bind_raise _ _ _ _ _ _ Hs). discriminate. }
  rewrite (bind_ok _ _ _ _ _ _ Hs), res_prepend.
  destruct (data _) as [[d|]|]; cbn [py_get];
    try (rewrite bind_lift_raise; discriminate).
  rewrite bind_lift_ok, bind_sleep, res_prepend by lia.
  apply poll_loop_total. lia.
Qed.

Lemma count_gets_request req : (count_gets [EvRequest req] <= 1)%nat.
Proof.
  unfold count_gets. cbn. destruct (String.eqb _ _); cbn; lia.
Qed.

Lemma count_gets_le_requests evs :
  (count_gets evs <= length (requests evs))%nat.
Proof.
  unfold count_gets, requests.
  induction evs as [|e evs IH]; [reflexivity|].
  destruct e; cbn; try lia. destruct (String.eqb _ _); cbn; lia.
Qed.

(** The loop makes at most one status GET per unit of fuel. *)
Lemma poll_loop_gets self req fuel :
  forall response status r n,
    (count_gets (events (poll_loop fuel self req response status r n)) <= fuel)%nat.
Proof.
  induction fuel as [|fuel IH]; intros response status r n;
    destruct (py_eq status "RUNNING" && (r <=? retry self)) eqn:Hc;
    try (rewrite poll_loop_exit by assumption; cbn; lia).
  - cbn [poll_loop]. rewrite Hc. cbn. lia.
  - destruct (poll_loop_step_cases fuel self req response status r n Hc)
      as [[_ ->]|[_ [(r' & evs & -> & _ & Hreq & _)|(st & _ & ->)]]];
      cbn [events].
    + pose proof (count_gets_request req). lia.
    + change (EvRequest req :: evs) with ([EvRequest req] ++ evs).
      rewrite count_gets_app.
      pose proof (count_gets_request req).
      pose proof (count_gets_le_requests evs) as Hle. rewrite Hreq in Hle.
      cbn in Hle. lia.
    + rewrite events_prepend, count_gets_app.
      specialize (IH (answer_resp (make_request (api self) n req)) st (r + 1) (S n)).
      assert (count_gets (loop_iteration self req) <= 1)%nat.
      { unfold count_gets, loop_iteration. cbn.
        destruct (String.eqb _ _); cbn; lia. }
      lia.
Qed.

(** Whatever the client answers, polling makes at most [1 + retry] status
    GET calls. *)
Theorem poll_query_status_gets self query_id n :
  (count_gets (events (poll_query_status self query_id 1 n))
   <= 1 + Z.to_nat (retry self))%nat.
Proof.
  unfold poll_query_status. rewrite bind_log, events_prepend, count_gets_app.
  cbv zeta.
  pose proof (safe_api_call_eq self (status_request self query_id) n) as Hs.
  destruct (exitcode _ =? 0).
  2:{ rewrite (bind_raise _ _ _ _ _ _ Hs). cbn. lia. }
  rewrite (bind_ok _ _ _ _ _ _ Hs), events_prepend, count_gets_app.
  destruct (data _) as [[d|]|]; cbn [py_get];
    try (rewrite bind_lift_raise; cbn; lia).
  rewrite bind_lift_ok, bind_sleep, events_prepend, count_gets_app by lia.
  pose proof (poll_loop_gets self (status_request self query_id)
                (Z.to_nat (retry self - 1 + 1))
                (answer_resp (make_request (api self) n (status_request self query_id)))
                (default PNone (d !! "QueryStatus")) 1 (S n)) as Hle.
  cbn [count_gets]. unfold count_gets at 1 2 3. cbn. cbn in Hle.
  lia.
Qed.

(** Every sleep inside the loop lasts the configured retry delay. *)
Lemma poll_loop_sleeps self req fuel :
  forall response status r n,
    Forall (fun t => t = delay self)
      (sleeps (events (poll_loop fuel self req response status r n))).
Proof.
  induction fuel as [|fuel IH]; intros response status r n;
    destruct (py_eq status "RUNNING" && (r <=? retry self)) eqn:Hc;
    try (rewrite poll_loop_exit by assumption; cbn; constructor).
  - cbn [poll_loop]. rewrite Hc. cbn. constructor.
  - destruct (poll_loop_step_cases fuel self req response status r n Hc)
      as [[_ ->]|[_ [(r' & evs & -> & _ & _ & Hsl)|(st & _ & ->)]]];
      cbn [events].
    + cbn. constructor.
    + change (EvRequest req :: evs) with ([EvRequest req] ++ evs).
      rewrite sleeps_app, Hsl. cbn. constructor.
    + rewrite events_prepend, sleeps_app. apply Forall_app. split.
      * cbn. repeat constructor.
      * apply IH.
Qed.

End LoopInvariants.

(* ===================================================================== *)
(** * run and fetch_query_results                                          *)
(* ===================================================================== *)

Module Run.

Import Steps ApiCall.

Lemma bind_bind {A B C} (m : M A) (g : A -> M B) (f : B -> M C) n :
  bind (bind m g) f n = bind m (fun a => bind (g a) f) n.
Proof.
  unfold bind. destruct (m n) as [[a|e|] n' evs]; try reflexivity.
  destruct (g a n') as [[b|e|] n'' evs']; unfold prepend; cbn [res calls events];
    try reflexivity.
  destruct (f b n'') as [r n3 evs3]. cbn [res calls events].
  now rewrite app_assoc.
Qed.

Lemma build_ok_ascii self n payload :
  res (build_query_payload self n) = Ok payload -> is_ascii (query self) = true.
Proof.
  destruct (is_ascii (query self)) eqn:H; [reflexivity|].
  rewrite Payload.build_non_ascii by assumption. discriminate.
Qed.

Lemma build_ok self n payload :
  res (build_query_payload self n) = Ok payload ->
  build_query_payload self n = mk_outcome (Ok payload) n payload_logs.
Proof.
  intros H. pose proof (build_ok_ascii _ _ _ H) as Hq.
  rewrite Payload.build_ascii in * by assumption.
  cbn [res] in H. now rewrite H.
Qed.

Lemma status_lookup d s :
  status_of d = PStr s -> d !! "QueryStatus" = Some (PStr s).
Proof.
  unfold status_of. destruct (d !! "QueryStatus"); cbn; [|discriminate].
  now intros ->.
Qed.

(** [run] is submission followed by polling and classification. *)
Lemma run_submitted self n query_id :
  submitted self n query_id ->
  exists payload,
    res (build_query_payload self n) = Ok payload /\
    run self n =
      prepend (run_prefix self payload)
        (bind (poll_query_status self query_id 1) run_classify (S n)).
Proof.
  intros (payload & d & Hb & Hsnap & Hid). exists payload. split; [assumption|].
  unfold run. rewrite bind_log.
  rewrite (bind_ok _ _ _ _ _ _ (build_ok _ _ _ Hb)).
  unfold submit_query. repeat first [rewrite bind_bind | rewrite bind_log].
  rewrite (bind_safe_snapshot _ _ _ _ _ Hsnap), bind_ret.
  destruct (snapshot_accepted _ _ Hsnap) as [_ Hdata].
  rewrite Hdata. cbn [py_getitem]. rewrite Hid, bind_lift_ok.
  rewrite !prepend_prepend. reflexivity.
Qed.

Lemma run_after_poll self n query_id snap n' evs :
  submitted self n query_id ->
  poll_query_status self query_id 1 (S n) = mk_outcome (Ok snap) n' evs ->
  exists payload,
    res (build_query_payload self n) = Ok payload /\
    run self n = prepend (run_prefix self payload ++ evs) (run_classify snap n').
Proof.
  intros Hsub Hpoll.
  destruct (run_submitted _ _ _ Hsub) as (payload & Hb & ->).
  exists payload. split; [assumption|].
  rewrite (bind_ok _ _ _ _ _ _ Hpoll). apply prepend_prepend.
Qed.

(** The three outcomes of the classification in [run]. *)
Lemma run_classify_succeeded snap d n :
  data snap = Some (JDict d) ->
  d !! "QueryStatus" = Some (PStr "SUCCEEDED") ->
  run_classify snap n = mk_outcome (Ok snap) n [].
Proof.
  intros Hdata Hst. unfold run_classify.
  rewrite Hdata. cbn [py_getitem]. rewrite Hst, bind_lift_ok. reflexivity.
Qed.

Lemma run_classify_running snap d n :
  data snap = Some (JDict d) ->
  d !! "QueryStatus" = Some (PStr "RUNNING") ->
  run_classify snap n =
    mk_outcome (Ok snap) n
      [EvPrint "Retries exhausted for query {query_id}. Query is still running."].
Proof.
  intros Hdata Hst. unfold run_classify.
  rewrite Hdata. cbn [py_getitem]. rewrite Hst, bind_lift_ok.
  cbn [py_eq String.eqb Ascii.eqb Bool.eqb]. rewrite bind_lift_ok.
  reflexivity.
Qed.

Lemma run_classify_other snap d status n :
  data snap = Some (JDict d) ->
  d !! "QueryStatus" = Some status ->
  py_eq status "SUCCEEDED" = false ->
  py_eq status "RUNNING" = false ->
  run_classify snap n =
    mk_outcome (Raise (mk_exn Exception_ (default PNone (d !! "Message")))) n
      [EvLog ERROR "Query failed: %s"].
Proof.
  intros Hdata Hst Hs Hr. unfold run_classify.
  rewrite Hdata. cbn [py_getitem py_get]. rewrite Hst, bind_lift_ok, Hs.
  rewrite bind_lift_ok, Hr, bind_log, bind_lift_ok. reflexivity.
Qed.

(** A snapshot without a QueryStatus makes [run] fail on the subscript. *)
Lemma run_classify_missing snap d n :
  data snap = Some (JDict d) ->
  d !! "QueryStatus" = None ->
  run_classify snap n = mk_outcome (Raise (mk_exn KeyError (PStr "QueryStatus"))) n [].
Proof.
  intros Hdata Hst. unfold run_classify.
  rewrite Hdata. cbn [py_getitem]. rewrite Hst. reflexivity.
Qed.

(** [run] returns only SUCCEEDED and RUNNING snapshots. *)
Lemma run_classify_returns snap n r :
  res (run_classify snap n) = Ok r ->
  r = snap /\
  exists d, data snap = Some (JDict d) /\
            (d !! "QueryStatus" = Some (PStr "SUCCEEDED") \/
             d !! "QueryStatus" = Some (PStr "RUNNING")).
Proof.
  destruct (data snap) as [[d|]|] eqn:Hdata.
  2,3: unfold run_classify; rewrite Hdata; cbn; discriminate.
  destruct (d !! "QueryStatus") as [status|] eqn:Hst.
  2:{ rewrite (run_classify_missing _ _ _ Hdata Hst). discriminate. }
  destruct (py_eq status "SUCCEEDED") eqn:Hs.
  { apply py_eq_true in Hs. subst status.
    rewrite (run_classify_succeeded _ _ _ Hdata Hst). intros [= <-]. eauto. }
  destruct (py_eq status "RUNNING") eqn:Hr.
  { apply py_eq_true in Hr. subst status.
    rewrite (run_classify_running _ _ _ Hdata Hst). intros [= <-]. eauto 6. }
  rewrite (run_classify_other _ _ _ _ Hdata Hst Hs Hr). discriminate.
Qed.

End Run.

(* ===================================================================== *)
(** * Properties of the polling state machine                             *)
(* ===================================================================== *)

Module PollFacts.

Import Steps ApiCall Polling PollStatus LoopInvariants Run.

(** The warm-up poll itself observes a status other than RUNNING. *)
Lemma poll_stops_at_warm_up self query_id n d :
  snapshot_of (status_answer self query_id n) = Some d ->
  is_running d = false ->
  poll_query_status self query_id 1 n =
    mk_outcome (Ok (answer_resp (status_answer self query_id n))) (S n)
      (poll_prefix self query_id ++ [EvLog WARNING "Max retries reached"]).
Proof.
  intros Hsnap Hstop.
  rewrite (poll_query_status_snapshot _ _ _ _ _ Hsnap).
  rewrite poll_loop_exit.
  - reflexivity.
  - unfold is_running in Hstop. now rewrite Hstop.
Qed.

Lemma count_gets_poll_prefix self query_id :
  count_gets (poll_prefix self query_id) = 1%nat.
Proof. reflexivity. Qed.

Lemma count_gets_status_request self query_id :
  count_gets [EvRequest (status_request self query_id)] = 1%nat.
Proof. reflexivity. Qed.

Lemma events_bind_prefix {A B} (m : M A) (f : A -> M B) n :
  exists evs, events (bind m f n) = events (m n) ++ evs.
Proof.
  unfold bind. destruct (m n) as [[a|e|] n' evs]; cbn [events].
  - eexists. reflexivity.
  - exists []. now rewrite app_nil_r.
  - exists []. now rewrite app_nil_r.
Qed.

End PollFacts.

Example poll_succeeds_at_second_retry :
  poll_query_status (executor (succeeds_at_api 3) sample_sql 5 60) (PStr "q-1") 1 1%nat
  = mk_outcome (Ok (answer_resp (status_json "SUCCEEDED"))) 4%nat
      [ EvLog INFO "In PlaygroundQueryExecutor.poll_query_status, Polling query status: %s";
        EvRequest (status_request (executor (succeeds_at_api 3) sample_sql 5 60) (PStr "q-1"));
        EvSleep 20;
        EvRequest (status_request (executor (succeeds_at_api 3) sample_sql 5 60) (PStr "q-1"));
        EvLog INFO "Retry: %s, Status: %s";
        EvSleep 60;
        EvRequest (status_request (executor (succeeds_at_api 3) sample_sql 5 60) (PStr "q-1")) ].
Proof. vm_compute. reflexivity. Qed.

Example status_request_url :
  custom_url (status_request (executor running_api sample_sql 5 60) (PStr "q-1"))
  = "https://api.example/queries/q-1".
Proof. reflexivity. Qed.

(** C1: polling stops and returns the new snapshot as soon as a status GET
    inside the retry loop observes a status other than RUNNING, without
    consuming further retries.  When the status stops being RUNNING at
    poll [k] (0 is the warm-up poll, [k >= 1] the [k]-th retry) and
    [k <= retry], exactly [1 + k], hence at most [1 + retry], status GET
    calls are made; for [k >= 1] the trace ends with that GET. *)
Theorem C1_poll_stops_at_first_non_running
    (self : PlaygroundQueryExecutor) (query_id : pyval) (n k : nat)
    (d : gmap string pyval) :
  0 <= delay self ->
  Z.of_nat k <= retry self ->
  (forall i, (i < k)%nat ->
             running_answer (status_answer self query_id (n + i)%nat)) ->
  snapshot_of (status_answer self query_id (n + k)%nat) = Some d ->
  is_running d = false ->
  res (poll_query_status self query_id 1 n)
  = Ok (answer_resp (status_answer self query_id (n + k)%nat)) /\
  calls (poll_query_status self query_id 1 n) = (n + k + 1)%nat /\
  count_gets (events (poll_query_status self query_id 1 n)) = (1 + k)%nat /\
  Z.of_nat (count_gets (events (poll_query_status self query_id 1 n)))
  <= 1 + retry self /\
  ((1 <= k)%nat ->
   events (poll_query_status self query_id 1 n)
   = poll_prefix self query_id
     ++ loop_trace self (status_request self query_id) (k - 1)%nat
     ++ [EvRequest (status_request self query_id)]).
Proof.
  intros Hd Hk Hrun Hsnap Hstop.
  destruct k as [|k'].
  - rewrite Nat.add_0_r in *.
    rewrite (PollFacts.poll_stops_at_warm_up _ _ _ _ Hsnap Hstop).
    cbn [res calls events].
    repeat split; try reflexivity; try lia.
    + rewrite PollStatus.count_gets_app. cbn. lia.
  - rewrite (PollStatus.poll_stops_at self query_id n (S k') d)
      by (assumption || lia).
    cbn [res calls events].
    assert (Hcount :
      count_gets (poll_prefix self query_id
                  ++ loop_trace self (status_request self query_id) (S k' - 1)%nat
                  ++ [EvRequest (status_request self query_id)])
      = (1 + S k')%nat).
    { rewrite !PollStatus.count_gets_app, PollStatus.count_gets_loop_trace,
        PollFacts.count_gets_poll_prefix, PollFacts.count_gets_status_request.
      lia. }
    rewrite Hcount.
    repeat split; try reflexivity; lia.
Qed.

Lemma C1_poll_stops_at_first_non_running_witness :
  res (poll_query_status (executor (succeeds_at_api 3) sample_sql 5 60) (PStr "q-1") 1 1%nat)
  = Ok (answer_resp (status_json "SUCCEEDED")) /\
  count_gets (events (poll_query_status (executor (succeeds_at_api 3) sample_sql 5 60)
                        (PStr "q-1") 1 1%nat)) = 3%nat.
Proof.
  pose proof (C1_poll_stops_at_first_non_running
                (executor (succeeds_at_api 3) sample_sql 5 60) (PStr "q-1")
                1%nat 2%nat {[ "QueryStatus" := PStr "SUCCEEDED" ]}) as H.
  destruct H as (Hres & _ & Hcount & _).
  - cbn. lia.
  - cbn. lia.
  - intros i Hi. exists {[ "QueryStatus" := PStr "RUNNING" ]}.
    destruct i as [|[|i]]; [split; reflexivity|split; reflexivity|lia].
  - reflexivity.
  - reflexivity.
  - split; [exact Hres|exact Hcount].
Defined.

Example poll_exhausts_two_retries :
  poll_query_status (executor running_api sample_sql 2 15) (PStr "q-1") 1 1%nat
  = mk_outcome (Ok (answer_resp (status_json "RUNNING"))) 4%nat
      [ EvLog INFO "In PlaygroundQueryExecutor.poll_query_status, Polling query status: %s";
        EvRequest (status_request (executor running_api sample_sql 2 15) (PStr "q-1"));
        EvSleep 20;
        EvRequest (status_request (executor running_api sample_sql 2 15) (PStr "q-1"));
        EvLog INFO "Retry: %s, Status: %s";
        EvSleep 15;
        EvRequest (status_request (executor running_api sample_sql 2 15) (PStr "q-1"));
        EvLog INFO "Retry: %s, Status: %s";
        EvSleep 15;
        EvLog WARNING "Max retries reached" ].
Proof. vm_compute. reflexivity. Qed.

(** C2: when every status GET returns RUNNING, [poll_query_status] makes
    the warm-up poll and exactly [retry] loop iterations, then returns the
    last RUNNING snapshot without raising; [run] then returns that same
    snapshot as a normal result. *)
Theorem C2_exhaustion_returns_running
    (self : PlaygroundQueryExecutor) (n : nat) (query_id : pyval) :
  0 <= retry self ->
  0 <= delay self ->
  submitted self n query_id ->
  (forall i, running_answer (status_answer self query_id (S n + i)%nat)) ->
  res (poll_query_status self query_id 1 (S n))
  = Ok (answer_resp (status_answer self query_id (S n + Z.to_nat (retry self))%nat)) /\
  events (poll_query_status self query_id 1 (S n))
  = poll_prefix self query_id
    ++ loop_trace self (status_request self query_id) (Z.to_nat (retry self))
    ++ [EvLog WARNING "Max retries reached"] /\
  Z.of_nat (count_gets (events (poll_query_status self query_id 1 (S n))))
  = 1 + retry self /\
  (exists d,
     data (answer_resp (status_answer self query_id (S n + Z.to_nat (retry self))%nat))
     = Some (JDict d) /\ is_running d = true) /\
  res (run self n)
  = Ok (answer_resp (status_answer self query_id (S n + Z.to_nat (retry self))%nat)) /\
  exists payload,
    events (run self n)
    = run_prefix self payload
      ++ events (poll_query_status self query_id 1 (S n))
      ++ [EvPrint "Retries exhausted for query {query_id}. Query is still running."].
Proof.
  intros Hr Hd Hsub Hrun.
  pose proof (PollStatus.poll_exhausts self query_id (S n) Hr Hd Hrun) as Hpoll.
  destruct (Hrun (Z.to_nat (retry self))) as (d & Hsnap & Hd_run).
  destruct (ApiCall.snapshot_accepted _ _ Hsnap) as [_ Hdata].
  destruct (Run.run_after_poll _ _ _ _ _ _ Hsub Hpoll) as (payload & _ & Hrun_eq).
  rewrite (Run.run_classify_running _ d) in Hrun_eq.
  2: exact Hdata.
  2: apply Run.status_lookup, ApiCall.running_status, Hd_run.
  rewrite Hrun_eq, Hpoll. cbn [res calls events prepend].
  split; [reflexivity|]. split; [reflexivity|]. split.
  { rewrite !PollStatus.count_gets_app, PollStatus.count_gets_loop_trace,
      PollFacts.count_gets_poll_prefix. cbn. lia. }
  split; [eauto|]. split; [reflexivity|].
  exists payload. now rewrite <- !app_assoc.
Qed.

Lemma C2_exhaustion_returns_running_witness :
  res (poll_query_status (executor running_api sample_sql 2 15) (PStr "q-1") 1 1%nat)
  = Ok (answer_resp (status_json "RUNNING")) /\
  Z.of_nat (count_gets (events (poll_query_status (executor running_api sample_sql 2 15)
                                  (PStr "q-1") 1 1%nat))) = 1 + 2 /\
  res (run (executor running_api sample_sql 2 15) 0%nat)
  = Ok (answer_resp (status_json "RUNNING")).
Proof.
  pose proof (C2_exhaustion_returns_running
                (executor running_api sample_sql 2 15) 0%nat (PStr "q-1")) as H.
  destruct H as (Hres & _ & Hcount & _ & Hrun & _).
  - cbn. lia.
  - cbn. lia.
  - eexists _, {[ "QueryId" := PStr "q-1" ]}.
    split; [reflexivity|]. split; reflexivity.
  - intros i. exists {[ "QueryStatus" := PStr "RUNNING" ]}. split; reflexivity.
  - split; [exact Hres|]. split; [exact Hcount|exact Hrun].
Defined.

Example terminal_status_still_sleeps :
  events (poll_query_status (executor (failed_api "syntax error") sample_sql 5 60)
            (PStr "q-1") 1 1%nat)
  = [ EvLog INFO "In PlaygroundQueryExecutor.poll_query_status, Polling query status: %s";
      EvRequest (status_request (executor (failed_api "syntax error") sample_sql 5 60)
                   (PStr "q-1"));
      EvSleep 20;
      EvLog WARNING "Max retries reached" ].
Proof. vm_compute. reflexivity. Qed.

(** C3: [poll_query_status] first makes exactly one status GET and then
    sleeps 20, whatever status that GET observed (terminal or not) and
    whatever the configured retry delay, before it enters the retry loop;
    every sleep inside the loop lasts the configured retry delay instead.
    In [run] that first GET follows the submission directly. *)
Theorem C3_warm_up_sleep
    (self : PlaygroundQueryExecutor) (query_id : pyval) (r : Z) (n : nat)
    (d : gmap string pyval) :
  snapshot_of (status_answer self query_id n) = Some d ->
  exists loop_events,
    events (poll_query_status self query_id r n)
    = [ EvLog INFO "In PlaygroundQueryExecutor.poll_query_status, Polling query status: %s";
        EvRequest (status_request self query_id);
        EvSleep 20 ]
      ++ loop_events /\
    loop_events
    = events (poll_loop (Z.to_nat (retry self - r + 1)) self
                (status_request self query_id)
                (answer_resp (status_answer self query_id n)) (status_of d) r (S n)) /\
    Forall (fun t => t = delay self) (sleeps loop_events) /\
    (forall n0, n = S n0 -> r = 1 -> submitted self n0 query_id ->
       exists payload rest,
         events (run self n0)
         = run_prefix self payload
           ++ [ EvLog INFO "In PlaygroundQueryExecutor.poll_query_status, Polling query status: %s";
                EvRequest (status_request self query_id);
                EvSleep 20 ]
           ++ rest).
Proof.
  intros Hsnap.
  rewrite (PollStatus.poll_query_status_snapshot _ _ _ _ _ Hsnap).
  eexists. split; [reflexivity|]. split; [reflexivity|].
  split; [apply LoopInvariants.poll_loop_sleeps|].
  intros n0 -> -> Hsub.
  destruct (Run.run_submitted _ _ _ Hsub) as (payload & _ & ->).
  rewrite Steps.events_prepend.
  destruct (PollFacts.events_bind_prefix (poll_query_status self query_id 1)
              run_classify (S n0)) as (evs & ->).
  rewrite (PollStatus.poll_query_status_snapshot _ _ _ _ _ Hsnap).
  exists payload. eexists.
  rewrite Steps.events_prepend. unfold poll_prefix.
  rewrite <- !app_assoc. reflexivity.
Qed.

Lemma C3_warm_up_sleep_witness :
  exists loop_events,
    events (poll_query_status (executor (failed_api "syntax error") sample_sql 5 60)
              (PStr "q-1") 1 1%nat)
    = [ EvLog INFO "In PlaygroundQueryExecutor.poll_query_status, Polling query status: %s";
        EvRequest (status_request (executor (failed_api "syntax error") sample_sql 5 60)
                     (PStr "q-1"));
        EvSleep 20 ]
      ++ loop_events.
Proof.
  destruct (C3_warm_up_sleep (executor (failed_api "syntax error") sample_sql 5 60)
              (PStr "q-1") 1 1%nat
              {[ "QueryStatus" := PStr "FAILED"; "Message" := PStr "syntax error" ]})
    as (loop_events & H & _).
  - reflexivity.
  - exists loop_events. exact H.
Defined.

(* ===================================================================== *)
(** * No recovery from a rejected API answer                               *)
(* ===================================================================== *)

Module Strict.

Import Steps ApiCall.

Lemma requests_app evs1 evs2 :
  requests (evs1 ++ evs2) = requests evs1 ++ requests evs2.
Proof. unfold requests. apply omap_app. Qed.

(** A computation that makes no API call is strict. *)
Lemma api_strict_silent {A} self (m : M A) :
  (forall n, calls (m n) = n /\ requests (events (m n)) = []) ->
  api_strict self m.
Proof.
  intros H n. destruct (H n) as [Hc Hr]. rewrite Hc, Hr. split.
  - cbn. lia.
  - intros j req Hj. discriminate Hj.
Qed.

Lemma api_strict_ret {A} self (a : A) : api_strict self (ret a).
Proof. apply api_strict_silent. intros n. split; reflexivity. Qed.

Lemma api_strict_lift {A} self (r : result A) : api_strict self (lift r).
Proof. apply api_strict_silent. intros n. split; reflexivity. Qed.

Lemma api_strict_raise {A} self e : api_strict self (@raise A e).
Proof. apply api_strict_lift. Qed.

Lemma api_strict_log self lvl fmt : api_strict self (log lvl fmt).
Proof. apply api_strict_silent. intros n. split; reflexivity. Qed.

Lemma api_strict_print self fmt : api_strict self (print fmt).
Proof. apply api_strict_silent. intros n. split; reflexivity. Qed.

Lemma api_strict_emit_download self link : api_strict self (emit (EvDownload link)).
Proof. apply api_strict_silent. intros n. split; reflexivity. Qed.

Lemma api_strict_sleep self t : api_strict self (time_sleep t).
Proof.
  apply api_strict_silent. intros n. unfold time_sleep.
  destruct (t <? 0); split; reflexivity.
Qed.

Lemma api_strict_safe_api_call self req : api_strict self (_safe_api_call self req).
Proof.
  intros n. rewrite safe_api_call_eq. cbn [res calls events]. split.
  - cbn. lia.
  - intros j req' Hj. destruct j as [|j]; [|discriminate Hj].
    cbn in Hj. injection Hj as <-. rewrite Nat.add_0_r.
    unfold rejected. intros Hrej.
    destruct (Z.eqb_spec (exitcode (answer_resp (make_request (api self) n req))) 0);
      [contradiction|].
    split; reflexivity.
Qed.

Lemma api_strict_bind {A B} self (m : M A) (f : A -> M B) :
  api_strict self m ->
  (forall a, api_strict self (f a)) ->
  api_strict self (bind m f).
Proof.
  intros Hm Hf n. specialize (Hm n). unfold bind.
  destruct (m n) as [[a|e|] n' evs] eqn:Hmn; cbn [res calls events] in *.
  2,3: destruct Hm as [Hcalls Hm]; (split; [assumption|]);
       intros j req Hj Hrej; destruct (Hm j req Hj Hrej) as [Heq Hlen];
       (split; [|assumption]); try discriminate Heq;
       injection Heq as ->; reflexivity.
  destruct Hm as [Hcalls Hm]. specialize (Hf a n'). destruct Hf as [Hcalls' Hf].
  unfold prepend. cbn [res calls events]. rewrite requests_app, length_app.
  split; [lia|].
  intros j req Hj Hrej.
  destruct (Nat.lt_ge_cases j (length (requests evs))) as [Hlt|Hge].
  - rewrite lookup_app_l in Hj by assumption.
    destruct (Hm j req Hj Hrej) as [Habs _]. discriminate Habs.
  - rewrite lookup_app_r in Hj by assumption.
    replace (n + j)%nat with (n' + (j - length (requests evs)))%nat in * by lia.
    destruct (Hf _ _ Hj Hrej) as [Hres Hlen]. split; [assumption|lia].
Qed.

(** Lemmas about whole methods, added as they are proved. *)
Ltac strict_method := fail.

Ltac strict :=
  repeat first
    [ lazymatch goal with
      | |- api_strict _ (bind _ _) => apply api_strict_bind; [|intros ?]
      | |- api_strict _ (_safe_api_call _ _) => apply api_strict_safe_api_call
      | |- api_strict _ (ret _) => apply api_strict_ret
      | |- api_strict _ (lift _) => apply api_strict_lift
      | |- api_strict _ (raise _) => apply api_strict_raise
      | |- api_strict _ (log _ _) => apply api_strict_log
      | |- api_strict _ (print _) => apply api_strict_print
      | |- api_strict _ (emit (EvDownload _)) => apply api_strict_emit_download
      | |- api_strict _ (time_sleep _) => apply api_strict_sleep
      | |- api_strict _ (if ?b then _ else _) => destruct b
      end
    | strict_method ].

Lemma api_strict_poll_loop self req fuel :
  forall response status r,
    api_strict self (poll_loop fuel self req response status r).
Proof.
  induction fuel as [|fuel IH]; intros response status r; cbn [poll_loop];
    strict; apply IH.
Qed.

Ltac strict_method ::=
  lazymatch goal with
  | |- api_strict _ (poll_loop _ _ _ _ _ _) => apply api_strict_poll_loop
  end.

Lemma api_strict_poll_query_status self query_id r :
  api_strict self (poll_query_status self query_id r).
Proof. unfold poll_query_status. strict. Qed.

Lemma api_strict_build_query_payload self :
  api_strict self (build_query_payload self).
Proof. unfold build_query_payload. strict. Qed.

Lemma api_strict_submit_query self payload :
  api_strict self (submit_query self payload).
Proof. unfold submit_query. strict. Qed.

Ltac strict_method ::=
  lazymatch goal with
  | |- api_strict _ (poll_loop _ _ _ _ _ _) => apply api_strict_poll_loop
  | |- api_strict _ (poll_query_status _ _ _) => apply api_strict_poll_query_status
  | |- api_strict _ (build_query_payload _) => apply api_strict_build_query_payload
  | |- api_strict _ (submit_query _ _) => apply api_strict_submit_query
  end.

Theorem api_strict_run self : api_strict self (run self).
Proof. unfold run. strict. Qed.

Theorem api_strict_fetch_query_results {DataFrame : Type}
    (requests_get_text : pyval -> result string)
    (pd_read_csv : string -> result DataFrame) self :
  api_strict self (fetch_query_results DataFrame requests_get_text pd_read_csv self).
Proof.
  unfold fetch_query_results.
  apply api_strict_bind; [strict|intros _].
  apply api_strict_bind; [apply api_strict_run|intros query_response].
  strict.
Qed.

End Strict.

Example created_is_rejected :
  run (executor created_api sample_sql 5 60) 0%nat
  = mk_outcome
      (Raise (mk_exn Exception_ (PStr "API call failed: Failed with error Created")))
      1%nat
      (run_prefix (executor created_api sample_sql 5 60)
         (json_dumps {[ "QueryString" := "U0VMRUNUIDE=";
                        "Encoding" := "base64";
                        "WorkGroup" := "primary";
                        "AssumeRole" := "no" ]})).
Proof. vm_compute. reflexivity. Qed.

Example unparsable_body_is_rejected :
  answer_resp (Response 200 "OK" (inl (mk_exn JSONDecodeError (PStr "Expecting value"))))
  = {| exitcode := 1;
       message := Some "Failed to parse response: Expecting value";
       data := None;
       response := None |}.
Proof. reflexivity. Qed.

(** C10: every API call of a run goes through [_safe_api_call], which
    accepts an HTTP response only when its status code is exactly 200 and
    its body parses as JSON.  When the [j]-th API call of [run] (the
    submission or any status poll) is answered with another HTTP status
    code (201 included) or with a body that does not parse,
    [_safe_api_call] raises, the run ends with that exception, and no
    further API call is made. *)
Theorem C10_only_200_is_success
    (self : PlaygroundQueryExecutor) (n j : nat) (req : request)
    (c : Z) (reason : string) (body : exn + json) :
  requests (events (run self n)) !! j = Some req ->
  make_request (api self) (n + j)%nat req = Response c reason body ->
  http_status_code c ->
  (c <> 200 \/ exists ex, body = inl ex) ->
  res (_safe_api_call self req (n + j)%nat)
  = Raise (api_call_failed (Response c reason body)) /\
  exc_type (api_call_failed (Response c reason body)) = Exception_ /\
  res (run self n) = Raise (api_call_failed (Response c reason body)) /\
  length (requests (events (run self n))) = S j.
Proof.
  intros Hj Hanswer Hc Hbad.
  assert (Hrej : rejected (make_request (api self) (n + j)%nat req)).
  { rewrite Hanswer. now apply ApiCall.http_rejected. }
  split.
  { rewrite (ApiCall.safe_api_call_rejected _ _ _ Hrej), Hanswer. reflexivity. }
  split; [reflexivity|].
  destruct (Strict.api_strict_run self n) as [_ Hstrict].
  destruct (Hstrict j req Hj Hrej) as [Hres Hlen].
  rewrite Hanswer in Hres. split; assumption.
Qed.

Lemma C10_only_200_is_success_witness :
  res (run (executor created_api sample_sql 5 60) 0%nat)
  = Raise (api_call_failed
             (Response 201 "Created" (inr (JDict {[ "QueryId" := PStr "q-1" ]})))) /\
  length (requests (events (run (executor created_api sample_sql 5 60) 0%nat))) = 1%nat.
Proof.
  pose proof (C10_only_200_is_success
                (executor created_api sample_sql 5 60) 0%nat 0%nat
                (submit_request (executor created_api sample_sql 5 60)
                   (json_dumps {[ "QueryString" := "U0VMRUNUIDE=";
                                  "Encoding" := "base64";
                                  "WorkGroup" := "primary";
                                  "AssumeRole" := "no" ]}))
                201 "Created" (inr (JDict {[ "QueryId" := PStr "q-1" ]}))) as H.
  destruct H as (_ & _ & Hres & Hlen).
  - vm_compute. reflexivity.
  - reflexivity.
  - unfold http_status_code. lia.
  - left. lia.
  - split; [exact Hres|exact Hlen].
Defined.

(* ===================================================================== *)
(** * Status classification in run and fetch_query_results                *)
(* ===================================================================== *)

Module Classify.

Import Steps ApiCall Run.

Lemma outcome_eta {A} (o : outcome A) :
  o = mk_outcome (res o) (calls o) (events o).
Proof. destruct o; reflexivity. Qed.

Lemma res_bind_ok {A B} (m : M A) (f : A -> M B) n b :
  res (bind m f n) = Ok b ->
  exists a, res (m n) = Ok a /\ res (f a (calls (m n))) = Ok b.
Proof.
  unfold bind. destruct (m n) as [[a|e|] n' evs]; cbn [res calls];
    try discriminate.
  intros H. exists a. split; [reflexivity|exact H].
Qed.

(** [run] returns only SUCCEEDED and RUNNING snapshots. *)
Lemma run_returns self n snap :
  res (run self n) = Ok snap ->
  exists d, data snap = Some (JDict d) /\
            (d !! "QueryStatus" = Some (PStr "SUCCEEDED") \/
             d !! "QueryStatus" = Some (PStr "RUNNING")).
Proof.
  unfold run. rewrite bind_log, res_prepend. intros H.
  apply res_bind_ok in H as (payload & _ & H).
  apply res_bind_ok in H as (response & _ & H).
  apply res_bind_ok in H as (query_id & _ & H).
  apply res_bind_ok in H as (qsr & _ & H).
  apply (run_classify_returns qsr) in H as [-> H]. exact H.
Qed.

(** What [run] does once the poll returned the snapshot [snap]. *)
Lemma run_polled self n query_id snap :
  submitted self n query_id ->
  res (poll_query_status self query_id 1 (S n)) = Ok snap ->
  exists payload,
    run self n =
      prepend (run_prefix self payload
               ++ events (poll_query_status self query_id 1 (S n)))
        (run_classify snap (calls (poll_query_status self query_id 1 (S n)))).
Proof.
  intros Hsub Hpoll.
  pose proof (outcome_eta (poll_query_status self query_id 1 (S n))) as Heta.
  rewrite Hpoll in Heta.
  destruct (run_after_poll _ _ _ _ _ _ Hsub Heta) as (payload & _ & H).
  exists payload. exact H.
Qed.

Section Fetch.

Context {DataFrame : Type}.
Variable requests_get_text : pyval -> result string.
Variable pd_read_csv : string -> result DataFrame.

Lemma fetch_run_raises self n e :
  res (run self n) = Raise e ->
  res (fetch_query_results DataFrame requests_get_text pd_read_csv self n) = Raise e.
Proof.
  intros H. unfold fetch_query_results. rewrite bind_log, res_prepend.
  pose proof (outcome_eta (run self n)) as Heta. rewrite H in Heta.
  now rewrite (bind_raise _ _ _ _ _ _ Heta).
Qed.

Lemma fetch_run_running self n snap d :
  res (run self n) = Ok snap ->
  data snap = Some (JDict d) ->
  d !! "QueryStatus" = Some (PStr "RUNNING") ->
  fetch_query_results DataFrame requests_get_text pd_read_csv self n =
    mk_outcome
      (Raise (mk_exn Exception_ (PStr "Query still running after retries.")))
      (calls (run self n))
      (EvLog INFO "In PlaygroundQueryExecutor.fetch_query_results, Fetching results for query on endpoint: %s, target: %s"
       :: events (run self n)
       ++ [EvLog ERROR "Query is still running. Increase delay or retry settings and try again."]).
Proof.
  intros H Hdata Hst. unfold fetch_query_results. rewrite bind_log.
  pose proof (outcome_eta (run self n)) as Heta. rewrite H in Heta.
  rewrite (bind_ok _ _ _ _ _ _ Heta).
  rewrite Hdata. cbn [py_getitem]. rewrite Hst, bind_lift_ok.
  cbn [py_eq String.eqb Ascii.eqb Bool.eqb]. rewrite bind_log.
  reflexivity.
Qed.

(** The soft branch of [fetch_query_results] for another status cannot
    be reached: [run] has raised before. *)
Lemma fetch_never_returns_none self n :
  res (fetch_query_results DataFrame requests_get_text pd_read_csv self n)
  <> Ok None.
Proof.
  unfold fetch_query_results. rewrite bind_log, res_prepend. intros H.
  apply res_bind_ok in H as (snap & Hrun & H).
  destruct (run_returns _ _ _ Hrun) as (d & Hdata & [Hst|Hst]);
    rewrite Hdata in H; cbn [py_getitem] in H; rewrite Hst, bind_lift_ok in H;
    cbn [py_eq String.eqb Ascii.eqb Bool.eqb] in H.
  - apply res_bind_ok in H as (link & _ & H).
    rewrite bind_emit, res_prepend in H.
    apply res_bind_ok in H as (text & _ & H).
    apply res_bind_ok in H as (df & _ & H).
    discriminate H.
  - rewrite bind_log in H. discriminate H.
Qed.

End Fetch.

End Classify.

Example run_failed_with_message :
  res (run (executor (failed_api "syntax error") sample_sql 5 60) 0%nat)
  = Raise (mk_exn Exception_ (PStr "syntax error")).
Proof. vm_compute. reflexivity. Qed.

Example run_failed_without_message :
  res (run (executor failed_no_message_api sample_sql 5 60) 0%nat)
  = Raise (mk_exn Exception_ PNone) /\
  last (events (run (executor failed_no_message_api sample_sql 5 60) 0%nat))
  = Some (EvLog ERROR "Query failed: %s").
Proof. split; vm_compute; reflexivity. Qed.

(** C8 does not hold of the code in its second half.  When the polled
    status is FAILED or any other value than SUCCEEDED and RUNNING, [run]
    raises an [Exception] that carries the remote ["Message"] when the
    snapshot has one.  When the snapshot has none, no generic failure
    notice takes its place: [run] raises [Exception(None)], and so does
    [fetch_query_results], whose FAILED branch with the default
    ["Unknown error"] is never reached because the [run] it calls first
    has raised.  With or without a message the trace is the same: after
    the polling only the error line ["Query failed: <status>"] is logged,
    nothing is printed. *)
Theorem C8_missing_message_raises_none
    (DataFrame : Type) (requests_get_text : pyval -> result string)
    (pd_read_csv : string -> result DataFrame)
    (self : PlaygroundQueryExecutor) (n : nat) (query_id : pyval)
    (snap : json_resp) (d : gmap string pyval) (status : pyval) :
  submitted self n query_id ->
  res (poll_query_status self query_id 1 (S n)) = Ok snap ->
  data snap = Some (JDict d) ->
  d !! "QueryStatus" = Some status ->
  py_eq status "SUCCEEDED" = false ->
  py_eq status "RUNNING" = false ->
  (forall msg, d !! "Message" = Some msg ->
     res (run self n) = Raise (mk_exn Exception_ msg) /\
     res (fetch_query_results DataFrame requests_get_text pd_read_csv self n)
     = Raise (mk_exn Exception_ msg)) /\
  (d !! "Message" = None ->
     res (run self n) = Raise (mk_exn Exception_ PNone) /\
     res (fetch_query_results DataFrame requests_get_text pd_read_csv self n)
     = Raise (mk_exn Exception_ PNone) /\
     res (fetch_query_results DataFrame requests_get_text pd_read_csv self n)
     <> Raise (mk_exn Exception_ (PStr "Unknown error"))) /\
  (exists payload,
     events (fetch_query_results DataFrame requests_get_text pd_read_csv self n)
     = EvLog INFO "In PlaygroundQueryExecutor.fetch_query_results, Fetching results for query on endpoint: %s, target: %s"
       :: run_prefix self payload
       ++ events (poll_query_status self query_id 1 (S n))
       ++ [EvLog ERROR "Query failed: %s"]).
Proof.
  intros Hsub Hpoll Hdata Hst Hs Hr.
  destruct (Classify.run_polled _ _ _ _ Hsub Hpoll) as (payload & Hrun).
  rewrite (Run.run_classify_other _ _ _ _ Hdata Hst Hs Hr) in Hrun.
  unfold prepend in Hrun. cbn [res calls events] in Hrun.
  assert (Hfetch :
    fetch_query_results DataFrame requests_get_text pd_read_csv self n =
      mk_outcome (Raise (mk_exn Exception_ (default PNone (d !! "Message"))))
        (calls (poll_query_status self query_id 1 (S n)))
        (EvLog INFO "In PlaygroundQueryExecutor.fetch_query_results, Fetching results for query on endpoint: %s, target: %s"
         :: run_prefix self payload
         ++ events (poll_query_status self query_id 1 (S n))
         ++ [EvLog ERROR "Query failed: %s"])).
  { unfold fetch_query_results.
    rewrite Steps.bind_log, (Steps.bind_raise _ _ _ _ _ _ Hrun).
    unfold prepend. cbn [res calls events]. now rewrite <- app_assoc. }
  rewrite Hrun, Hfetch. cbn [res events].
  split; [intros msg ->; split; reflexivity|].
  split; [intros ->; repeat split; discriminate|].
  exists payload. reflexivity.
Qed.

Lemma C8_missing_message_raises_none_witness :
  res (run (executor failed_no_message_api sample_sql 5 60) 0%nat)
  = Raise (mk_exn Exception_ PNone) /\
  res (fetch_query_results string echo_get_text text_read_csv
         (executor failed_no_message_api sample_sql 5 60) 0%nat)
  = Raise (mk_exn Exception_ PNone).
Proof.
  pose proof (C8_missing_message_raises_none string echo_get_text text_read_csv
                (executor failed_no_message_api sample_sql 5 60) 0%nat
                (PStr "q-1")
                (answer_resp (status_json "FAILED"))
                {[ "QueryStatus" := PStr "FAILED" ]}
                (PStr "FAILED")) as H.
  destruct H as (_ & Hnone & _).
  - eexists _, {[ "QueryId" := PStr "q-1" ]}.
    split; [reflexivity|]. split; reflexivity.
  - vm_compute. reflexivity.
  - reflexivity.
  - reflexivity.
  - reflexivity.
  - reflexivity.
  - destruct Hnone as (Hrun & Hfetch & _); [reflexivity|].
    split; [exact Hrun|exact Hfetch].
Defined.

Example fetch_cancelled_raises :
  res (fetch_query_results string echo_get_text text_read_csv
         (executor cancelled_api sample_sql 5 60) 0%nat)
  = Raise (mk_exn Exception_ (PStr "cancelled by user")).
Proof. vm_compute. reflexivity. Qed.

Example fetch_succeeded_downloads :
  res (fetch_query_results string echo_get_text text_read_csv
         (executor
            (scripted_api handle_answer
               (fun _ => ok_json {[ "QueryStatus" := PStr "SUCCEEDED";
                                    "ResultsDownloadLink" := PStr "https://dl/1" ]}))
            sample_sql 5 60) 0%nat)
  = Ok (Some "https://dl/1").
Proof. vm_compute. reflexivity. Qed.

(** C9 does not hold of the code: when the final polled status is none of
    SUCCEEDED, RUNNING and FAILED, [fetch_query_results] does not reach
    its branch that prints the status and returns nothing, because the
    [run] it calls first has raised an [Exception] carrying the remote
    message. *)
Theorem C9_unknown_status_raises
    (DataFrame : Type) (requests_get_text : pyval -> result string)
    (pd_read_csv : string -> result DataFrame)
    (self : PlaygroundQueryExecutor) (n : nat) (query_id : pyval)
    (snap : json_resp) (d : gmap string pyval) (status : pyval) :
  submitted self n query_id ->
  res (poll_query_status self query_id 1 (S n)) = Ok snap ->
  data snap = Some (JDict d) ->
  d !! "QueryStatus" = Some status ->
  py_eq status "SUCCEEDED" = false ->
  py_eq status "RUNNING" = false ->
  py_eq status "FAILED" = false ->
  res (fetch_query_results DataFrame requests_get_text pd_read_csv self n)
  = Raise (mk_exn Exception_ (default PNone (d !! "Message"))) /\
  res (fetch_query_results DataFrame requests_get_text pd_read_csv self n)
  <> Ok None.
Proof.
  intros Hsub Hpoll Hdata Hst Hs Hr _.
  split; [|apply Classify.fetch_never_returns_none].
  apply Classify.fetch_run_raises.
  destruct (Classify.run_polled _ _ _ _ Hsub Hpoll) as (payload & ->).
  rewrite (Run.run_classify_other _ _ _ _ Hdata Hst Hs Hr). reflexivity.
Qed.

Lemma C9_unknown_status_raises_witness :
  res (fetch_query_results string echo_get_text text_read_csv
         (executor cancelled_api sample_sql 5 60) 0%nat)
  = Raise (mk_exn Exception_ (PStr "cancelled by user")).
Proof.
  pose proof (C9_unknown_status_raises string echo_get_text text_read_csv
                (executor cancelled_api sample_sql 5 60) 0%nat (PStr "q-1")
                (answer_resp (status_message_json "CANCELLED" "cancelled by user"))
                {[ "QueryStatus" := PStr "CANCELLED";
                   "Message" := PStr "cancelled by user" ]}
                (PStr "CANCELLED")) as H.
  destruct H as (Hres & _).
  - eexists _, {[ "QueryId" := PStr "q-1" ]}.
    split; [reflexivity|]. split; reflexivity.
  - vm_compute. reflexivity.
  - reflexivity.
  - reflexivity.
  - reflexivity.
  - reflexivity.
  - reflexivity.
  - exact Hres.
Defined.

(** C7, as stated, fails: the exception raised for an exhausted RUNNING
    status and the one raised for a FAILED status have the same class,
    [Exception]; when the remote message of the failure is the text of
    the still-running notice the two exceptions are equal. *)
Lemma C7_same_type_counterexample :
  exists e_running e_failed,
    res (fetch_query_results string echo_get_text text_read_csv
           (executor running_api sample_sql 1 1) 0%nat) = Raise e_running /\
    res (fetch_query_results string echo_get_text text_read_csv
           (executor (failed_api "Query still running after retries.")
              sample_sql 1 1) 0%nat) = Raise e_failed /\
    exc_type e_running = exc_type e_failed /\
    e_running = e_failed.
Proof.
  exists (mk_exn Exception_ (PStr "Query still running after retries.")).
  exists (mk_exn Exception_ (PStr "Query still running after retries.")).
  split; [vm_compute; reflexivity|].
  split; [vm_compute; reflexivity|].
  split; reflexivity.
Qed.

(** C7 (amended): when [fetch_query_results] observes an exhausted
    RUNNING status it raises the generic [Exception] with the fixed
    message "Query still running after retries."; for a FAILED status the
    [run] it calls raises the same generic [Exception] class, carrying the
    remote message ([None] when absent).  The two outcomes differ in the
    message only. *)
Theorem C7_still_running_exception
    (DataFrame : Type) (requests_get_text : pyval -> result string)
    (pd_read_csv : string -> result DataFrame)
    (self : PlaygroundQueryExecutor) (n : nat) (query_id : pyval)
    (snap : json_resp) (d : gmap string pyval) :
  submitted self n query_id ->
  res (poll_query_status self query_id 1 (S n)) = Ok snap ->
  data snap = Some (JDict d) ->
  (d !! "QueryStatus" = Some (PStr "RUNNING") ->
   res (fetch_query_results DataFrame requests_get_text pd_read_csv self n)
   = Raise (mk_exn Exception_ (PStr "Query still running after retries."))) /\
  (d !! "QueryStatus" = Some (PStr "FAILED") ->
   res (fetch_query_results DataFrame requests_get_text pd_read_csv self n)
   = Raise (mk_exn Exception_ (default PNone (d !! "Message")))).
Proof.
  intros Hsub Hpoll Hdata.
  destruct (Classify.run_polled _ _ _ _ Hsub Hpoll) as (payload & Hrun).
  split; intros Hst.
  - rewrite (Classify.fetch_run_running _ _ _ _ snap d); try assumption.
    + reflexivity.
    + rewrite Hrun, (Run.run_classify_running _ _ _ Hdata Hst). reflexivity.
  - apply Classify.fetch_run_raises.
    rewrite Hrun, (Run.run_classify_other _ _ (PStr "FAILED") _ Hdata Hst);
      reflexivity.
Qed.

Lemma C7_still_running_exception_witness :
  res (fetch_query_results string echo_get_text text_read_csv
         (executor running_api sample_sql 1 1) 0%nat)
  = Raise (mk_exn Exception_ (PStr "Query still running after retries.")).
Proof.
  pose proof (C7_still_running_exception string echo_get_text text_read_csv
                (executor running_api sample_sql 1 1) 0%nat (PStr "q-1")
                (answer_resp (status_json "RUNNING"))
                {[ "QueryStatus" := PStr "RUNNING" ]}) as H.
  destruct H as (Hrunning & _).
  - eexists _, {[ "QueryId" := PStr "q-1" ]}.
    split; [reflexivity|]. split; reflexivity.
  - vm_compute. reflexivity.
  - reflexivity.
  - apply Hrunning. reflexivity.
Defined.

(* ===================================================================== *)
(** * Retry defaults                                                      *)
(* ===================================================================== *)

Example constructor_defaults :
  __init__ running_api sample_sql None None None None None
  = {| api := running_api; query := sample_sql; work_group := "primary";
       query_target_location := "athena"; assume_role := "no";
       retry := 5; delay := 60 |}.
Proof. reflexivity. Qed.

(** C6, as stated, fails for the executor: when the caller of its
    constructor leaves the retry parameters out, the executor polls with
    5 retries and a delay of 60, not 20 and 15. *)
Lemma C6_constructor_defaults_counterexample :
  retry (__init__ running_api sample_sql None None None None None) = 5 /\
  delay (__init__ running_api sample_sql None None None None None) = 60 /\
  ~ (retry (__init__ running_api sample_sql None None None None None) = 20 /\
     delay (__init__ running_api sample_sql None None None None None) = 15).
Proof.
  split; [reflexivity|]. split; [reflexivity|].
  intros [H _]. discriminate H.
Qed.

Lemma lookup_resolved_default getResolvedOptions sys_argv k v :
  In (k, v) optional_args ->
  in_argv ("--" +:+ k) sys_argv = false ->
  in_argv k sys_argv = false ->
  resolve_optional_args getResolvedOptions sys_argv !! k = Some v.
Proof.
  intros Hin H1 H2. unfold resolve_optional_args.
  cbn [In optional_args] in Hin.
  repeat (destruct Hin as [[= <- <-]|Hin];
          [cbn [map optional_args list_to_map foldr uncurry curry fst snd];
           rewrite ?lookup_insert_ne by discriminate;
           rewrite lookup_insert_eq, H1, H2; reflexivity|]).
  contradiction.
Qed.

(** C6 (amended): the constructor of the executor defaults to 5 retries
    and a delay of 60; the job entry point [main], when the job arguments
    query_status_retry and query_status_retry_delay are not given, runs
    the executor with 20 retries and a delay of 15.  Both give a ceiling
    of 300 excluding the warm-up. *)
Theorem C6_retry_defaults
    (getResolvedOptions : list string -> string -> string)
    (int_of_str : string -> result Z)
    (api : Api) (query : string) (sys_argv : list string)
    (work_group query_target_location assume_role : option string) :
  in_argv "--query_status_retry" sys_argv = false ->
  in_argv "query_status_retry" sys_argv = false ->
  in_argv "--query_status_retry_delay" sys_argv = false ->
  in_argv "query_status_retry_delay" sys_argv = false ->
  retry (__init__ api query work_group query_target_location assume_role None None) = 5 /\
  delay (__init__ api query work_group query_target_location assume_role None None) = 60 /\
  exists self,
    main_executor getResolvedOptions int_of_str api sys_argv query = Ok self /\
    retry self = 20 /\ delay self = 15 /\ retry self * delay self = 300 /\
    retry self * delay self
    = retry (__init__ api query work_group query_target_location assume_role None None)
      * delay (__init__ api query work_group query_target_location assume_role None None).
Proof.
  intros H1 H2 H3 H4.
  split; [reflexivity|]. split; [reflexivity|].
  assert (E1 : resolve_optional_args getResolvedOptions sys_argv
               !! "query_status_retry" = Some (PInt 20)).
  { apply lookup_resolved_default; [cbn [In optional_args]; tauto|exact H1|exact H2]. }
  assert (E2 : resolve_optional_args getResolvedOptions sys_argv
               !! "query_status_retry_delay" = Some (PInt 15)).
  { apply lookup_resolved_default; [cbn [In optional_args]; tauto|exact H3|exact H4]. }
  unfold main_executor.
  generalize (optional_arg "work_group") (optional_arg "query_target_location")
    (optional_arg "assume_role").
  intros v1 v2 v3. cbv zeta.
  rewrite E1, E2.
  cbn [default py_int result_bind].
  eexists. split; [reflexivity|]. repeat split.
Qed.

Lemma C6_retry_defaults_witness :
  exists self,
    main_executor (fun _ _ => "") (fun _ => Ok 0) running_api [] sample_sql = Ok self /\
    retry self = 20 /\ delay self = 15.
Proof.
  destruct (C6_retry_defaults (fun _ _ => "") (fun _ => Ok 0) running_api
              sample_sql [] None None None)
    as (_ & _ & self & Hmain & Hretry & Hdelay & _).
  - reflexivity.
  - reflexivity.
  - reflexivity.
  - reflexivity.
  - exists self. split; [exact Hmain|]. split; [exact Hretry|exact Hdelay].
Defined.

(* ===================================================================== *)
(** * What a run does with the API client                                  *)
(* ===================================================================== *)

Module Discipline.

Import Steps ApiCall Polling PollStatus LoopInvariants Run.

Lemma res_bind_eq {A B} (m : M A) (f : A -> M B) n :
  res (bind m f n) =
    match res (m n) with
    | Ok a => res (f a (calls (m n)))
    | Raise e => Raise e
    | OutOfFuel => OutOfFuel
    end.
Proof. unfold bind. destruct (m n) as [[a|e|] n' evs]; reflexivity. Qed.

Lemma calls_bind_eq {A B} (m : M A) (f : A -> M B) n :
  calls (bind m f n) =
    match res (m n) with
    | Ok a => calls (f a (calls (m n)))
    | _ => calls (m n)
    end.
Proof. unfold bind. destruct (m n) as [[a|e|] n' evs]; reflexivity. Qed.

Lemma events_bind_eq {A B} (m : M A) (f : A -> M B) n :
  events (bind m f n) =
    events (m n)
    ++ match res (m n) with
       | Ok a => events (f a (calls (m n)))
       | _ => []
       end.
Proof.
  unfold bind. destruct (m n) as [[a|e|] n' evs]; cbn [res calls events prepend];
    try reflexivity; now rewrite app_nil_r.
Qed.

(** ** Computations that always end *)

Lemma terminates_bind {A B} (m : M A) (f : A -> M B) :
  terminates m -> (forall a, terminates (f a)) -> terminates (bind m f).
Proof.
  intros Hm Hf n. rewrite res_bind_eq. specialize (Hm n).
  destruct (res (m n)); [apply Hf|discriminate|contradiction].
Qed.

Lemma terminates_ret {A} (a : A) : terminates (ret a).
Proof. intros n. discriminate. Qed.

Lemma terminates_raise {A} e : terminates (@raise A e).
Proof. intros n. discriminate. Qed.

Lemma terminates_lift {A} (r : result A) : r <> OutOfFuel -> terminates (lift r).
Proof. intros H n. exact H. Qed.

Lemma terminates_emit e : terminates (emit e).
Proof. intros n. discriminate. Qed.

Lemma terminates_sleep t : terminates (time_sleep t).
Proof. intros n. unfold time_sleep. destruct (t <? 0); discriminate. Qed.

Lemma py_getitem_ends obj key : py_getitem obj key <> OutOfFuel.
Proof.
  unfold py_getitem. destruct obj as [[d|]|]; try discriminate.
  destruct (d !! key); discriminate.
Qed.

Lemma py_get_ends obj key dflt : py_get obj key dflt <> OutOfFuel.
Proof. unfold py_get. destruct obj as [[d|]|]; discriminate. Qed.

Lemma terminates_poll_query_status self query_id r :
  terminates (poll_query_status self query_id r).
Proof. intros n. apply poll_query_status_total. Qed.

Lemma terminates_safe_api_call self req : terminates (_safe_api_call self req).
Proof. intros n. rewrite safe_api_call_eq. cbn. destruct (_ =? 0); discriminate. Qed.

Lemma terminates_build_query_payload self : terminates (build_query_payload self).
Proof.
  intros n. destruct (is_ascii (query self)) eqn:Hq.
  - rewrite Payload.build_ascii by assumption. discriminate.
  - rewrite Payload.build_non_ascii by assumption. discriminate.
Qed.

Ltac ends :=
  repeat lazymatch goal with
    | |- terminates (bind _ _) => apply terminates_bind; [|intros ?]
    | |- terminates (ret _) => apply terminates_ret
    | |- terminates (raise _) => apply terminates_raise
    | |- terminates (emit _) => apply terminates_emit
    | |- terminates (time_sleep _) => apply terminates_sleep
    | |- terminates (poll_query_status _ _ _) => apply terminates_poll_query_status
    | |- terminates (_safe_api_call _ _) => apply terminates_safe_api_call
    | |- terminates (build_query_payload _) => apply terminates_build_query_payload
    | |- terminates (lift (py_getitem _ _)) => apply terminates_lift, py_getitem_ends
    | |- terminates (lift (py_get _ _ _)) => apply terminates_lift, py_get_ends
    | |- terminates (if ?b then _ else _) => destruct b
    end.

Lemma terminates_run self : terminates (run self).
Proof. unfold run, submit_query, log, print. ends. Qed.

(** ** Computations that leave the client alone *)

Lemma downloads_app evs1 evs2 :
  downloads (evs1 ++ evs2) = downloads evs1 ++ downloads evs2.
Proof. unfold downloads. apply omap_app. Qed.

Lemma quiet_bind {A B} (m : M A) (f : A -> M B) :
  quiet m -> (forall a, quiet (f a)) -> quiet (bind m f).
Proof.
  intros Hm Hf n. destruct (Hm n) as (Hc & Hr & Hs & Hd).
  rewrite calls_bind_eq, events_bind_eq.
  rewrite Strict.requests_app, sleeps_app, downloads_app, Hr, Hs, Hd.
  destruct (res (m n)) as [a| |]; cbn [app]; try tauto.
  rewrite Hc. apply Hf.
Qed.

Lemma quiet_ret {A} (a : A) : quiet (ret a).
Proof. intros n. repeat split. Qed.

Lemma quiet_lift {A} (r : result A) : quiet (lift r).
Proof. intros n. repeat split. Qed.

Lemma quiet_raise {A} e : quiet (@raise A e).
Proof. intros n. repeat split. Qed.

Lemma quiet_log lvl fmt : quiet (log lvl fmt).
Proof. intros n. repeat split. Qed.

Lemma quiet_print fmt : quiet (print fmt).
Proof. intros n. repeat split. Qed.

Ltac hush :=
  repeat lazymatch goal with
    | |- quiet (bind _ _) => apply quiet_bind; [|intros ?]
    | |- quiet (ret _) => apply quiet_ret
    | |- quiet (lift _) => apply quiet_lift
    | |- quiet (raise _) => apply quiet_raise
    | |- quiet (log _ _) => apply quiet_log
    | |- quiet (print _) => apply quiet_print
    | |- quiet (if ?b then _ else _) => destruct b
    end.

Lemma quiet_run_classify snap : quiet (run_classify snap).
Proof. unfold run_classify. hush. Qed.

Lemma quiet_build_query_payload self : quiet (build_query_payload self).
Proof. unfold build_query_payload. hush. Qed.

(** ** The requests of the polling loop *)

Lemma requests_cons_request req evs :
  requests (EvRequest req :: evs) = req :: requests evs.
Proof. reflexivity. Qed.

Lemma poll_loop_requests self req fuel :
  forall response status r n,
    exists k,
      (k <= fuel)%nat /\
      requests (events (poll_loop fuel self req response status r n))
      = replicate k req /\
      calls (poll_loop fuel self req response status r n) = (n + k)%nat.
Proof.
  induction fuel as [|fuel IH]; intros response status r n;
    destruct (py_eq status "RUNNING" && (r <=? retry self)) eqn:Hc;
    try (rewrite poll_loop_exit by assumption; exists 0%nat; cbn;
         repeat split; lia).
  - cbn [poll_loop]. rewrite Hc. exists 0%nat. cbn. repeat split; lia.
  - destruct (poll_loop_step_cases fuel self req response status r n Hc)
      as [[_ ->]|[_ [(r' & evs & -> & _ & Hreq & _)|(st & _ & ->)]]];
      cbn [res calls events].
    + exists 1%nat. cbn. repeat split; lia.
    + exists 1%nat. rewrite requests_cons_request, Hreq. cbn.
      repeat split; lia.
    + destruct (IH (answer_resp (make_request (api self) n req)) st (r + 1) (S n))
        as (k & Hk & Hreq & Hcalls).
      exists (S k). rewrite events_prepend, calls_prepend, Strict.requests_app.
      rewrite Hreq, Hcalls. cbn. repeat split; lia.
Qed.

Lemma poll_query_status_requests self query_id r n :
  exists k,
    (1 <= k <= 1 + Z.to_nat (retry self - r + 1))%nat /\
    requests (events (poll_query_status self query_id r n))
    = replicate k (status_request self query_id) /\
    calls (poll_query_status self query_id r n) = (n + k)%nat.
Proof.
  unfold poll_query_status. rewrite bind_log, events_prepend, calls_prepend.
  cbv zeta.
  pose proof (safe_api_call_eq self (status_request self query_id) n) as Hs.
  destruct (exitcode _ =? 0).
  2:{ rewrite (bind_raise _ _ _ _ _ _ Hs). exists 1%nat. cbn. repeat split; lia. }
  rewrite (bind_ok _ _ _ _ _ _ Hs), events_prepend, calls_prepend.
  destruct (data _) as [[d|]|]; cbn [py_get];
    try (rewrite bind_lift_raise; exists 1%nat; cbn; repeat split; lia).
  rewrite bind_lift_ok, bind_sleep, events_prepend, calls_prepend by lia.
  destruct (poll_loop_requests self (status_request self query_id)
              (Z.to_nat (retry self - r + 1))
              (answer_resp (make_request (api self) n (status_request self query_id)))
              (default PNone (d !! "QueryStatus")) r (S n))
    as (k & Hk & Hreq & Hcalls).
  exists (S k). rewrite !Strict.requests_app, Hreq, Hcalls. cbn.
  repeat split; lia.
Qed.

Lemma filter_post_status_requests self query_id k :
  List.filter is_post (replicate k (status_request self query_id)) = [].
Proof. induction k as [|k IH]; [reflexivity|]. cbn. exact IH. Qed.

Lemma build_non_ascii_eq self n :
  is_ascii (query self) = false ->
  build_query_payload self n =
    mk_outcome (Raise (mk_exn UnicodeEncodeError PNone)) n
      [ EvLog INFO "In PlaygroundQueryExecutor.build_query_payload";
        EvLog DEBUG "Query: %s, WorkGroup: %s, Target: %s, AssumeRole: %s" ].
Proof.
  intros Hq.
  unfold build_query_payload, bind, log, emit, lift, ret, str_encode_ascii.
  rewrite Hq. reflexivity.
Qed.

End Discipline.

(** X1: whatever the client answers, [poll_query_status(query_id, retry=r)]
    makes at least one and at most [1 + max(0, self.retry - r + 1)] API
    calls, and every one of them is the same status GET of that handle. *)
Theorem X1_poll_only_status_gets
    (self : PlaygroundQueryExecutor) (query_id : pyval) (r : Z) (n : nat) :
  exists k,
    (1 <= k <= 1 + Z.to_nat (retry self - r + 1))%nat /\
    requests (events (poll_query_status self query_id r n))
    = replicate k (status_request self query_id) /\
    calls (poll_query_status self query_id r n) = (n + k)%nat.
Proof. apply Discipline.poll_query_status_requests. Qed.

(** X2: [run] always ends: for every executor and every client it either
    returns a snapshot or raises; the polling loop cannot go on forever. *)
Theorem X2_run_always_ends (self : PlaygroundQueryExecutor) (n : nat) :
  (exists snap, res (run self n) = Ok snap) \/
  (exists e, res (run self n) = Raise e).
Proof.
  pose proof (Discipline.terminates_run self n) as H.
  destruct (res (run self n)) as [snap|e|]; [eauto|eauto|contradiction].
Qed.

(** X3: a run submits at most once and never resubmits: its API calls are
    none at all (the payload could not be built), or the submission POST
    alone, or that POST followed only by status GETs of one handle, at
    most [1 + retry] of them. *)
Theorem X3_run_submits_once (self : PlaygroundQueryExecutor) (n : nat) :
  (count_posts (events (run self n)) <= 1)%nat /\
  (requests (events (run self n)) = [] \/
   exists payload,
     res (build_query_payload self n) = Ok payload /\
     (requests (events (run self n)) = [submit_request self payload] \/
      exists query_id k,
        (1 <= k <= 1 + Z.to_nat (retry self))%nat /\
        requests (events (run self n))
        = submit_request self payload :: replicate k (status_request self query_id))).
Proof.
  assert (H :
    requests (events (run self n)) = [] \/
    exists payload,
      res (build_query_payload self n) = Ok payload /\
      (requests (events (run self n)) = [submit_request self payload] \/
       exists query_id k,
         (1 <= k <= 1 + Z.to_nat (retry self))%nat /\
         requests (events (run self n))
         = submit_request self payload :: replicate k (status_request self query_id))).
  { unfold run. rewrite Steps.bind_log, Steps.events_prepend.
    destruct (is_ascii (query self)) eqn:Hq.
    2:{ left. rewrite (Steps.bind_raise _ _ _ _ _ _ (Discipline.build_non_ascii_eq _ _ Hq)).
        reflexivity. }
    right. eexists. split; [rewrite Payload.build_ascii by assumption; reflexivity|].
    rewrite (Steps.bind_ok _ _ _ _ _ _ (Payload.build_ascii _ _ Hq)).
    rewrite Steps.events_prepend.
    unfold submit_query.
    repeat first [rewrite Run.bind_bind | rewrite Steps.bind_log].
    rewrite !Steps.events_prepend.
    match goal with
    | |- context [_safe_api_call self ?req] =>
        pose proof (ApiCall.safe_api_call_eq self req n) as Hs
    end.
    destruct (exitcode _ =? 0).
    2:{ left. rewrite (Steps.bind_raise _ _ _ _ _ _ Hs). reflexivity. }
    rewrite (Steps.bind_ok _ _ _ _ _ _ Hs), Steps.events_prepend, Steps.bind_ret.
    destruct (py_getitem _ "QueryId") as [query_id|e|] eqn:Hid.
    - right. rewrite Steps.bind_lift_ok.
      rewrite Discipline.events_bind_eq.
      destruct (Discipline.poll_query_status_requests self query_id 1 (S n))
        as (k & Hk & Hreq & _).
      exists query_id, k. split; [lia|].
      rewrite !Strict.requests_app, Hreq.
      assert (Hquiet :
        requests
          match res (poll_query_status self query_id 1 (S n)) with
          | Ok a => events (run_classify a (calls (poll_query_status self query_id 1 (S n))))
          | _ => []
          end = []).
      { destruct (res (poll_query_status self query_id 1 (S n))); try reflexivity.
        apply Discipline.quiet_run_classify. }
      unfold run_classify in Hquiet. rewrite Hquiet, app_nil_r. reflexivity.
    - left. rewrite Steps.bind_lift_raise. reflexivity.
    - exfalso. exact (Discipline.py_getitem_ends _ _ Hid). }
  split; [|exact H].
  unfold count_posts.
  destruct H as [->|(payload & _ & [->|(query_id & k & _ & ->)])].
  - cbn. lia.
  - cbn. lia.
  - cbn [List.filter]. rewrite Discipline.filter_post_status_requests.
    destruct (is_post _); cbn; lia.
Qed.

(* ===================================================================== *)
(** * Edges of run and of the polling loop                                 *)
(* ===================================================================== *)



(** X5: a run whose SQL text is not ASCII raises [UnicodeEncodeError]
    while building the payload, before any API call, sleep or print. *)
Theorem X5_non_ascii_query_fails_before_submission
    (self : PlaygroundQueryExecutor) (n : nat) :
  is_ascii (query self) = false ->
  run self n =
    mk_outcome (Raise (mk_exn UnicodeEncodeError PNone)) n
      [ EvLog INFO "In PlaygroundQueryExecutor.run, Running query";
        EvLog INFO "In PlaygroundQueryExecutor.build_query_payload";
        EvLog DEBUG "Query: %s, WorkGroup: %s, Target: %s, AssumeRole: %s" ] /\
  requests (events (run self n)) = [].
Proof.
  intros Hq.
  assert (H : run self n =
    mk_outcome (Raise (mk_exn UnicodeEncodeError PNone)) n
      [ EvLog INFO "In PlaygroundQueryExecutor.run, Running query";
        EvLog INFO "In PlaygroundQueryExecutor.build_query_payload";
        EvLog DEBUG "Query: %s, WorkGroup: %s, Target: %s, AssumeRole: %s" ]).
  { unfold run. rewrite Steps.bind_log.
    rewrite (Steps.bind_raise _ _ _ _ _ _ (Discipline.build_non_ascii_eq _ _ Hq)).
    reflexivity. }
  split; [exact H|]. rewrite H. reflexivity.
Qed.

Lemma X5_non_ascii_query_fails_before_submission_witness :
  res (run (executor running_api non_ascii_sql 5 60) 0%nat)
  = Raise (mk_exn UnicodeEncodeError PNone) /\
  requests (events (run (executor running_api non_ascii_sql 5 60) 0%nat)) = [].
Proof.
  destruct (X5_non_ascii_query_fails_before_submission
              (executor running_api non_ascii_sql 5 60) 0%nat) as [H Hreq].
  - reflexivity.
  - split; [now rewrite H|exact Hreq].
Defined.

(** X6: when the submission is accepted but its JSON object has no
    "QueryId", [run] raises [KeyError('QueryId')] right after the POST: no
    status poll is made and nothing is slept. *)
Theorem X6_missing_query_id
    (self : PlaygroundQueryExecutor) (n : nat) (payload : json_text)
    (d : gmap string pyval) :
  res (build_query_payload self n) = Ok payload ->
  snapshot_of (make_request (api self) n (submit_request self payload)) = Some d ->
  d !! "QueryId" = None ->
  res (run self n) = Raise (mk_exn KeyError (PStr "QueryId")) /\
  requests (events (run self n)) = [submit_request self payload] /\
  sleeps (events (run self n)) = [] /\
  calls (run self n) = S n.
Proof.
  intros Hb Hsnap Hid.
  assert (H : run self n =
    mk_outcome (Raise (mk_exn KeyError (PStr "QueryId"))) (S n)
      (run_prefix self payload)).
  { unfold run. rewrite Steps.bind_log.
    rewrite (Steps.bind_ok _ _ _ _ _ _ (Run.build_ok _ _ _ Hb)).
    unfold submit_query.
    repeat first [rewrite Run.bind_bind | rewrite Steps.bind_log].
    rewrite (ApiCall.bind_safe_snapshot _ _ _ _ _ Hsnap), Steps.bind_ret.
    destruct (ApiCall.snapshot_accepted _ _ Hsnap) as [_ Hdata].
    rewrite Hdata. cbn [py_getitem]. rewrite Hid, Steps.bind_lift_raise.
    reflexivity. }
  rewrite H. repeat split.
Qed.

Lemma X6_missing_query_id_witness :
  res (run (executor (scripted_api (ok_json ∅) (fun _ => status_json "SUCCEEDED"))
              sample_sql 5 60) 0%nat)
  = Raise (mk_exn KeyError (PStr "QueryId")) /\
  calls (run (executor (scripted_api (ok_json ∅) (fun _ => status_json "SUCCEEDED"))
                sample_sql 5 60) 0%nat) = 1%nat.
Proof.
  pose proof (X6_missing_query_id
                (executor (scripted_api (ok_json ∅) (fun _ => status_json "SUCCEEDED"))
                   sample_sql 5 60) 0%nat
                (json_dumps {[ "QueryString" := "U0VMRUNUIDE=";
                               "Encoding" := "base64";
                               "WorkGroup" := "primary";
                               "AssumeRole" := "no" ]})
                ∅) as H.
  destruct H as (Hres & _ & _ & Hcalls).
  - reflexivity.
  - reflexivity.
  - reflexivity.
  - split; [exact Hres|exact Hcalls].
Defined.

(** X7: when the first status answer is accepted but has no "QueryStatus",
    polling treats it as not RUNNING and stops after the warm-up, and
    [run] then raises [KeyError('QueryStatus')]: one status GET, one sleep
    of 20. *)
Theorem X7_missing_query_status
    (self : PlaygroundQueryExecutor) (n : nat) (query_id : pyval)
    (d : gmap string pyval) :
  submitted self n query_id ->
  snapshot_of (status_answer self query_id (S n)) = Some d ->
  d !! "QueryStatus" = None ->
  res (run self n) = Raise (mk_exn KeyError (PStr "QueryStatus")) /\
  count_gets (events (run self n)) = 1%nat /\
  sleeps (events (run self n)) = [20].
Proof.
  intros Hsub Hsnap Hst.
  assert (Hstop : is_running d = false).
  { unfold is_running, status_of. now rewrite Hst. }
  pose proof (PollFacts.poll_stops_at_warm_up _ _ _ _ Hsnap Hstop) as Hpoll.
  destruct (Run.run_after_poll _ _ _ _ _ _ Hsub Hpoll) as (payload & _ & ->).
  destruct (ApiCall.snapshot_accepted _ _ Hsnap) as [_ Hdata].
  rewrite (Run.run_classify_missing _ _ _ Hdata Hst).
  repeat split.
Qed.

Lemma X7_missing_query_status_witness :
  res (run (executor (scripted_api handle_answer (fun _ => ok_json ∅))
              sample_sql 5 60) 0%nat)
  = Raise (mk_exn KeyError (PStr "QueryStatus")).
Proof.
  pose proof (X7_missing_query_status
                (executor (scripted_api handle_answer (fun _ => ok_json ∅))
                   sample_sql 5 60) 0%nat (PStr "q-1") ∅) as H.
  destruct H as (Hres & _).
  - eexists _, {[ "QueryId" := PStr "q-1" ]}.
    split; [reflexivity|]. split; reflexivity.
  - reflexivity.
  - reflexivity.
  - exact Hres.
Defined.

(** X8: when the retry budget is below the loop counter (for [run]:
    [retry <= 0]) the loop is never entered: after an accepted warm-up
    poll, whatever its status, [poll_query_status] sleeps 20, logs
    "Max retries reached" and returns that first snapshot. *)
Theorem X8_no_retry_budget
    (self : PlaygroundQueryExecutor) (query_id : pyval) (r : Z) (n : nat)
    (d : gmap string pyval) :
  retry self < r ->
  snapshot_of (status_answer self query_id n) = Some d ->
  poll_query_status self query_id r n =
    mk_outcome (Ok (answer_resp (status_answer self query_id n))) (S n)
      (poll_prefix self query_id ++ [EvLog WARNING "Max retries reached"]).
Proof.
  intros Hr Hsnap.
  rewrite (PollStatus.poll_query_status_snapshot _ _ _ _ _ Hsnap).
  rewrite Polling.poll_loop_exit.
  - reflexivity.
  - apply andb_false_iff. right. apply Z.leb_gt. lia.
Qed.

Lemma X8_no_retry_budget_witness :
  poll_query_status (executor running_api sample_sql 0 15) (PStr "q-1") 1 1%nat =
    mk_outcome (Ok (answer_resp (status_json "RUNNING"))) 2%nat
      (poll_prefix (executor running_api sample_sql 0 15) (PStr "q-1")
       ++ [EvLog WARNING "Max retries reached"]).
Proof.
  apply (X8_no_retry_budget (executor running_api sample_sql 0 15) (PStr "q-1")
           1 1%nat {[ "QueryStatus" := PStr "RUNNING" ]}).
  - cbn. lia.
  - reflexivity.
Defined.

(** X9: with a negative retry delay, a query that is still RUNNING at the
    first retry makes [poll_query_status] raise the [ValueError] of
    [time.sleep] after two status GETs, instead of polling on. *)
Theorem X9_negative_delay
    (self : PlaygroundQueryExecutor) (query_id : pyval) (n : nat) :
  delay self < 0 ->
  1 <= retry self ->
  running_answer (status_answer self query_id n) ->
  running_answer (status_answer self query_id (S n)) ->
  res (poll_query_status self query_id 1 n)
  = Raise (mk_exn ValueError (PStr "sleep length must be non-negative")) /\
  count_gets (events (poll_query_status self query_id 1 n)) = 2%nat /\
  sleeps (events (poll_query_status self query_id 1 n)) = [20].
Proof.
  intros Hd Hr (d0 & Hsnap0 & Hrun0) (d1 & Hsnap1 & Hrun1).
  rewrite (PollStatus.poll_query_status_snapshot _ _ _ _ _ Hsnap0).
  rewrite (ApiCall.running_status _ Hrun0).
  replace (Z.to_nat (retry self - 1 + 1)) with (S (Z.to_nat (retry self) - 1))
    by lia.
  rewrite Polling.poll_loop_enter by lia.
  unfold status_answer in Hsnap1.
  rewrite (ApiCall.bind_safe_snapshot _ _ _ _ _ Hsnap1).
  destruct (ApiCall.snapshot_accepted _ _ Hsnap1) as [_ Hdata].
  rewrite Hdata, ApiCall.get_status, (ApiCall.running_status _ Hrun1),
    Steps.bind_lift_ok.
  cbn [py_eq String.eqb Ascii.eqb Bool.eqb negb].
  rewrite Steps.bind_log, Steps.bind_sleep_negative by assumption.
  repeat split.
Qed.

Lemma X9_negative_delay_witness :
  res (poll_query_status (executor running_api sample_sql 3 (-1)) (PStr "q-1") 1 1%nat)
  = Raise (mk_exn ValueError (PStr "sleep length must be non-negative")).
Proof.
  pose proof (X9_negative_delay (executor running_api sample_sql 3 (-1))
                (PStr "q-1") 1%nat) as H.
  destruct H as (Hres & _).
  - cbn. lia.
  - cbn. lia.
  - exists {[ "QueryStatus" := PStr "RUNNING" ]}. split; reflexivity.
  - exists {[ "QueryStatus" := PStr "RUNNING" ]}. split; reflexivity.
  - exact Hres.
Defined.

(* ===================================================================== *)
(** * fetch_query_results: download and parsing                            *)
(* ===================================================================== *)

Module FetchFacts.

Import Steps ApiCall Run Classify Discipline.

Lemma no_downloads_bind {A B} (m : M A) (f : A -> M B) :
  (forall n, downloads (events (m n)) = []) ->
  (forall a n, downloads (events (f a n)) = []) ->
  forall n, downloads (events (bind m f n)) = [].
Proof.
  intros Hm Hf n. rewrite events_bind_eq, downloads_app, Hm.
  destruct (res (m n)); [apply Hf|reflexivity|reflexivity].
Qed.

Lemma downloads_cons_log lvl fmt evs :
  downloads (EvLog lvl fmt :: evs) = downloads evs.
Proof. reflexivity. Qed.

Lemma no_downloads_quiet {A} (m : M A) :
  quiet m -> forall n, downloads (events (m n)) = [].
Proof. intros H n. apply H. Qed.

Lemma no_downloads_safe_api_call self req n :
  downloads (events (_safe_api_call self req n)) = [].
Proof. rewrite safe_api_call_eq. reflexivity. Qed.

Lemma no_downloads_sleep t n : downloads (events (time_sleep t n)) = [].
Proof. unfold time_sleep. destruct (t <? 0); reflexivity. Qed.

Ltac nodl_using tac :=
  repeat first
    [ lazymatch goal with
      | |- downloads (events (bind _ _ _)) = [] =>
          apply no_downloads_bind; [intros ?|intros ? ?]
      | |- downloads (events (_safe_api_call _ _ _)) = [] =>
          apply no_downloads_safe_api_call
      | |- downloads (events (time_sleep _ _)) = [] => apply no_downloads_sleep
      | |- downloads (events (ret _ _)) = [] => reflexivity
      | |- downloads (events (lift _ _)) = [] => reflexivity
      | |- downloads (events (raise _ _)) = [] => reflexivity
      | |- downloads (events (log _ _ _)) = [] => reflexivity
      | |- downloads (events (print _ _)) = [] => reflexivity
      | |- downloads (events (build_query_payload _ _)) = [] =>
          apply no_downloads_quiet, quiet_build_query_payload
      | |- downloads (events ((if ?b then _ else _) _)) = [] => destruct b
      end
    | tac ].

Lemma no_downloads_poll_loop self req fuel :
  forall response status r n,
    downloads (events (poll_loop fuel self req response status r n)) = [].
Proof.
  induction fuel as [|fuel IH]; intros response status r n; cbn [poll_loop];
    nodl_using ltac:(fail); apply IH.
Qed.

Lemma no_downloads_poll_query_status self query_id r n :
  downloads (events (poll_query_status self query_id r n)) = [].
Proof.
  unfold poll_query_status. nodl_using ltac:(apply no_downloads_poll_loop).
Qed.

(** [run] downloads nothing. *)
Lemma no_downloads_run self n : downloads (events (run self n)) = [].
Proof.
  unfold run, submit_query.
  nodl_using ltac:(apply no_downloads_poll_query_status).
Qed.

Section Fetch.

Context {DataFrame : Type}.
Variable requests_get_text : pyval -> result string.
Variable pd_read_csv : string -> result DataFrame.

(** What [fetch_query_results] does after a run that SUCCEEDED. *)
Lemma fetch_run_succeeded self n snap d :
  res (run self n) = Ok snap ->
  data snap = Some (JDict d) ->
  d !! "QueryStatus" = Some (PStr "SUCCEEDED") ->
  fetch_query_results DataFrame requests_get_text pd_read_csv self n =
    prepend
      (EvLog INFO "In PlaygroundQueryExecutor.fetch_query_results, Fetching results for query on endpoint: %s, target: %s"
       :: events (run self n))
      ((let* download_link :=
          lift (py_getitem (Some (JDict d)) "ResultsDownloadLink") in
        emit (EvDownload download_link) >>
        let* text := lift (requests_get_text download_link) in
        let* pd_df := lift (pd_read_csv text) in
        ret (Some pd_df)) (calls (run self n))).
Proof.
  intros H Hdata Hst. unfold fetch_query_results. rewrite bind_log.
  pose proof (outcome_eta (run self n)) as Heta. rewrite H in Heta.
  rewrite (bind_ok _ _ _ _ _ _ Heta).
  rewrite Hdata. cbn [py_getitem]. rewrite Hst, bind_lift_ok.
  cbn [py_eq String.eqb Ascii.eqb Bool.eqb].
  rewrite prepend_prepend. reflexivity.
Qed.

Lemma fetch_run_failed self n :
  (forall snap, res (run self n) <> Ok snap) ->
  fetch_query_results DataFrame requests_get_text pd_read_csv self n =
    mk_outcome
      (match res (run self n) with
       | Ok _ => OutOfFuel
       | Raise e => Raise e
       | OutOfFuel => OutOfFuel
       end)
      (calls (run self n))
      (EvLog INFO "In PlaygroundQueryExecutor.fetch_query_results, Fetching results for query on endpoint: %s, target: %s"
       :: events (run self n)).
Proof.
  intros H. unfold fetch_query_results. rewrite bind_log.
  unfold bind. destruct (run self n) as [[snap|e|] n' evs]; cbn [res calls events].
  - exfalso. now apply (H snap).
  - reflexivity.
  - reflexivity.
Qed.

Lemma terminates_fetch self :
  (forall link, requests_get_text link <> OutOfFuel) ->
  (forall text, pd_read_csv text <> OutOfFuel) ->
  terminates (fetch_query_results DataFrame requests_get_text pd_read_csv self).
Proof.
  intros Hget Hcsv. unfold fetch_query_results, log, print.
  apply terminates_bind; [apply terminates_emit|intros _].
  apply terminates_bind; [apply terminates_run|intros query_response].
  apply terminates_bind; [apply terminates_lift, py_getitem_ends|intros status].
  destruct (py_eq status "SUCCEEDED").
  - apply terminates_bind; [apply terminates_lift, py_getitem_ends|intros link].
    apply terminates_bind; [apply terminates_emit|intros _].
    apply terminates_bind; [apply terminates_lift, Hget|intros text].
    apply terminates_bind; [apply terminates_lift, Hcsv|intros df].
    apply terminates_ret.
  - ends.
Qed.

End Fetch.

End FetchFacts.

(** X10: if the download and the CSV parser return or raise, so does
    [fetch_query_results], and what it returns is always a table: it
    never returns [None]. *)
Theorem X10_fetch_returns_table_or_raises
    (DataFrame : Type) (requests_get_text : pyval -> result string)
    (pd_read_csv : string -> result DataFrame)
    (self : PlaygroundQueryExecutor) (n : nat) :
  (forall link, requests_get_text link <> OutOfFuel) ->
  (forall text, pd_read_csv text <> OutOfFuel) ->
  (exists pd_df,
     res (fetch_query_results DataFrame requests_get_text pd_read_csv self n)
     = Ok (Some pd_df)) \/
  (exists e,
     res (fetch_query_results DataFrame requests_get_text pd_read_csv self n)
     = Raise e).
Proof.
  intros Hget Hcsv.
  pose proof (FetchFacts.terminates_fetch requests_get_text pd_read_csv self
                Hget Hcsv n) as Hends.
  pose proof (Classify.fetch_never_returns_none requests_get_text pd_read_csv
                self n) as Hnone.
  destruct (res (fetch_query_results DataFrame requests_get_text pd_read_csv self n))
    as [[pd_df|]|e|]; [eauto|contradiction|eauto|contradiction].
Qed.

Lemma X10_fetch_returns_table_or_raises_witness :
  (exists pd_df,
     res (fetch_query_results string echo_get_text text_read_csv
            (executor cancelled_api sample_sql 5 60) 0%nat)
     = Ok (Some pd_df)) \/
  (exists e,
     res (fetch_query_results string echo_get_text text_read_csv
            (executor cancelled_api sample_sql 5 60) 0%nat)
     = Raise e).
Proof.
  apply (X10_fetch_returns_table_or_raises string echo_get_text text_read_csv
           (executor cancelled_api sample_sql 5 60) 0%nat).
  - intros link. discriminate.
  - intros text. discriminate.
Defined.

(** X11: [fetch_query_results] downloads at most once, and only the
    "ResultsDownloadLink" of a snapshot that [run] returned with status
    SUCCEEDED; in every other case nothing is downloaded. *)
Theorem X11_download_only_after_success
    (DataFrame : Type) (requests_get_text : pyval -> result string)
    (pd_read_csv : string -> result DataFrame)
    (self : PlaygroundQueryExecutor) (n : nat) :
  downloads (events (fetch_query_results DataFrame requests_get_text pd_read_csv self n))
  = [] \/
  exists snap d link,
    res (run self n) = Ok snap /\
    data snap = Some (JDict d) /\
    d !! "QueryStatus" = Some (PStr "SUCCEEDED") /\
    d !! "ResultsDownloadLink" = Some link /\
    downloads (events (fetch_query_results DataFrame requests_get_text pd_read_csv self n))
    = [link].
Proof.
  destruct (res (run self n)) as [snap|e|] eqn:Hrun.
  2,3: left; rewrite FetchFacts.fetch_run_failed by (rewrite Hrun; discriminate);
       cbn [events]; rewrite FetchFacts.downloads_cons_log;
       apply FetchFacts.no_downloads_run.
  destruct (Classify.run_returns _ _ _ Hrun) as (d & Hdata & [Hst|Hst]).
  - rewrite (FetchFacts.fetch_run_succeeded _ _ _ _ _ _ Hrun Hdata Hst).
    rewrite Steps.events_prepend. cbn [app].
    rewrite FetchFacts.downloads_cons_log, Discipline.downloads_app,
      FetchFacts.no_downloads_run.
    cbn [py_getitem app].
    destruct (d !! "ResultsDownloadLink") as [link|] eqn:Hlink.
    + right. exists snap, d, link.
      split; [reflexivity|]. do 3 (split; [assumption|]).
      rewrite Steps.bind_lift_ok, Steps.bind_emit, Steps.events_prepend.
      destruct (requests_get_text link) as [text| |];
        [|reflexivity|reflexivity].
      rewrite Steps.bind_lift_ok.
      destruct (pd_read_csv text); reflexivity.
    + left. reflexivity.
  - left. rewrite (Classify.fetch_run_running _ _ _ _ _ d Hrun Hdata Hst).
    cbn [events].
    rewrite FetchFacts.downloads_cons_log, Discipline.downloads_app,
      FetchFacts.no_downloads_run. reflexivity.
Qed.

(** X12: after a run that returned a SUCCEEDED snapshot with a download
    link, [fetch_query_results] downloads that link once and returns the
    table the CSV parser makes of the downloaded text. *)
Theorem X12_fetch_success
    (DataFrame : Type) (requests_get_text : pyval -> result string)
    (pd_read_csv : string -> result DataFrame)
    (self : PlaygroundQueryExecutor) (n : nat) (snap : json_resp)
    (d : gmap string pyval) (link : pyval) (text : string) (pd_df : DataFrame) :
  res (run self n) = Ok snap ->
  data snap = Some (JDict d) ->
  d !! "QueryStatus" = Some (PStr "SUCCEEDED") ->
  d !! "ResultsDownloadLink" = Some link ->
  requests_get_text link = Ok text ->
  pd_read_csv text = Ok pd_df ->
  fetch_query_results DataFrame requests_get_text pd_read_csv self n =
    mk_outcome (Ok (Some pd_df)) (calls (run self n))
      (EvLog INFO "In PlaygroundQueryExecutor.fetch_query_results, Fetching results for query on endpoint: %s, target: %s"
       :: events (run self n) ++ [EvDownload link]).
Proof.
  intros Hrun Hdata Hst Hlink Hget Hcsv.
  rewrite (FetchFacts.fetch_run_succeeded _ _ _ _ _ _ Hrun Hdata Hst).
  cbn [py_getitem]. rewrite Hlink, Steps.bind_lift_ok, Steps.bind_emit.
  rewrite Hget, Steps.bind_lift_ok, Hcsv, Steps.bind_lift_ok.
  reflexivity.
Qed.

Lemma X12_fetch_success_witness :
  res (fetch_query_results string echo_get_text text_read_csv
         (executor
            (scripted_api handle_answer
               (fun _ => ok_json {[ "QueryStatus" := PStr "SUCCEEDED";
                                    "ResultsDownloadLink" := PStr "https://dl/1" ]}))
            sample_sql 5 60) 0%nat)
  = Ok (Some "https://dl/1").
Proof.
  rewrite (X12_fetch_success string echo_get_text text_read_csv
             (executor
                (scripted_api handle_answer
                   (fun _ => ok_json {[ "QueryStatus" := PStr "SUCCEEDED";
                                        "ResultsDownloadLink" := PStr "https://dl/1" ]}))
                sample_sql 5 60) 0%nat
             (answer_resp
                (ok_json {[ "QueryStatus" := PStr "SUCCEEDED";
                            "ResultsDownloadLink" := PStr "https://dl/1" ]}))
             {[ "QueryStatus" := PStr "SUCCEEDED";
                "ResultsDownloadLink" := PStr "https://dl/1" ]}
             (PStr "https://dl/1") "https://dl/1" "https://dl/1").
  - reflexivity.
  - vm_compute. reflexivity.
  - reflexivity.
  - reflexivity.
  - reflexivity.
  - reflexivity.
  - reflexivity.
Defined.

(** X13: a SUCCEEDED snapshot without "ResultsDownloadLink" makes
    [fetch_query_results] raise [KeyError('ResultsDownloadLink')] and
    download nothing. *)
Theorem X13_missing_download_link
    (DataFrame : Type) (requests_get_text : pyval -> result string)
    (pd_read_csv : string -> result DataFrame)
    (self : PlaygroundQueryExecutor) (n : nat) (snap : json_resp)
    (d : gmap string pyval) :
  res (run self n) = Ok snap ->
  data snap = Some (JDict d) ->
  d !! "QueryStatus" = Some (PStr "SUCCEEDED") ->
  d !! "ResultsDownloadLink" = None ->
  res (fetch_query_results DataFrame requests_get_text pd_read_csv self n)
  = Raise (mk_exn KeyError (PStr "ResultsDownloadLink")) /\
  downloads (events (fetch_query_results DataFrame requests_get_text pd_read_csv self n))
  = [].
Proof.
  intros Hrun Hdata Hst Hlink.
  rewrite (FetchFacts.fetch_run_succeeded _ _ _ _ _ _ Hrun Hdata Hst).
  cbn [py_getitem]. rewrite Hlink, Steps.bind_lift_raise.
  split; [reflexivity|].
  rewrite Steps.events_prepend. cbn [events app]. rewrite app_nil_r.
  rewrite FetchFacts.downloads_cons_log. apply FetchFacts.no_downloads_run.
Qed.

Lemma X13_missing_download_link_witness :
  res (fetch_query_results string echo_get_text text_read_csv
         (executor (succeeds_at_api 0) sample_sql 5 60) 0%nat)
  = Raise (mk_exn KeyError (PStr "ResultsDownloadLink")).
Proof.
  destruct (X13_missing_download_link string echo_get_text text_read_csv
              (executor (succeeds_at_api 0) sample_sql 5 60) 0%nat
              (answer_resp (status_json "SUCCEEDED"))
              {[ "QueryStatus" := PStr "SUCCEEDED" ]}) as [H _].
  - vm_compute. reflexivity.
  - reflexivity.
  - reflexivity.
  - reflexivity.
  - exact H.
Defined.

(** X14: an exception of the download, or of the CSV parser on the
    downloaded text, is raised by [fetch_query_results] unchanged, after a
    single download: nothing is retried and no further API call is made. *)
Theorem X14_download_failure_is_fatal
    (DataFrame : Type) (requests_get_text : pyval -> result string)
    (pd_read_csv : string -> result DataFrame)
    (self : PlaygroundQueryExecutor) (n : nat) (snap : json_resp)
    (d : gmap string pyval) (link : pyval) (e : exn) :
  res (run self n) = Ok snap ->
  data snap = Some (JDict d) ->
  d !! "QueryStatus" = Some (PStr "SUCCEEDED") ->
  d !! "ResultsDownloadLink" = Some link ->
  requests_get_text link = Raise e \/
  (exists text, requests_get_text link = Ok text /\ pd_read_csv text = Raise e) ->
  fetch_query_results DataFrame requests_get_text pd_read_csv self n =
    mk_outcome (Raise e) (calls (run self n))
      (EvLog INFO "In PlaygroundQueryExecutor.fetch_query_results, Fetching results for query on endpoint: %s, target: %s"
       :: events (run self n) ++ [EvDownload link]).
Proof.
  intros Hrun Hdata Hst Hlink Hfail.
  rewrite (FetchFacts.fetch_run_succeeded _ _ _ _ _ _ Hrun Hdata Hst).
  cbn [py_getitem]. rewrite Hlink, Steps.bind_lift_ok, Steps.bind_emit.
  destruct Hfail as [Hget|(text & Hget & Hcsv)].
  - rewrite Hget, Steps.bind_lift_raise. reflexivity.
  - rewrite Hget, Steps.bind_lift_ok, Hcsv, Steps.bind_lift_raise. reflexivity.
Qed.

Lemma X14_download_failure_is_fatal_witness :
  res (fetch_query_results string
         (fun _ => Raise (mk_exn RequestException (PStr "connection refused")))
         text_read_csv
         (executor
            (scripted_api handle_answer
               (fun _ => ok_json {[ "QueryStatus" := PStr "SUCCEEDED";
                                    "ResultsDownloadLink" := PStr "https://dl/1" ]}))
            sample_sql 5 60) 0%nat)
  = Raise (mk_exn RequestException (PStr "connection refused")).
Proof.
  rewrite (X14_download_failure_is_fatal string
             (fun _ => Raise (mk_exn RequestException (PStr "connection refused")))
             text_read_csv
             (executor
                (scripted_api handle_answer
                   (fun _ => ok_json {[ "QueryStatus" := PStr "SUCCEEDED";
                                        "ResultsDownloadLink" := PStr "https://dl/1" ]}))
                sample_sql 5 60) 0%nat
             (answer_resp
                (ok_json {[ "QueryStatus" := PStr "SUCCEEDED";
                            "ResultsDownloadLink" := PStr "https://dl/1" ]}))
             {[ "QueryStatus" := PStr "SUCCEEDED";
                "ResultsDownloadLink" := PStr "https://dl/1" ]}
             (PStr "https://dl/1")
             (mk_exn RequestException (PStr "connection refused"))).
  - reflexivity.
  - vm_compute. reflexivity.
  - reflexivity.
  - reflexivity.
  - reflexivity.
  - left. reflexivity.
Defined.

(* ===================================================================== *)
(** * _safe_api_call: which answers are accepted                           *)
(* ===================================================================== *)

(** X15: [_safe_api_call] makes exactly one request, and it returns
    (rather than raises) exactly when the answer has no [status_code]
    attribute at all, or its body parses as JSON and its status code is
    200, or 0, the value at which the exit code copied from the status
    code coincides with success. *)
Theorem X15_safe_api_call_accepts
    (self : PlaygroundQueryExecutor) (req : request) (n : nat) :
  calls (_safe_api_call self req n) = S n /\
  events (_safe_api_call self req n) = [EvRequest req] /\
  ((exists jr, res (_safe_api_call self req n) = Ok jr) <->
   match make_request (api self) n req with
   | Response c _ (inr _) => c = 200 \/ c = 0
   | Response _ _ (inl _) => False
   | NoStatusCode _ => True
   end).
Proof.
  rewrite ApiCall.safe_api_call_eq. cbn [res calls events].
  split; [reflexivity|]. split; [reflexivity|].
  destruct (make_request (api self) n req) as [c reason [ex|j]|obj].
  - rewrite ApiCall.exitcode_response. cbn. split; [intros (jr & H)|intros []].
    discriminate H.
  - rewrite ApiCall.exitcode_response.
    destruct (Z.eqb_spec c 200) as [->|Hc].
    + cbn. split; [auto|eauto].
    + destruct (Z.eqb_spec c 0) as [->|Hc0].
      * split; [auto|eauto].
      * split; [intros (jr & H); discriminate H|intros [H|H]; contradiction].
  - cbn. split; [auto|eauto].
Qed.

(** X16: the exception of a rejected HTTP answer is an [Exception] whose
    message is "API call failed: Failed with error <reason>" when the
    body parses, and "API call failed: Failed to parse response: <error>"
    when it does not; in the second case the status code and the reason
    are not in the message. *)
Theorem X16_api_failure_message
    (self : PlaygroundQueryExecutor) (req : request) (n : nat)
    (c : Z) (reason : string) (body : exn + json) :
  make_request (api self) n req = Response c reason body ->
  (c <> 200 /\ c <> 0) \/ (exists ex, body = inl ex) ->
  res (_safe_api_call self req n)
  = Raise (mk_exn Exception_
             (PStr ("API call failed: "
                    +:+ match body with
                        | inl ex => "Failed to parse response: " +:+ exn_str ex
                        | inr _ => "Failed with error " +:+ reason
                        end))).
Proof.
  intros Hanswer Hbad.
  rewrite ApiCall.safe_api_call_eq, Hanswer. cbn [res].
  rewrite ApiCall.exitcode_response.
  unfold api_call_failed, answer_resp, _custom_json_response.
  destruct body as [ex|j].
  - destruct (c =? 200); reflexivity.
  - destruct Hbad as [[Hc Hc0]|(ex & Hex)]; [|discriminate Hex].
    destruct (Z.eqb_spec c 200) as [|_]; [contradiction|].
    destruct (Z.eqb_spec c 0) as [|_]; [contradiction|].
    reflexivity.
Qed.

Lemma X16_api_failure_message_witness :
  res (_safe_api_call (executor created_api sample_sql 5 60)
         (submit_request (executor created_api sample_sql 5 60) (json_dumps ∅)) 0%nat)
  = Raise (mk_exn Exception_ (PStr "API call failed: Failed with error Created")).
Proof.
  apply (X16_api_failure_message (executor created_api sample_sql 5 60)
           (submit_request (executor created_api sample_sql 5 60) (json_dumps ∅))
           0%nat 201 "Created" (inr (JDict {[ "QueryId" := PStr "q-1" ]}))).
  - reflexivity.
  - left. split; lia.
Defined.

(* ===================================================================== *)
(** * The payload: values and injectivity                                  *)
(* ===================================================================== *)

Module PayloadFacts.

Lemma payload_values (self : PlaygroundQueryExecutor) (n : nat) :
  is_ascii (query self) = true ->
  exists payload,
    res (build_query_payload self n) = Ok payload /\
    calls (build_query_payload self n) = n /\
    requests (events (build_query_payload self n)) = [] /\
    json_loads payload !! "QueryString" = Some (encoded (query self)) /\
    json_loads payload !! "Encoding" = Some "base64" /\
    (query_target_location self = "athena" ->
       json_loads payload !! "WorkGroup" = Some (work_group self) /\
       json_loads payload !! "AssumeRole" = Some (assume_role self)) /\
    (query_target_location self <> "athena" ->
       json_loads payload !! "QueryTargetLocation"
       = Some (query_target_location self)).
Proof.
  intros Hq. rewrite Payload.build_ascii by assumption. cbn [res calls events].
  destruct (String.eqb_spec (query_target_location self) "athena") as [Heq|Hne];
    eexists; (split; [reflexivity|]); (split; [reflexivity|]);
    (split; [reflexivity|]); cbn [json_loads];
    (split; [apply lookup_insert_eq|]);
    (split; [rewrite lookup_insert_ne by discriminate; apply lookup_insert_eq|]).
  - split; [intros _|intros H; contradiction].
    split.
    + rewrite !lookup_insert_ne by discriminate. apply lookup_insert_eq.
    + rewrite !lookup_insert_ne by discriminate. apply lookup_singleton_eq.
  - split; [intros H; contradiction|intros _].
    rewrite !lookup_insert_ne by discriminate. apply lookup_singleton_eq.
Qed.

End PayloadFacts.

(** X17: for an ASCII SQL text the payload holds the base64 text of the
    query under "QueryString" and the marker "base64" under "Encoding";
    for the target "athena" it holds the executor's work group and
    assume-role flag, for any other target that target.  Building it makes
    no API call. *)
Theorem X17_payload_values (self : PlaygroundQueryExecutor) (n : nat) :
  is_ascii (query self) = true ->
  exists payload,
    res (build_query_payload self n) = Ok payload /\
    calls (build_query_payload self n) = n /\
    requests (events (build_query_payload self n)) = [] /\
    json_loads payload !! "QueryString" = Some (encoded (query self)) /\
    json_loads payload !! "Encoding" = Some "base64" /\
    (query_target_location self = "athena" ->
       json_loads payload !! "WorkGroup" = Some (work_group self) /\
       json_loads payload !! "AssumeRole" = Some (assume_role self)) /\
    (query_target_location self <> "athena" ->
       json_loads payload !! "QueryTargetLocation"
       = Some (query_target_location self)).
Proof. apply PayloadFacts.payload_values. Qed.

Lemma X17_payload_values_witness :
  exists payload,
    res (build_query_payload (executor running_api sample_sql 5 60) 0%nat) = Ok payload /\
    json_loads payload !! "QueryString" = Some "U0VMRUNUIDE=" /\
    json_loads payload !! "WorkGroup" = Some "primary".
Proof.
  destruct (X17_payload_values (executor running_api sample_sql 5 60) 0%nat)
    as (payload & Hres & _ & _ & Hqs & _ & Hathena & _).
  - reflexivity.
  - exists payload. split; [exact Hres|]. split; [exact Hqs|].
    apply Hathena. reflexivity.
Defined.

(** X18: the encoded query determines the query: two executors with ASCII
    SQL texts whose payloads carry the same "QueryString" have the same
    SQL text. *)
Theorem X18_query_string_injective
    (self1 self2 : PlaygroundQueryExecutor) (n1 n2 : nat)
    (payload1 payload2 : json_text) :
  is_ascii (query self1) = true ->
  is_ascii (query self2) = true ->
  res (build_query_payload self1 n1) = Ok payload1 ->
  res (build_query_payload self2 n2) = Ok payload2 ->
  json_loads payload1 !! "QueryString" = json_loads payload2 !! "QueryString" ->
  query self1 = query self2.
Proof.
  intros Hq1 Hq2 Hb1 Hb2 Heq.
  destruct (PayloadFacts.payload_values self1 n1 Hq1) as (p1 & Hp1 & _ & _ & Hs1 & _).
  destruct (PayloadFacts.payload_values self2 n2 Hq2) as (p2 & Hp2 & _ & _ & Hs2 & _).
  rewrite Hb1 in Hp1. rewrite Hb2 in Hp2.
  injection Hp1 as <-. injection Hp2 as <-.
  rewrite Hs1, Hs2 in Heq. injection Heq as Heq.
  destruct (Payload.decode_encoded _ Hq1) as (bs1 & Hd1 & Ht1).
  destruct (Payload.decode_encoded _ Hq2) as (bs2 & Hd2 & Ht2).
  rewrite Heq, Hd2 in Hd1. injection Hd1 as <-.
  rewrite Ht2 in Ht1. now injection Ht1.
Qed.

Lemma X18_query_string_injective_witness :
  query (executor running_api sample_sql 5 60)
  = query (executor (failed_api "x") sample_sql 1 1).
Proof.
  eapply (X18_query_string_injective
            (executor running_api sample_sql 5 60)
            (executor (failed_api "x") sample_sql 1 1) 0%nat 3%nat).
  - reflexivity.
  - reflexivity.
  - reflexivity.
  - reflexivity.
  - reflexivity.
Defined.

(* ===================================================================== *)
(** * etl_athena_load_api.py: the executor that main configures            *)
(* ===================================================================== *)

Module JobFacts.

Lemma lookup_resolved_supplied getResolvedOptions sys_argv k v :
  In (k, v) optional_args ->
  in_argv ("--" +:+ k) sys_argv || in_argv k sys_argv = true ->
  resolve_optional_args getResolvedOptions sys_argv !! k
  = Some (PStr (getResolvedOptions sys_argv k)).
Proof.
  intros Hin H. unfold resolve_optional_args.
  cbn [In optional_args] in Hin.
  repeat (destruct Hin as [[= <- <-]|Hin];
          [cbn [map optional_args list_to_map foldr uncurry curry fst snd];
           rewrite ?lookup_insert_ne by discriminate;
           rewrite lookup_insert_eq, H; reflexivity|]).
  contradiction.
Qed.

Lemma optional_arg_work_group : py_str (optional_arg "work_group") = "primary".
Proof. vm_compute. reflexivity. Qed.

Lemma optional_arg_target :
  py_str (optional_arg "query_target_location") = "athena".
Proof. vm_compute. reflexivity. Qed.

Lemma optional_arg_assume_role : py_str (optional_arg "assume_role") = "no".
Proof. vm_compute. reflexivity. Qed.

(** [main_executor] in terms of the two integers it reads. *)
Lemma main_executor_eq getResolvedOptions int_of_str api sys_argv sql :
  main_executor getResolvedOptions int_of_str api sys_argv sql =
    result_bind
      (py_int int_of_str
         (default PNone
            (resolve_optional_args getResolvedOptions sys_argv
             !! "query_status_retry")))
      (fun r =>
         result_bind
           (py_int int_of_str
              (default PNone
                 (resolve_optional_args getResolvedOptions sys_argv
                  !! "query_status_retry_delay")))
           (fun d =>
              Ok {| api := api; query := sql; work_group := "primary";
                    query_target_location := "athena"; assume_role := "no";
                    retry := r; delay := d |})).
Proof.
  unfold main_executor. cbv zeta.
  rewrite optional_arg_work_group, optional_arg_target, optional_arg_assume_role.
  reflexivity.
Qed.

End JobFacts.

(** X19: whatever the job arguments are, the executor that [main] runs has
    the work group "primary", the target "athena" and the assume-role flag
    "no": values given on the command line for these three settings are
    resolved into [args] but not passed on. *)
Theorem X19_main_string_settings_fixed
    (getResolvedOptions : list string -> string -> string)
    (int_of_str : string -> result Z)
    (api : Api) (sys_argv : list string) (sql : string)
    (self : PlaygroundQueryExecutor) :
  main_executor getResolvedOptions int_of_str api sys_argv sql = Ok self ->
  work_group self = "primary" /\
  query_target_location self = "athena" /\
  assume_role self = "no" /\
  query self = sql.
Proof.
  rewrite JobFacts.main_executor_eq.
  destruct (py_int int_of_str _) as [r|e|]; cbn [result_bind]; try discriminate.
  destruct (py_int int_of_str _) as [d|e|]; cbn [result_bind]; try discriminate.
  intros [= <-]. cbn. repeat split.
Qed.

Lemma X19_main_string_settings_fixed_witness :
  main_executor (fun _ _ => "AmazonAthenaEngineV3") (fun _ => Ok 0) running_api
    ["--work_group"; "AmazonAthenaEngineV3"] sample_sql
  = Ok (execute_db_query running_api sample_sql (Some "primary") (Some "athena")
          (Some "no") (Some 20) (Some 15)) /\
  work_group
    (execute_db_query running_api sample_sql (Some "primary") (Some "athena")
       (Some "no") (Some 20) (Some 15))
  = "primary".
Proof.
  assert (H : main_executor (fun _ _ => "AmazonAthenaEngineV3") (fun _ => Ok 0)
                running_api ["--work_group"; "AmazonAthenaEngineV3"] sample_sql
              = Ok (execute_db_query running_api sample_sql (Some "primary")
                      (Some "athena") (Some "no") (Some 20) (Some 15))).
  { vm_compute. reflexivity. }
  split; [exact H|].
  exact (proj1 (X19_main_string_settings_fixed _ _ _ _ _ _ H)).
Defined.

(** X20: retry settings given on the command line are honoured: when both
    job arguments are present and [int] accepts their texts, [main] runs
    the executor with those two integers. *)
Theorem X20_main_retry_arguments
    (getResolvedOptions : list string -> string -> string)
    (int_of_str : string -> result Z)
    (api : Api) (sys_argv : list string) (sql : string) (r d : Z) :
  in_argv "--query_status_retry" sys_argv
  || in_argv "query_status_retry" sys_argv = true ->
  in_argv "--query_status_retry_delay" sys_argv
  || in_argv "query_status_retry_delay" sys_argv = true ->
  int_of_str (getResolvedOptions sys_argv "query_status_retry") = Ok r ->
  int_of_str (getResolvedOptions sys_argv "query_status_retry_delay") = Ok d ->
  exists self,
    main_executor getResolvedOptions int_of_str api sys_argv sql = Ok self /\
    retry self = r /\ delay self = d.
Proof.
  intros H1 H2 Hr Hd.
  assert (E1 : resolve_optional_args getResolvedOptions sys_argv
               !! "query_status_retry"
               = Some (PStr (getResolvedOptions sys_argv "query_status_retry"))).
  { apply (JobFacts.lookup_resolved_supplied _ _ _ (PInt 20));
      [cbn [In optional_args]; tauto|exact H1]. }
  assert (E2 : resolve_optional_args getResolvedOptions sys_argv
               !! "query_status_retry_delay"
               = Some (PStr (getResolvedOptions sys_argv "query_status_retry_delay"))).
  { apply (JobFacts.lookup_resolved_supplied _ _ _ (PInt 15));
      [cbn [In optional_args]; tauto|exact H2]. }
  rewrite JobFacts.main_executor_eq, E1, E2.
  cbn [from_option id py_int]. rewrite Hr, Hd. cbn [result_bind].
  eexists. split; [reflexivity|]. split; reflexivity.
Qed.

Lemma X20_main_retry_arguments_witness :
  exists self,
    main_executor (fun _ k => if String.eqb k "query_status_retry" then "3" else "7")
      (fun s => if String.eqb s "3" then Ok 3 else Ok 7) running_api
      ["--query_status_retry"; "3"; "--query_status_retry_delay"; "7"] sample_sql
    = Ok self /\
    retry self = 3 /\ delay self = 7.
Proof.
  apply (X20_main_retry_arguments
           (fun _ k => if String.eqb k "query_status_retry" then "3" else "7")
           (fun s => if String.eqb s "3" then Ok 3 else Ok 7) running_api
           ["--query_status_retry"; "3"; "--query_status_retry_delay"; "7"]
           sample_sql 3 7).
  - reflexivity.
  - reflexivity.
  - reflexivity.
  - reflexivity.
Defined.



(* ===================================================================== *)
(** * etl_athena_load_api.py: finding the SQL file                         *)
(* ===================================================================== *)

Module SqlFile.

Lemma str_split_nonempty sep s : str_split sep s <> [].
Proof.
  destruct s as [|c rest]; cbn [str_split]; [discriminate|].
  destruct (str_split sep rest); [discriminate|].
  destruct (Ascii.eqb c sep); discriminate.
Qed.

Lemma lacks_cons c x s :
  lacks c (String x s) = true -> Ascii.eqb x c = false /\ lacks c s = true.
Proof.
  cbn [lacks]. intros H. apply andb_true_iff in H as [H1 H2].
  split; [now apply negb_true_iff|exact H2].
Qed.

Lemma append_nil t : EmptyString +:+ t = t.
Proof. reflexivity. Qed.

Lemma append_cons x s t : String x s +:+ t = String x (s +:+ t).
Proof. reflexivity. Qed.

Lemma lacks_app c s t :
  lacks c (s +:+ t) = lacks c s && lacks c t.
Proof.
  induction s as [|x s IH]; [reflexivity|].
  rewrite append_cons. cbn [lacks]. now rewrite IH, andb_assoc.
Qed.

(** A text without the separator is a single piece. *)
Lemma str_split_lacks sep s : lacks sep s = true -> str_split sep s = [s].
Proof.
  induction s as [|x s IH]; [reflexivity|].
  intros H. apply lacks_cons in H as [Hx Hs].
  cbn [str_split]. rewrite (IH Hs), Hx. reflexivity.
Qed.

(** The first piece ends at the first separator. *)
Lemma str_split_first sep u rest :
  lacks sep u = true ->
  str_split sep (u +:+ String sep rest) = u :: str_split sep rest.
Proof.
  induction u as [|x u IH]; intros H.
  - rewrite append_nil. cbn [str_split].
    destruct (str_split sep rest) as [|w ws] eqn:Hsplit.
    + now apply str_split_nonempty in Hsplit.
    + now rewrite Ascii.eqb_refl.
  - apply lacks_cons in H as [Hx Hu].
    rewrite append_cons. cbn [str_split]. rewrite (IH Hu), Hx. reflexivity.
Qed.

(** A text with a separator has at least two pieces. *)
Lemma str_split_sep_length sep dir rest :
  (2 <= length (str_split sep (dir +:+ String sep rest)))%nat.
Proof.
  induction dir as [|x dir IH].
  - rewrite append_nil. cbn [str_split].
    destruct (str_split sep rest) as [|w ws] eqn:Hsplit;
      [now apply str_split_nonempty in Hsplit|].
    rewrite Ascii.eqb_refl. cbn [length]. lia.
  - rewrite append_cons. cbn [str_split].
    destruct (str_split sep (dir +:+ String sep rest)) as [|w ws];
      [cbn [length] in IH; lia|].
    destruct (Ascii.eqb x sep); cbn [length] in *; lia.
Qed.

(** The last piece is what follows the last separator. *)
Lemma str_split_last sep dir base :
  lacks sep base = true ->
  exists pieces, str_split sep (dir +:+ String sep base) = pieces ++ [base].
Proof.
  intros Hbase. induction dir as [|x dir (pieces & IH)].
  - exists [EmptyString].
    rewrite (str_split_first sep EmptyString base eq_refl).
    now rewrite (str_split_lacks _ _ Hbase).
  - pose proof (str_split_sep_length sep dir base) as Hlen.
    rewrite append_cons. cbn [str_split]. rewrite IH in Hlen |- *.
    destruct pieces as [|w ws]; [cbn [app length] in Hlen; lia|].
    cbn [app]. destruct (Ascii.eqb x sep).
    + now exists (EmptyString :: w :: ws).
    + now exists (String x w :: ws).
Qed.

(** Joining the pieces with the separator gives the text back. *)
Lemma str_join_split sep s :
  str_join (String sep EmptyString) (str_split sep s) = s.
Proof.
  induction s as [|x s IH]; [reflexivity|].
  cbn [str_split].
  destruct (str_split sep s) as [|w ws] eqn:Hsplit;
    [now apply str_split_nonempty in Hsplit|].
  destruct (Ascii.eqb_spec x sep) as [->|Hne].
  - change (str_join (String sep EmptyString) (EmptyString :: w :: ws))
      with (EmptyString +:+ String sep EmptyString
            +:+ str_join (String sep EmptyString) (w :: ws)).
    now rewrite IH, append_nil, append_cons, append_nil.
  - destruct ws as [|w' ws].
    + cbn [str_join] in *. now rewrite IH.
    + change (str_join (String sep EmptyString) (String x w :: w' :: ws))
        with (String x w +:+ String sep EmptyString
              +:+ str_join (String sep EmptyString) (w' :: ws)).
      change (str_join (String sep EmptyString) (w :: w' :: ws))
        with (w +:+ String sep EmptyString
              +:+ str_join (String sep EmptyString) (w' :: ws)) in IH.
      now rewrite append_cons, IH.
Qed.

(** The file name of a key that follows the upload pattern. *)
Lemma filename_of_pattern dir userid dataset epoch filename :
  lacks "/" userid = true -> lacks "_" userid = true ->
  lacks "/" dataset = true -> lacks "_" dataset = true ->
  lacks "/" epoch = true -> lacks "_" epoch = true ->
  lacks "/" filename = true ->
  filename_of_key
    (dir +:+ "/" +:+ userid +:+ "_" +:+ dataset +:+ "_" +:+ epoch +:+ "_" +:+ filename)
  = filename.
Proof.
  intros Hu1 Hu2 Hd1 Hd2 He1 He2 Hf. unfold filename_of_key.
  assert (Hbase :
    lacks "/" (userid +:+ "_" +:+ dataset +:+ "_" +:+ epoch +:+ "_" +:+ filename)
    = true).
  { rewrite !lacks_app, Hu1, Hd1, He1, Hf. reflexivity. }
  change ("/" +:+ userid +:+ "_" +:+ dataset +:+ "_" +:+ epoch +:+ "_" +:+ filename)
    with (String "/"
            (userid +:+ "_" +:+ dataset +:+ "_" +:+ epoch +:+ "_" +:+ filename)).
  destruct (str_split_last "/" dir _ Hbase) as (pieces & ->).
  rewrite last_last.
  change ("_" +:+ dataset +:+ "_" +:+ epoch +:+ "_" +:+ filename)
    with (String "_" (dataset +:+ "_" +:+ epoch +:+ "_" +:+ filename)).
  rewrite (str_split_first _ _ _ Hu2).
  change ("_" +:+ epoch +:+ "_" +:+ filename)
    with (String "_" (epoch +:+ "_" +:+ filename)).
  rewrite (str_split_first _ _ _ Hd2).
  change ("_" +:+ filename) with (String "_" filename).
  rewrite (str_split_first _ _ _ He2).
  cbn [skipn]. apply str_join_split.
Qed.

(** A base name of fewer than four pieces has no file name. *)
Lemma filename_of_short key :
  (length (str_split "_" (List.last (str_split "/" key) EmptyString)) <= 3)%nat ->
  filename_of_key key = EmptyString.
Proof.
  intros H. unfold filename_of_key. now rewrite skipn_all2 by exact H.
Qed.

Section Store.

Variable list_bucket_objects : string -> string -> option string -> result (list string).
Variable get_object_text : string -> string -> result string.

(** The loop reads the first key that names the file, and no other. *)
Lemma read_sql_file_loop_find bucket_name sql_file_name keys n :
  read_sql_file_loop get_object_text bucket_name sql_file_name keys n =
    match find (names_file sql_file_name) keys with
    | Some key =>
        mk_outcome
          (match get_object_text bucket_name key with
           | Ok query => Ok (Some query)
           | Raise e => Raise e
           | OutOfFuel => OutOfFuel
           end)
          n [EvLog INFO "Reading the SQL file : %s"]
    | None =>
        mk_outcome (Ok None) n
          [EvLog INFO "File : %s not found. Check the file name."]
    end.
Proof.
  induction keys as [|key keys IH]; [reflexivity|].
  cbn [read_sql_file_loop find]. unfold names_file at 1.
  destruct (String.eqb (filename_of_key key) sql_file_name); [|exact IH].
  rewrite Steps.bind_log.
  destruct (get_object_text bucket_name key); reflexivity.
Qed.

Lemma read_sql_file_find bucket_name prefix sql_file_name region_name keys n :
  list_bucket_objects bucket_name prefix region_name = Ok keys ->
  read_sql_file list_bucket_objects get_object_text bucket_name prefix
    sql_file_name region_name n =
    prepend [EvLog INFO "In read_sql_file, Bucket: %s, Prefix: %s, Filename %s"]
      (read_sql_file_loop get_object_text bucket_name sql_file_name keys n).
Proof.
  intros H. unfold read_sql_file.
  now rewrite Steps.bind_log, H, Steps.bind_lift_ok.
Qed.

End Store.

End SqlFile.

(** X22: for an object key that follows the upload pattern
    <dir>/<USERID>_<DATASET_ID>_<UPLOAD_EPOCH>_<FILENAME>, with no
    underscore or slash inside the three leading fields and no slash in
    the file name, the file name [read_sql_file] compares is exactly
    <FILENAME>, underscores of the file name included. *)
Theorem X22_filename_of_key_pattern
    (dir userid dataset epoch filename : string) :
  lacks "/" userid = true -> lacks "_" userid = true ->
  lacks "/" dataset = true -> lacks "_" dataset = true ->
  lacks "/" epoch = true -> lacks "_" epoch = true ->
  lacks "/" filename = true ->
  filename_of_key
    (dir +:+ "/" +:+ userid +:+ "_" +:+ dataset +:+ "_" +:+ epoch +:+ "_" +:+ filename)
  = filename.
Proof. apply SqlFile.filename_of_pattern. Qed.

Lemma X22_filename_of_key_pattern_witness :
  filename_of_key
    ("sales/orders" +:+ "/" +:+ "u1" +:+ "_" +:+ "ds1" +:+ "_" +:+ "1700000001"
     +:+ "_" +:+ "daily_load.sql")
  = "daily_load.sql".
Proof.
  apply (X22_filename_of_key_pattern "sales/orders" "u1" "ds1" "1700000001"
           "daily_load.sql"); reflexivity.
Defined.

(** X23: [read_sql_file] returns the text of the first listed object
    whose file name is the one asked for, reading no other object; an
    exception of that read is raised unchanged; and when no listed object
    has that file name it returns [None] after logging that the file was
    not found.  It makes no API call. *)
Theorem X23_read_sql_file_first_match
    (list_bucket_objects : string -> string -> option string -> result (list string))
    (get_object_text : string -> string -> result string)
    (bucket_name prefix sql_file_name : string) (region_name : option string)
    (keys : list string) (n : nat) :
  list_bucket_objects bucket_name prefix region_name = Ok keys ->
  calls (read_sql_file list_bucket_objects get_object_text bucket_name prefix
           sql_file_name region_name n) = n /\
  match find (names_file sql_file_name) keys with
  | Some key =>
      res (read_sql_file list_bucket_objects get_object_text bucket_name prefix
             sql_file_name region_name n)
      = match get_object_text bucket_name key with
        | Ok query => Ok (Some query)
        | Raise e => Raise e
        | OutOfFuel => OutOfFuel
        end
  | None =>
      res (read_sql_file list_bucket_objects get_object_text bucket_name prefix
             sql_file_name region_name n) = Ok None /\
      last (events (read_sql_file list_bucket_objects get_object_text bucket_name
                      prefix sql_file_name region_name n))
      = Some (EvLog INFO "File : %s not found. Check the file name.")
  end.
Proof.
  intros H.
  rewrite (SqlFile.read_sql_file_find _ _ _ _ _ _ _ _ H).
  rewrite SqlFile.read_sql_file_loop_find.
  destruct (find (names_file sql_file_name) keys) as [key|].
  - split; reflexivity.
  - split; [reflexivity|]. split; reflexivity.
Qed.

Lemma X23_read_sql_file_first_match_witness :
  res (read_sql_file sample_listing sample_object_text "dlz" "sales/orders/"
         "daily_load.sql" None 0%nat)
  = Ok (Some "-- sales/orders/u1_ds1_1700000001_daily_load.sql").
Proof.
  pose proof (X23_read_sql_file_first_match sample_listing sample_object_text
                "dlz" "sales/orders/" "daily_load.sql" None sample_keys 0%nat
                eq_refl) as [_ H].
  exact H.
Defined.

(** X24: a listed object that follows the upload pattern is found by its
    file name when no object listed before it has that file name: the
    text [read_sql_file] returns is the text of that object. *)
Theorem X24_read_sql_file_finds_pattern
    (list_bucket_objects : string -> string -> option string -> result (list string))
    (get_object_text : string -> string -> result string)
    (bucket_name prefix : string) (region_name : option string)
    (before after : list string)
    (dir userid dataset epoch filename : string) (query : string) (n : nat) :
  lacks "/" userid = true -> lacks "_" userid = true ->
  lacks "/" dataset = true -> lacks "_" dataset = true ->
  lacks "/" epoch = true -> lacks "_" epoch = true ->
  lacks "/" filename = true ->
  forallb (fun key => negb (names_file filename key)) before = true ->
  list_bucket_objects bucket_name prefix region_name
  = Ok (before
        ++ (dir +:+ "/" +:+ userid +:+ "_" +:+ dataset +:+ "_" +:+ epoch
            +:+ "_" +:+ filename)
        :: after) ->
  get_object_text bucket_name
    (dir +:+ "/" +:+ userid +:+ "_" +:+ dataset +:+ "_" +:+ epoch +:+ "_" +:+ filename)
  = Ok query ->
  res (read_sql_file list_bucket_objects get_object_text bucket_name prefix
         filename region_name n)
  = Ok (Some query).
Proof.
  intros Hu1 Hu2 Hd1 Hd2 He1 He2 Hf Hbefore Hlist Hget.
  rewrite (SqlFile.read_sql_file_find _ _ _ _ _ _ _ _ Hlist).
  rewrite SqlFile.read_sql_file_loop_find.
  assert (Hfind :
    find (names_file filename)
      (before
       ++ (dir +:+ "/" +:+ userid +:+ "_" +:+ dataset +:+ "_" +:+ epoch
           +:+ "_" +:+ filename)
       :: after)
    = Some (dir +:+ "/" +:+ userid +:+ "_" +:+ dataset +:+ "_" +:+ epoch
            +:+ "_" +:+ filename)).
  { clear Hlist Hget. induction before as [|key before IH].
    - cbn [app find]. unfold names_file at 1.
      rewrite (SqlFile.filename_of_pattern _ _ _ _ _ Hu1 Hu2 Hd1 Hd2 He1 He2 Hf).
      now rewrite String.eqb_refl.
    - cbn [forallb] in Hbefore. apply andb_true_iff in Hbefore as [Hkey Hrest].
      apply negb_true_iff in Hkey.
      cbn [app find]. rewrite Hkey. exact (IH Hrest). }
  rewrite Hfind. unfold prepend. cbn [res]. now rewrite Hget.
Qed.

Lemma X24_read_sql_file_finds_pattern_witness :
  res (read_sql_file sample_listing sample_object_text "dlz" "sales/orders/"
         "daily_load.sql" None 0%nat)
  = Ok (Some ("-- " +:+ ("sales/orders" +:+ "/" +:+ "u1" +:+ "_" +:+ "ds1" +:+ "_"
                         +:+ "1700000001" +:+ "_" +:+ "daily_load.sql"))).
Proof.
  apply (X24_read_sql_file_finds_pattern sample_listing sample_object_text
           "dlz" "sales/orders/" None
           ["sales/orders/u1_ds1_1700000000_other.sql"]
           ["sales/orders/u2_ds1_1700000002_daily_load.sql"]
           "sales/orders" "u1" "ds1" "1700000001" "daily_load.sql").
  - reflexivity.
  - reflexivity.
  - reflexivity.
  - reflexivity.
  - reflexivity.
  - reflexivity.
  - reflexivity.
  - reflexivity.
  - reflexivity.
  - reflexivity.
Defined.

(** X25: an object whose base name has fewer than four pieces between
    underscores has the empty file name, so when every listed object is
    such and the name asked for is not empty, [read_sql_file] reads
    nothing and returns [None]. *)
Theorem X25_unpatterned_keys_not_found
    (list_bucket_objects : string -> string -> option string -> result (list string))
    (get_object_text : string -> string -> result string)
    (bucket_name prefix sql_file_name : string) (region_name : option string)
    (keys : list string) (n : nat) :
  list_bucket_objects bucket_name prefix region_name = Ok keys ->
  sql_file_name <> EmptyString ->
  (forall key, In key keys ->
     (length (str_split "_" (List.last (str_split "/" key) EmptyString)) <= 3)%nat) ->
  read_sql_file list_bucket_objects get_object_text bucket_name prefix
    sql_file_name region_name n
  = mk_outcome (Ok None) n
      [ EvLog INFO "In read_sql_file, Bucket: %s, Prefix: %s, Filename %s";
        EvLog INFO "File : %s not found. Check the file name." ].
Proof.
  intros Hlist Hname Hshort.
  rewrite (SqlFile.read_sql_file_find _ _ _ _ _ _ _ _ Hlist).
  rewrite SqlFile.read_sql_file_loop_find.
  assert (Hfind : find (names_file sql_file_name) keys = None).
  { clear Hlist. induction keys as [|key keys IH]; [reflexivity|].
    cbn [find]. unfold names_file at 1.
    rewrite (SqlFile.filename_of_short key) by (apply Hshort; now left).
    destruct (String.eqb_spec EmptyString sql_file_name) as [Heq|_].
    - now symmetry in Heq.
    - apply IH. intros key' Hin. apply Hshort. now right. }
  rewrite Hfind. reflexivity.
Qed.

Lemma X25_unpatterned_keys_not_found_witness :
  res (read_sql_file (fun _ _ _ => Ok ["sales/orders/daily_load.sql"])
         sample_object_text "dlz" "sales/orders/" "daily_load.sql" None 0%nat)
  = Ok None.
Proof.
  rewrite (X25_unpatterned_keys_not_found
             (fun _ _ _ => Ok ["sales/orders/daily_load.sql"])
             sample_object_text "dlz" "sales/orders/" "daily_load.sql" None
             ["sales/orders/daily_load.sql"] 0%nat).
  - reflexivity.
  - reflexivity.
  - discriminate.
  - intros key [<-|[]]. vm_compute. lia.
Defined.
